(* ===== verification/_CoqProject ===== *)
-Q . S2P
Prelude.v
Models.v
Session.v
Auth.v
Cart.v
Checkout.v
Interleave.v
Recs.v
Admin.v
Analytics.v
Pages.v
System.v
Tokens.v
Seed.v
Keys.v
CartRace.v
MixedRace.v
Money.v
