(* ===== verification/Prelude.v ===== *)
(** * Standout Store: a verification development of the storefront

    The repository is a FastAPI storefront ([src/main.py]) over a
    SQLModel schema ([src/models.py]) with a content-similarity
    recommender ([src/recs.py]), JWT/argon2 authentication
    ([src/auth.py]) and a SQLite engine ([src/database.py]).  The
    websocket hub [hub] is imported from [app/ws.py], which is not part
    of [src/]: it is modelled from section 4.3 of the specification.

    ** Parts of the program and how they interact

    Every endpoint opens one SQLAlchemy [Session] on the shared SQLite
    database, reads and writes the tables through it, commits
    explicitly, and loses uncommitted work when the request ends.  The
    cart endpoints create a user's cart lazily; [checkout] validates the
    cart against stock, commits an [Order], then decrements stock,
    writes [OrderItem] snapshots and [purchase] events and deletes the
    cart lines in a second commit.  The product page calls the
    recommender, which fits a TF-IDF vectoriser over all descriptions.
    Admin endpoints (behind [get_current_admin]) toggle stock and
    broadcast it to the hub, import products from CSV and set feature
    flags; analytics append and count events.

    ** Files, in dependency order

    - [Prelude] (this file): the [store] hint databases and tactics,
      [star] (runs of a step relation), [pool]s of request threads run
      by a schedule ([pstep], [run_pool]), money as exact rationals with
      Python's [round(x, 2)], Python's slice [l[:n]], shared list lemmas.
    - [Models]: one Module per table of [models.py] (Record with the
      class's fields), the database [DB] as a Record of tables in rowid
      order, SQLite rowid allocation [next_id], [session.get] ([get]),
      row insert/update/delete and the selects of the handlers.
    - [Session]: the request monad [M] over a session holding the
      committed and the working database; [commit], [raise], HTTP
      errors and crashes ([AttributeError] on a missing row);
      [run_handler] returns the committed database, which is the
      rollback that closing the session performs.
    - [Auth]: the dependency chain of a protected endpoint: FastAPI's
      [OAuth2PasswordBearer] reading the [Authorization] header
      ([oauth2_scheme]: the scheme before the first space, ["bearer"]
      in any case), [get_current_user] (with its [not token] test) and
      [get_current_admin], run before the body ([with_user],
      [with_admin]); [api_signup], [api_login]; argon2 and JWT are the
      classes [PasswordHasher] and [Jwt] with their laws, and test
      instances.
    - [Cart]: [get_or_create_cart], [add_to_cart], [get_cart], with
      pure counterparts and the cart invariant [cart_wf].
    - [Checkout]: [checkout] and its loops, their pure counterparts
      ([validate_pure], [apply_lines], [delete_lines]) and run lemmas.
    - [Interleave]: checkout as atomic database steps of request
      threads ([step_thread], [wstep]) over the generic [pool]: the
      validation on the lines it selected, the [Order] commit (which
      expires every object of the session), the commit loop reloading
      each line and keeping the session's identity map, the second
      commit, and a request dying between its commits.
    - [Recs]: [recommend_for_product] and [product_page]; scikit-learn
      and numpy are the classes [TfidfVectorizer] and [ArgSort] with
      their laws, instantiated by a token-overlap vectoriser and by
      stdpp's merge sort.
    - [Admin]: the [Notifier] interface and the hub; [admin_toggle_stock]
      with its broadcast, [admin_upload] ([NumParse] for [float]/[int];
      the rows of [csv.DictReader], [None] in a short row's missing
      fields; the NOT NULL failure of the commit), [admin_flags].
    - [Analytics]: [track], [analytics_summary] with [Counter] as an
      insertion-ordered association list and [most_common] as a stable
      sort by decreasing count; [counter_ref], what a Counter means.
    - [Pages]: [home] and [admin_page] (the data their templates
      receive) and the websocket endpoint [inventory_ws]: connect, then
      one [ws_receive] per frame until the peer goes away.
    - [System]: the application: [request] (one constructor per
      endpoint, the socket's connect and frames included), [serve]
      (dependency then handler in a fresh session), [sys_step] (one
      request, served with the token functions of its own time), the
      invariants of all runs, and the socket among the other requests
      ([ws_step]); [rq_authorization], the header of a protected request.
    - [Tokens]: [create_access_token] with its ["exp"] ([expires_delta
      or] the 60-minute default) and the expiry check of [jwt.decode],
      with the time as an argument; [jwt_at now] is the [Jwt] a request
      served at [now] uses, and [serve_at now] serves a request then;
      what a token is worth across requests, and signup and login at
      two times.
    - [Seed]: [on_startup] as its three conditional seeding steps and
      the commit; its idempotence and the store invariant it keeps.
    - [Keys]: [db_wf], the keys of the schema (unique rowids in every
      table, unique emails and category slugs, one cart per user, one
      line per product in a cart, unique flag names), and that every
      handler, the startup seed and so every run keep it.
    - [CartRace]: [add_to_cart] with [get_or_create_cart] as atomic
      database steps of request threads ([step_add], [astep]), run by a
      scheduler ([run_aschedule]).
    - [MixedRace]: checkout and [add_to_cart] threads in one pool.
    - [Money]: the subtotal of a cart line in binary64 (Rocq's
      primitive floats, IEEE 754 with ties to even, as CPython's) with
      CPython's correctly rounded [round(x, 2)].

    ** What the theorems show

    - Checkout: all-or-nothing on failure, the error names the first
      out-of-stock product, success empties the cart, decrements each
      product by its cart quantity, records order lines and events, and
      its total equals [get_cart]'s; stock stays non-negative under the
      cart invariant and stock plus units sold is conserved.
    - Cart: [add_to_cart] merges into one line per product and keeps
      the cart invariant; its guards; [get_cart]'s rounding.
    - Concurrency, each by a schedule the code allows: interleaved
      checkouts oversell, lose a decrement and leave an order without
      lines when a request dies ([concurrent_checkout_anomalies]); a
      checkout submitted twice commits a second, phantom order and fails
      with [ObjectDeletedError] ([double_checkout_phantom_order]);
      interleaved [add_to_cart] requests create two carts for one user,
      two lines for one product (which the next checkout oversells) or
      lose an increment ([concurrent_add_to_cart_races]); an add to the
      line of a checkout in progress is ordered unvalidated and
      uncharged, or lost, ends no serial order reaches
      ([add_during_checkout_lost]).
    - Recommendations: self exclusion for every [n], at most [n]
      distinct products for [n >= 1], the result is the top [n] of a
      similarity-sorted permutation; for [n <= 0] one product or none
      ([recommend_n_unchecked]); an empty vocabulary raises even for an
      unknown id.
    - Accounts: the dependencies accept exactly a ["bearer"] header
      with a non-empty token that decodes to an existing account
      ([current_user_accepts]) and refuse every other header with 401;
      signup at one time and login at another ([signup_login_roundtrip]),
      unique emails, admin guard; a token signup or login hands out
      works for exactly 3600 s, and after that every protected endpoint
      answers 401 and changes nothing ([token_session_lifetime]).
      Admin: toggle and broadcast, all-or-nothing upload with its three
      exceptions, flag upsert.  Analytics: the top-5 is a correct top-k,
      and ties keep the order of first purchase
      ([summarize_ties_first_purchase]).
    - System: along every run (each request served at its own time),
      committed history is append-only; stock
      non-negativity and cart well-formedness hold (given non-negative
      uploaded stocks); stock plus units sold is constant without the
      admin toggle.  Seeding at startup is idempotent.  From the empty
      database, startup and every run keep [db_wf] ([reachable_db_wf]).
      A socket connected by [inventory_ws] receives every later stock
      toggle until it closes ([inventory_ws_delivers]), and no other
      request sends anything on the hub ([only_toggle_notifies]).
    - Money: for whole-cent prices below 100.00 and quantities 1..10
      the binary64 subtotal is the double nearest the rational model's
      ([float_subtotal_refines]); at 1.015 they differ.
    - Findings: racing requests duplicate carts and lines, oversell,
      lose updates and create phantom orders (shown on concrete
      schedules); non-positive quantities and negative uploaded stock
      are accepted; [n = 0] can return one recommendation; an empty
      vocabulary raises; analytics ties are in first-purchase order;
      checkout does not notify the hub.

    ** Bounds and fuel

    Every loop of the code is a structural recursion over a finite list
    (cart lines, CSV rows, the ranking), so no fuel is needed.  The
    schedulers of [Interleave], [CartRace] and [MixedRace] run a given
    finite schedule ([run_pool]); every schedule is a run of the step
    relation ([run_pool_star]), so the interleavings shown are ones the
    code allows.  [float_subtotal_refines] is
    checked by evaluation over all 10^4 prices and 10 quantities of its
    range ([cents_agree_all]); wider ranges cost proportionally more
    checking time.

    ** What is not modelled

    The handlers compute money in exact rationals [Q]: a price is the
    decimal the catalog holds and [round(x, 2)] is round-half-even of
    [100 x].  [Money] shows this agrees with binary64 on line subtotals
    of whole-cent prices below 100.00 and up to 10 units; the binary64
    accumulation of a total over several lines is not modelled, and
    prices with a third decimal are where the two differ.  Integers
    are unbounded ([Z]), as Python's are.  Timestamps, HTML rendering
    (Jinja2 templates, files outside [src/] that a library renders; the
    pages are modelled by the data they receive), static files, the CSV
    text format (rows are the dictionaries [csv.DictReader] yields,
    with [None] for a short row's missing fields) and the database's
    UNIQUE constraints' IntegrityError are not modelled
    ([reachable_db_wf] shows the handlers never reach them on
    serialised runs).  The serialised runs of [System] serve one
    request after another; the concurrent runs are those of
    [Interleave], [CartRace] and [MixedRace], which cut [checkout] and
    [add_to_cart] at their database accesses and leave the other
    handlers atomic.  The clock is an argument of the token functions
    ([Tokens]), fixed for the length of one request.  [SECRET_KEY],
    [DATABASE_URL] and the other environment variables are
    configuration, read once; the websocket's frames are events, not an
    async loop; a peer that vanishes without a close frame is not
    modelled (the hub's gone sockets are fixed by the state a run
    starts from);
    TF-IDF, cosine similarity, argsort, argon2 and JWT are library
    calls modelled by their laws; of FastAPI's [OAuth2PasswordBearer]
    the header parsing is modelled, not the [WWW-Authenticate] header
    of its 401 response.  The binary64 accumulation of a total needs
    an error analysis of floating-point addition that the Standard
    Library's primitive floats do not provide (only their evaluation),
    so only one line's subtotal is checked, by evaluation. *)

From Stdlib Require Export QArith Qround ZArith Lia Sorted.
From stdpp Require Export base list strings sets.

Declare Scope store_scope.
Delimit Scope store_scope with store.
Open Scope Z_scope.

Create HintDb store.
Create Rewrite HintDb store_rw.

(** ** Tactics shared by the development *)

Ltac invc H := inversion H; subst; clear H.

(** Split the boolean tests of a goal into their propositional cases. *)
Ltac destruct_zcmp :=
  repeat match goal with
  | |- context [Z.ltb ?a ?b] => destruct (Z.ltb_spec a b)
  | |- context [Z.leb ?a ?b] => destruct (Z.leb_spec a b)
  | |- context [Z.eqb ?a ?b] => destruct (Z.eqb_spec a b)
  end.

(** ** Sequences of steps *)

Section Star.
Context {A : Type} (R : A -> A -> Prop).

(** Zero or more steps of [R]. *)
Inductive star : A -> A -> Prop :=
  | star_refl a : star a a
  | star_step a b c : R a b -> star b c -> star a c.

Lemma star_one a b : R a b -> star a b.
Proof. intros H. econstructor; [exact H|constructor]. Qed.

Lemma star_trans a b c : star a b -> star b c -> star a c.
Proof. induction 1; intros; [done|]. econstructor; eauto. Qed.

(** An invariant of [R] holds along [star R]. *)
Lemma star_invariant (P : A -> Prop) :
  (forall a b, P a -> R a b -> P b) -> forall a b, star a b -> P a -> P b.
Proof. intros Hpres a b H. induction H; eauto. Qed.
End Star.

(** A run of a relation is a run of any larger one. *)
Lemma star_mono {A} (R R' : A -> A -> Prop) :
  (forall a b, R a b -> R' a b) -> forall a b, star R a b -> star R' a b.
Proof. intros HR a b H. induction H; econstructor; eauto. Qed.

#[export] Hint Constructors star : store.
#[export] Hint Resolve star_one star_trans : store.

(** ** Pools of request threads over a shared state *)

(** Requests that run concurrently, each a thread stepping atomically
    against the shared state [S]; a schedule names the thread that moves
    next. *)
Record pool (S T : Type) := mkPool { shared_of : S; threads_of : list T }.
Arguments mkPool {S T} _ _.
Arguments shared_of {S T} _.
Arguments threads_of {S T} _.

Section Pool.
Context {S T : Type} (step : S -> T -> option (S * T)).

Inductive pstep : pool S T -> pool S T -> Prop :=
  | pstep_run p i t s' t' :
      threads_of p !! i = Some t ->
      step (shared_of p) t = Some (s', t') ->
      pstep p (mkPool s' (<[i := t']> (threads_of p))).

(** Thread [i] moves, if it can. *)
Definition step_pool (i : nat) (p : pool S T) : pool S T :=
  match threads_of p !! i with
  | Some t =>
      match step (shared_of p) t with
      | Some (s', t') => mkPool s' (<[i := t']> (threads_of p))
      | None => p
      end
  | None => p
  end.

Definition run_pool (sched : list nat) (p : pool S T) : pool S T :=
  fold_left (fun p i => step_pool i p) sched p.

Lemma step_pool_star i p : star pstep p (step_pool i p).
Proof.
  unfold step_pool. destruct (threads_of p !! i) as [t|] eqn:Ht; [|constructor].
  destruct (step (shared_of p) t) as [[s' t']|] eqn:Hs; [|constructor].
  apply star_one. by eapply pstep_run.
Qed.

(** Every schedule is a run of [pstep]. *)
Lemma run_pool_star sched p : star pstep p (run_pool sched p).
Proof.
  revert p. induction sched as [|i sched IH]; intros p; [constructor|].
  cbn. eapply star_trans; [apply step_pool_star|apply IH].
Qed.
End Pool.

(** ** Money: Python floats as exact rationals *)

(** Round half to even of a rational, the tie rule of Python's [round]. *)
Definition round_half_even (q : Q) : Z :=
  let f := Qfloor q in
  match Qcompare (q - inject_Z f) (1 # 2) with
  | Lt => f
  | Gt => f + 1
  | Eq => if Z.even f then f else f + 1
  end.

(** [round(x, 2)]. *)
Definition round2 (x : Q) : Q := round_half_even (x * 100) # 100.

(** [p.price * it.qty], a float times a Python int. *)
Definition qmul (price : Q) (qty : Z) : Q := (price * inject_Z qty)%Q.

(** [sum(f(x) for x in l)] over Python ints. *)
Definition sumZ {A} (f : A -> Z) (l : list A) : Z := fold_right (fun x acc => f x + acc) 0 l.

(** ** Python slicing [l[:n]] *)

(** A negative bound counts from the end; the result is clamped. *)
Definition py_slice_to {A} (n : Z) (l : list A) : list A :=
  if Z.leb 0 n then take (Z.to_nat n) l
  else take (Z.to_nat (Z.of_nat (length l) + n)) l.

(** ** Lemmas on money *)

#[export] Instance round_half_even_proper : Proper (Qeq ==> eq) round_half_even.
Proof.
  intros x y Hxy. unfold round_half_even.
  rewrite (Qfloor_comp x y Hxy).
  assert (Hd : (x - inject_Z (Qfloor y) == y - inject_Z (Qfloor y))%Q)
    by (rewrite Hxy; reflexivity).
  rewrite (Qcompare_comp _ _ Hd (1 # 2) (1 # 2) (Qeq_refl _)). reflexivity.
Qed.

#[export] Instance round2_proper : Proper (Qeq ==> eq) round2.
Proof. intros x y Hxy. unfold round2. now rewrite Hxy. Qed.

Lemma round_half_even_Z (z : Z) : round_half_even (inject_Z z) = z.
Proof.
  unfold round_half_even. rewrite Qfloor_Z.
  assert (H : (inject_Z z - inject_Z z == 0)%Q) by ring.
  now rewrite (Qcompare_comp _ _ H (1 # 2) (1 # 2) (Qeq_refl _)).
Qed.

(** A price that is a whole number of cents is left alone by [round2]. *)
Lemma round2_cents (c : Z) : round2 (c # 100) = c # 100.
Proof.
  unfold round2.
  assert (H : ((c # 100) * 100 == inject_Z c)%Q).
  { unfold Qeq, Qmult, inject_Z; simpl. lia. }
  now rewrite H, round_half_even_Z.
Qed.

Lemma round2_idem (x : Q) : round2 (round2 x) = round2 x.
Proof. unfold round2 at 2. apply round2_cents. Qed.

(** ** Lemmas on sums *)

Lemma sumZ_cons {A} (f : A -> Z) (x : A) (l : list A) : sumZ f (x :: l) = f x + sumZ f l.
Proof. reflexivity. Qed.

Lemma sumZ_app {A} (f : A -> Z) (l1 l2 : list A) : sumZ f (l1 ++ l2) = sumZ f l1 + sumZ f l2.
Proof. induction l1 as [|x l1 IH]; simpl; [done | rewrite IH; lia]. Qed.

Lemma sumZ_ext {A} (f g : A -> Z) (l : list A) :
  (forall x, x ∈ l -> f x = g x) -> sumZ f l = sumZ g l.
Proof.
  induction l as [|x l IH]; intros H; simpl; [done|].
  rewrite H, IH; [done| |]; set_solver.
Qed.

#[export] Hint Rewrite @sumZ_cons @sumZ_app : store_rw.

(** ** Lemmas on lists *)

Lemma find_app {A} (f : A -> bool) (l1 l2 : list A) :
  List.find f (l1 ++ l2) =
  match List.find f l1 with Some x => Some x | None => List.find f l2 end.
Proof. induction l1 as [|x l1 IH]; simpl; [done|]. by destruct (f x). Qed.

(** A select by a string column that finds nothing: no row has that key. *)
Lemma find_key_None {A} (k : A -> string) (l : list A) (s : string) :
  List.find (fun x => String.eqb (k x) s) l = None -> s ∉ map k l.
Proof.
  intros Hf Hin. apply list_elem_of_fmap in Hin as (x & -> & Hx).
  apply list_elem_of_In in Hx. pose proof (find_none _ _ Hf x Hx) as Hb. cbn in Hb.
  by rewrite String.eqb_refl in Hb.
Qed.

Lemma NoDup_map_filter {A B} (f : A -> B) (g : A -> bool) l :
  NoDup (map f l) -> NoDup (map f (List.filter g l)).
Proof.
  induction l as [|x l IH]; cbn; [done|]. intros Hnd. apply NoDup_cons in Hnd as [Hx Hnd].
  destruct (g x); cbn; [|auto]. constructor; [|auto].
  intros Hin. apply Hx. apply list_elem_of_In in Hin. apply list_elem_of_In.
  apply in_map_iff in Hin as (y & <- & Hy). apply filter_In in Hy as [Hy _]. by apply in_map.
Qed.

Lemma NoDup_map_take {A B} (f : A -> B) k l : NoDup (map f l) -> NoDup (map f (take k l)).
Proof.
  intros H. rewrite <- firstn_map. rewrite <- (take_drop k (map f l)) in H.
  by apply NoDup_app in H as [? _].
Qed.

Lemma length_filter_le_list {A} (f : A -> bool) l : (length (List.filter f l) <= length l)%nat.
Proof. induction l as [|x l IH]; cbn; [lia|]. destruct (f x); cbn; lia. Qed.

(** The same for an integer column. *)
Lemma find_zkey_None {A} (k : A -> Z) (l : list A) (z : Z) :
  List.find (fun x => Z.eqb (k x) z) l = None -> z ∉ map k l.
Proof.
  intros Hf Hin. apply list_elem_of_fmap in Hin as (x & -> & Hx).
  apply list_elem_of_In in Hx. pose proof (find_none _ _ Hf x Hx) as Hb. cbn in Hb.
  by rewrite Z.eqb_refl in Hb.
Qed.

(** Appending a key absent from a list of distinct keys. *)
Lemma NoDup_snoc_map {A B} (k : A -> B) (l : list A) (x : A) :
  NoDup (map k l) -> k x ∉ map k l -> NoDup (map k (l ++ [x])).
Proof.
  intros Hnd Hx. rewrite map_app. apply NoDup_app. split; [done|].
  split; [|by constructor; [set_solver|constructor]].
  intros y Hy ->%list_elem_of_singleton. done.
Qed.

Lemma filter_filter {A} (f g : A -> bool) (l : list A) :
  List.filter f (List.filter g l) = List.filter (fun x => g x && f x) l.
Proof. induction l as [|x l IH]; simpl; [done|]. destruct (g x); simpl; [|done]. by rewrite IH. Qed.

Lemma filter_all_false {A} (f : A -> bool) (l : list A) :
  (forall x, x ∈ l -> f x = false) -> List.filter f l = [].
Proof.
  induction l as [|x l IH]; intros H; simpl; [done|].
  rewrite H by set_solver. apply IH. set_solver.
Qed.

Lemma filter_ext_in {A} (f g : A -> bool) (l : list A) :
  (forall x, x ∈ l -> f x = g x) -> List.filter f l = List.filter g l.
Proof.
  induction l as [|x l IH]; intros H; simpl; [done|].
  rewrite H by set_solver. rewrite IH; [done|]. set_solver.
Qed.

(** ** Lemmas on Python slicing *)

Lemma py_slice_to_nonneg {A} (n : Z) (l : list A) :
  0 <= n -> py_slice_to n l = take (Z.to_nat n) l.
Proof. intros H. unfold py_slice_to. destruct (Z.leb_spec 0 n); [done | lia]. Qed.

Lemma py_slice_to_length {A} (n : Z) (l : list A) :
  (length (py_slice_to n l) <= length l)%nat.
Proof. unfold py_slice_to. destruct (Z.leb 0 n); rewrite length_take; lia. Qed.

#[export] Hint Resolve py_slice_to_length : store.
#[export] Hint Rewrite round2_idem round2_cents : store_rw.
