(* ===== verification/Models.v ===== *)
(** * Models: the tables of [src/models.py] and the database

    One Module per SQLModel class, holding its Record with the class's
    fields ([created_at] timestamps are left out: no modelled behaviour
    reads them).  The database [DB] is a Record of tables; a table is a
    list of rows in rowid order, which is the order in which SQLite
    returns the rows of a select without [ORDER BY].  New rows get
    SQLite's rowid: one more than the largest rowid in the table (1
    for an empty table), so they are appended.  [get] is
    [session.get(Model, id)], [first] is [.first()] of a select. *)

From S2P Require Import Prelude.

Module User.
Record User := mkUser {
  id : Z; email : string; hashed_password : string; is_admin : bool }.
End User.
Abbreviation User := User.User.

Module Category.
Record Category := mkCategory { id : Z; name : string; slug : string }.
End Category.
Abbreviation Category := Category.Category.

Module Product.
Record Product := mkProduct {
  id : Z; title : string; description : string; price : Q;
  image_url : option string; stock : Z; category_id : option Z;
  variant_a_title : option string; variant_b_title : option string;
  variant_a_desc : option string; variant_b_desc : option string }.

(** [p.stock = s] on a loaded row. *)
Definition set_stock (p : Product) (s : Z) : Product :=
  {| id := id p; title := title p; description := description p;
     price := price p; image_url := image_url p; stock := s;
     category_id := category_id p; variant_a_title := variant_a_title p;
     variant_b_title := variant_b_title p; variant_a_desc := variant_a_desc p;
     variant_b_desc := variant_b_desc p |}.
End Product.
Abbreviation Product := Product.Product.

Module Cart.
Record Cart := mkCart { id : Z; user_id : Z }.
End Cart.
Abbreviation Cart := Cart.Cart.

Module CartItem.
Record CartItem := mkCartItem { id : Z; cart_id : Z; product_id : Z; qty : Z }.

Definition set_qty (it : CartItem) (q : Z) : CartItem :=
  mkCartItem (id it) (cart_id it) (product_id it) q.
End CartItem.
Abbreviation CartItem := CartItem.CartItem.

Module Order.
Record Order := mkOrder { id : Z; user_id : Z; total : Q }.
End Order.
Abbreviation Order := Order.Order.

Module OrderItem.
Record OrderItem := mkOrderItem {
  id : Z; order_id : Z; product_id : Z; qty : Z; price_each : Q }.
End OrderItem.
Abbreviation OrderItem := OrderItem.OrderItem.

Module Event.
Record Event := mkEvent {
  id : Z; user_id : option Z; type : string; product_id : option Z;
  meta : option string }.
End Event.
Abbreviation Event := Event.Event.

Module FeatureFlag.
Record FeatureFlag := mkFeatureFlag { id : Z; name : string; enabled : bool }.
End FeatureFlag.
Abbreviation FeatureFlag := FeatureFlag.FeatureFlag.

(** ** Rows and their primary key *)

Class HasId (A : Type) := row_id : A -> Z.
#[export] Instance User_id : HasId User := User.id.
#[export] Instance Category_id : HasId Category := Category.id.
#[export] Instance Product_id : HasId Product := Product.id.
#[export] Instance Cart_id : HasId Cart := Cart.id.
#[export] Instance CartItem_id : HasId CartItem := CartItem.id.
#[export] Instance Order_id : HasId Order := Order.id.
#[export] Instance OrderItem_id : HasId OrderItem := OrderItem.id.
#[export] Instance Event_id : HasId Event := Event.id.
#[export] Instance FeatureFlag_id : HasId FeatureFlag := FeatureFlag.id.

(** ** The database *)

Record DB := mkDB {
  users : list User; categories : list Category; products : list Product;
  carts : list Cart; cart_items : list CartItem; orders : list Order;
  order_items : list OrderItem; events : list Event; flags : list FeatureFlag }.

Definition set_users (f : list User -> list User) (d : DB) : DB :=
  mkDB (f (users d)) (categories d) (products d) (carts d) (cart_items d)
       (orders d) (order_items d) (events d) (flags d).
Definition set_categories (f : list Category -> list Category) (d : DB) : DB :=
  mkDB (users d) (f (categories d)) (products d) (carts d) (cart_items d)
       (orders d) (order_items d) (events d) (flags d).
Definition set_products (f : list Product -> list Product) (d : DB) : DB :=
  mkDB (users d) (categories d) (f (products d)) (carts d) (cart_items d)
       (orders d) (order_items d) (events d) (flags d).
Definition set_carts (f : list Cart -> list Cart) (d : DB) : DB :=
  mkDB (users d) (categories d) (products d) (f (carts d)) (cart_items d)
       (orders d) (order_items d) (events d) (flags d).
Definition set_cart_items (f : list CartItem -> list CartItem) (d : DB) : DB :=
  mkDB (users d) (categories d) (products d) (carts d) (f (cart_items d))
       (orders d) (order_items d) (events d) (flags d).
Definition set_orders (f : list Order -> list Order) (d : DB) : DB :=
  mkDB (users d) (categories d) (products d) (carts d) (cart_items d)
       (f (orders d)) (order_items d) (events d) (flags d).
Definition set_order_items (f : list OrderItem -> list OrderItem) (d : DB) : DB :=
  mkDB (users d) (categories d) (products d) (carts d) (cart_items d)
       (orders d) (f (order_items d)) (events d) (flags d).
Definition set_events (f : list Event -> list Event) (d : DB) : DB :=
  mkDB (users d) (categories d) (products d) (carts d) (cart_items d)
       (orders d) (order_items d) (f (events d)) (flags d).
Definition set_flags (f : list FeatureFlag -> list FeatureFlag) (d : DB) : DB :=
  mkDB (users d) (categories d) (products d) (carts d) (cart_items d)
       (orders d) (order_items d) (events d) (f (flags d)).

(** ** Table operations *)

Section Table.
Context {A : Type} `{HasId A}.

(** [session.get(Model, i)]. *)
Definition get (tbl : list A) (i : Z) : option A :=
  List.find (fun r => Z.eqb (row_id r) i) tbl.

(** The rowid SQLite gives the next inserted row. *)
Definition next_id (tbl : list A) : Z :=
  fold_right (fun r m => Z.max (row_id r) m) 0 tbl + 1.

(** [session.add(row)] of a new row, flushed. *)
Definition insert_row (tbl : list A) (r : A) : list A := tbl ++ [r].

(** Flushing an attribute change of a loaded row. *)
Definition update_row (tbl : list A) (r : A) : list A :=
  map (fun x => if Z.eqb (row_id x) (row_id r) then r else x) tbl.

(** [session.delete(row)]. *)
Definition delete_row (tbl : list A) (i : Z) : list A :=
  List.filter (fun x => negb (Z.eqb (row_id x) i)) tbl.

(** The primary key: no two rows share a rowid. *)
Definition ids_unique (tbl : list A) : Prop := NoDup (map row_id tbl).
End Table.

(** ** Selects used by the handlers *)

(** [select(Cart).where(Cart.user_id == uid)].first() *)
Definition cart_of_user (d : DB) (uid : Z) : option Cart :=
  List.find (fun c => Z.eqb (Cart.user_id c) uid) (carts d).

(** [select(CartItem).where(CartItem.cart_id == cid)].all() *)
Definition items_of_cart (d : DB) (cid : Z) : list CartItem :=
  List.filter (fun it => Z.eqb (CartItem.cart_id it) cid) (cart_items d).

(** [select(CartItem).where(cart_id == cid, product_id == pid)].first() *)
Definition find_item (d : DB) (cid pid : Z) : option CartItem :=
  List.find (fun it => Z.eqb (CartItem.cart_id it) cid && Z.eqb (CartItem.product_id it) pid)
    (cart_items d).

(** The stock of a product, as the code reads it with [session.get]. *)
Definition stock_of (d : DB) (pid : Z) : option Z :=
  Product.stock <$> get (products d) pid.

(** ** Lemmas on tables *)

Section TableLemmas.
Context {A : Type} `{HasId A}.
Implicit Types (tbl : list A) (r : A).

Lemma get_Some tbl i r : get tbl i = Some r -> row_id r = i /\ r ∈ tbl.
Proof.
  unfold get. intros Hf. split.
  - apply find_some in Hf as [_ Hb]. now apply Z.eqb_eq.
  - apply find_some in Hf as [Hin _]. now apply list_elem_of_In.
Qed.

Lemma get_update_row tbl r i :
  get (update_row tbl r) i =
  if Z.eqb i (row_id r) then (match get tbl i with Some _ => Some r | None => None end)
  else get tbl i.
Proof.
  unfold get, update_row. induction tbl as [|x tbl IH]; simpl.
  - by destruct (Z.eqb i (row_id r)).
  - destruct (Z.eqb_spec (row_id x) (row_id r)) as [Hx|Hx]; simpl.
    + destruct (Z.eqb_spec (row_id r) i), (Z.eqb_spec i (row_id r)),
        (Z.eqb_spec (row_id x) i); try lia; done.
    + destruct (Z.eqb_spec (row_id x) i); [|done].
      destruct (Z.eqb_spec i (row_id r)); [lia|done].
Qed.

Lemma get_insert_row tbl r i :
  get (insert_row tbl r) i =
  match get tbl i with Some x => Some x | None => if Z.eqb (row_id r) i then Some r else None end.
Proof.
  unfold get, insert_row. induction tbl as [|x tbl IH]; simpl.
  - by destruct (Z.eqb (row_id r) i).
  - by destruct (Z.eqb (row_id x) i).
Qed.

Lemma next_id_gt tbl r : r ∈ tbl -> row_id r < next_id tbl.
Proof.
  unfold next_id. induction tbl as [|x tbl IH]; simpl; intros Hin.
  - by apply not_elem_of_nil in Hin.
  - apply elem_of_cons in Hin as [->|Hin]; [lia|]. specialize (IH Hin). lia.
Qed.

Lemma next_id_fresh tbl : next_id tbl ∉ map row_id tbl.
Proof.
  intros Hin. apply list_elem_of_fmap in Hin as (r & Heq & Hr).
  pose proof (next_id_gt tbl r Hr). lia.
Qed.

Lemma get_next_id tbl : get tbl (next_id tbl) = None.
Proof.
  destruct (get tbl (next_id tbl)) as [r|] eqn:E; [|done].
  apply get_Some in E as [Hid Hin]. pose proof (next_id_gt tbl r Hin). lia.
Qed.

(** Updating a row of a table with a primary key changes that row only. *)
Lemma update_row_split tbl r0 r :
  ids_unique tbl -> r0 ∈ tbl -> row_id r = row_id r0 ->
  exists l1 l2, tbl = l1 ++ r0 :: l2 /\ update_row tbl r = l1 ++ r :: l2.
Proof.
  unfold ids_unique, update_row. intros Hnd Hin Hid.
  apply list_elem_of_split in Hin as (l1 & l2 & ->). exists l1, l2. split; [done|].
  rewrite map_app in Hnd |- *. cbn in Hnd |- *.
  apply NoDup_app in Hnd as (_ & Hdis & Hnd2). apply NoDup_cons in Hnd2 as [Hn2 _].
  rewrite Hid, Z.eqb_refl. f_equal; [|f_equal].
  - rewrite <- (map_id l1) at 2. apply map_ext_in. intros x Hx.
    destruct (Z.eqb_spec (row_id x) (row_id r0)) as [E|]; [|done].
    exfalso. apply (Hdis (row_id x)); [apply list_elem_of_fmap; exists x; split;
      [done|by apply list_elem_of_In]|]. rewrite E. set_solver.
  - rewrite <- (map_id l2) at 2. apply map_ext_in. intros x Hx.
    destruct (Z.eqb_spec (row_id x) (row_id r0)) as [E|]; [|done].
    exfalso. apply Hn2. rewrite <- E. apply list_elem_of_fmap. exists x.
    split; [done|by apply list_elem_of_In].
Qed.

Lemma update_row_ids tbl r : map row_id (update_row tbl r) = map row_id tbl.
Proof.
  unfold update_row. rewrite map_map. apply map_ext. intros x.
  destruct (Z.eqb_spec (row_id x) (row_id r)); congruence.
Qed.
(** A row inserted with the next rowid keeps the rowids unique. *)
Lemma ids_unique_insert_next tbl r :
  ids_unique tbl -> row_id r = next_id tbl -> ids_unique (insert_row tbl r).
Proof.
  unfold ids_unique, insert_row. intros Hnd Hr. rewrite map_app. cbn. apply NoDup_app.
  split; [done|]. split; [|by constructor; [set_solver|constructor]].
  intros x Hx ->%list_elem_of_singleton. rewrite Hr in Hx. by apply (next_id_fresh tbl).
Qed.
End TableLemmas.

#[export] Hint Resolve next_id_fresh get_next_id : store.

(** ** Sample databases: the scenarios of the specification (section 8) *)

Module Fixtures.
Definition product (i : Z) (t : string) (pr : Q) (s : Z) : Product :=
  Product.mkProduct i t "" pr None s None None None None None.
Definition prodA : Product := product 1 "A" (1999 # 100) 5.
Definition prodB : Product := product 2 "B" (750 # 100) 1.
Definition cart7 : Cart := Cart.mkCart 1 7.

(** User 7's cart holds A x 3 (stock 5) and B x 2 (stock 1). *)
Definition scenario_oos : DB :=
  mkDB [] [] [prodA; prodB] [cart7]
    [CartItem.mkCartItem 1 1 1 3; CartItem.mkCartItem 2 1 2 2] [] [] [] [].

(** User 7's cart holds A x 2 (stock 5). *)
Definition scenario_ok : DB :=
  mkDB [] [] [prodA; prodB] [cart7] [CartItem.mkCartItem 1 1 1 2] [] [] [] [].

(** User 7's cart is empty. *)
Definition scenario_empty : DB := mkDB [] [] [prodA; prodB] [cart7] [] [] [] [] [].

(** User 7's cart holds A on two lines, 3 + 3 against a stock of 5. *)
Definition scenario_dup : DB :=
  mkDB [] [] [prodA] [cart7]
    [CartItem.mkCartItem 1 1 1 3; CartItem.mkCartItem 2 1 1 3] [] [] [] [].
(** Users 7 and 8 each hold A x 3 in their carts; the stock of A is 5. *)
Definition scenario_race : DB :=
  mkDB [] [] [prodA] [cart7; Cart.mkCart 2 8]
    [CartItem.mkCartItem 1 1 1 3; CartItem.mkCartItem 2 2 1 3] [] [] [] [].
End Fixtures.
