(* ===== verification/Session.v ===== *)
(** * Session: the request monad

    Every handler of [src/main.py] receives a fresh [Session] from
    [get_session] ([src/database.py]) and the session is closed when
    the request ends, which rolls back whatever was not committed.  A
    handler is therefore modelled as a computation over a [session]
    with two databases: [committed] (what other requests see) and
    [working] (the rows the session has added or changed; reads see
    them, since SQLAlchemy autoflushes before a query).  [commit]
    publishes the working database.  A handler ends with a value or an
    exception: an [HTTPException] raised by the code, or an
    [AttributeError] raised by Python when the code dereferences a
    [None] row, or a [ValueError]/[IndexError] raised inside a library
    call.  [run_handler] starts from a database and returns the
    committed database and the result, discarding uncommitted work. *)

From S2P Require Import Prelude Models.

Inductive exc :=
  | HTTPException (status_code : Z) (detail : string)
  | AttributeError (what : string)
  | ValueError (what : string)
  | TypeError (what : string)
  | IndexError
  (** SQLAlchemy's [ObjectDeletedError]: an expired object whose row is gone *)
  | ObjectDeletedError
  (** SQLite's [IntegrityError] at the flush (a NOT NULL column left empty) *)
  | IntegrityError (what : string).

Inductive result (A : Type) :=
  | Ok (a : A)
  | Err (e : exc).
Arguments Ok {A} a.
Arguments Err {A} e.

Record session := mkSession { committed : DB; working : DB }.

Definition M (A : Type) : Type := session -> session * result A.

Definition ret {A} (a : A) : M A := fun s => (s, Ok a).

Definition bind {A B} (m : M A) (k : A -> M B) : M B :=
  fun s => match m s with
           | (s', Ok a) => k a s'
           | (s', Err e) => (s', Err e)
           end.

Notation "x <- m ;; k" := (bind m (fun x => k))
  (at level 100, m at next level, right associativity) : store_scope.
Notation "m ;; k" := (bind m (fun _ => k))
  (at level 100, right associativity) : store_scope.
Open Scope store_scope.

(** Reading through the session (a select or [session.get]). *)
Definition read {A} (f : DB -> A) : M A := fun s => (s, Ok (f (working s))).

(** [session.add], [session.delete] or an attribute assignment. *)
Definition write (f : DB -> DB) : M unit :=
  fun s => (mkSession (committed s) (f (working s)), Ok tt).

(** [session.commit()]. *)
Definition commit : M unit := fun s => (mkSession (working s) (working s), Ok tt).

Definition raise {A} (e : exc) : M A := fun s => (s, Err e).

(** A request: open a session on [d], run the handler, close it. *)
Definition run_handler {A} (h : M A) (d : DB) : DB * result A :=
  let '(s, r) := h (mkSession d d) in (committed s, r).

(** [raise HTTPException(400, detail)]. *)
Definition bad_request {A} (detail : string) : M A := raise (HTTPException 400 detail).

(** [session.get(Product, pid)] followed by an attribute access:
    a missing row is [None], and [None.stock] raises. *)
Definition get_product_or_crash (pid : Z) : M Product :=
  fun s => match get (products (working s)) pid with
           | Some p => (s, Ok p)
           | None => (s, Err (AttributeError "'NoneType' object has no attribute"))
           end.

(** ** Monad laws and computation rules *)

Lemma bind_ret_l {A B} (a : A) (k : A -> M B) : bind (ret a) k = k a.
Proof. reflexivity. Qed.

(** Without function extensionality the laws are stated pointwise. *)
Lemma bind_assoc_at {A B C} (m : M A) (k : A -> M B) (h : B -> M C) s :
  bind (bind m k) h s = bind m (fun a => bind (k a) h) s.
Proof. unfold bind. destruct (m s) as [s' [a|e]]; reflexivity. Qed.

Lemma bind_ret_r_at {A} (m : M A) s : bind m ret s = m s.
Proof. unfold bind. destruct (m s) as [s' [a|e]]; reflexivity. Qed.

Lemma bind_ok {A B} (m : M A) (k : A -> M B) s s' a :
  m s = (s', Ok a) -> bind m k s = k a s'.
Proof. intros H. unfold bind. now rewrite H. Qed.

Lemma bind_err {A B} (m : M A) (k : A -> M B) s s' e :
  m s = (s', Err e) -> bind m k s = (s', Err e).
Proof. intros H. unfold bind. now rewrite H. Qed.

#[export] Hint Rewrite @bind_ret_l @bind_assoc_at @bind_ret_r_at : store_rw.
