(* ===== verification/Auth.v ===== *)
(** * Auth: [src/auth.py] and the account API of [src/main.py] (60-76)

    Password hashing (passlib's argon2) and JSON web tokens (python-jose)
    are library calls: the classes [PasswordHasher] and [Jwt] with the
    laws the code relies on ([verify_password] accepts the hash of the
    same password; decoding a token the server issued gives back its
    subject).  A decoded token is [None] when [jwt.decode] raises
    [JWTError], [Some None] when its ["sub"] is not an integer (the
    [int(...)] of line 38 raises, uncaught), [Some (Some uid)] otherwise.
    The token's expiry is part of the decoder.  The token reaches
    [get_current_user] through FastAPI's [OAuth2PasswordBearer], which
    reads the [Authorization] header ([oauth2_scheme]). *)

From S2P Require Import Prelude Models Session.

Class PasswordHasher := {
  hash_password : string -> string;
  verify_password : string -> string -> bool
}.

Class PasswordLaws `{PasswordHasher} := {
  verify_hash pw : verify_password pw (hash_password pw) = true
}.

(** The token functions in force when a request is served: the clock
    is fixed for the length of one request, and [Tokens.jwt_at now]
    gives the instance at time [now] ([create_access_token] with
    ["exp"] = [now] + 60 minutes, [jwt.decode] refusing an expired
    token).  A run of requests ([System.sys_step]) serves each request
    with the instance of its own time. *)
Class Jwt := {
  (** [create_access_token({"sub": str(uid)})] *)
  jwt_encode : Z -> string;
  (** [jwt.decode] followed by [int(payload.get("sub"))] *)
  jwt_decode : string -> option (option Z)
}.

Class JwtLaws `{Jwt} := {
  jwt_roundtrip uid : jwt_decode (jwt_encode uid) = Some (Some uid);
  (** a JWT is [header.payload.signature] *)
  jwt_encode_nonempty uid : jwt_encode uid <> EmptyString
}.

(** ** The bearer scheme ([src/auth.py] 19)

    [OAuth2PasswordBearer(tokenUrl="/api/login")] reads the
    [Authorization] header: FastAPI's [get_authorization_scheme_param]
    splits it at its first space ([str.partition(" ")]), and the scheme
    raises [HTTPException(401, "Not authenticated")] when the header is
    missing or empty or its scheme is not ["bearer"] in any case;
    otherwise it returns the rest of the header. *)

Abbreviation sp := (Ascii.Ascii false false false false false true false false).

(** [str.lower()] on one character. *)
Definition lower_ascii (c : Ascii.ascii) : Ascii.ascii :=
  let n := Ascii.nat_of_ascii c in
  if (65 <=? n)%nat && (n <=? 90)%nat then Ascii.ascii_of_nat (n + 32) else c.

Fixpoint lower (s : string) : string :=
  match s with
  | EmptyString => EmptyString
  | String c r => String (lower_ascii c) (lower r)
  end.

(** [s.partition(sep)] without the separator: the text before the first
    [sep] and the text after it (all of [s] and nothing when there is
    none). *)
Fixpoint split_at (sep : Ascii.ascii) (s : string) : string * string :=
  match s with
  | EmptyString => (EmptyString, EmptyString)
  | String c r => if Ascii.eqb c sep then (EmptyString, r) else let '(a, b) := split_at sep r in (String c a, b)
  end.

(** [fastapi.security.utils.get_authorization_scheme_param]. *)
Definition get_authorization_scheme_param (header : option string) : string * string :=
  match header with
  | None | Some EmptyString => (EmptyString, EmptyString)
  | Some h => split_at sp h
  end.

(** [oauth2_scheme(request)]: [OAuth2PasswordBearer.__call__] with
    [auto_error=True]. *)
Definition oauth2_scheme (authorization : option string) : result string :=
  let '(scheme, param) := get_authorization_scheme_param authorization in
  match authorization with
  | None | Some EmptyString => Err (HTTPException 401 "Not authenticated")
  | Some _ => if String.eqb (lower scheme) "bearer" then Ok param else Err (HTTPException 401 "Not authenticated")
  end.

(** The header a client sends with a token. *)
Definition bearer (token : string) : string := String.append "Bearer " token.

Section Auth.
Context `{PasswordHasher} `{Jwt}.

(** [get_current_user] (auth.py 33-44): [token] is what its
    [Depends(oauth2_scheme)] returned; [not token] holds of [None] and
    of the empty string. *)
Definition get_current_user (token : option string) : M User :=
  match token with
  | None | Some EmptyString => raise (HTTPException 401 "Not authenticated")
  | Some t =>
      match jwt_decode t with
      | None => raise (HTTPException 401 "Invalid token")
      | Some None => raise (ValueError "invalid literal for int()")
      | Some (Some uid) =>
          user <- read (fun d => get (users d) uid) ;;
          match user with
          | None => raise (HTTPException 404 "User not found")
          | Some u => ret u
          end
      end
  end.

(** [Depends(get_current_user)] on a request whose [Authorization]
    header is [authorization]: FastAPI runs the sub-dependency
    [oauth2_scheme] first, and an exception it raises ends the request. *)
Definition current_user (authorization : option string) : M User :=
  match oauth2_scheme authorization with
  | Err e => raise e
  | Ok token => get_current_user (Some token)
  end.

(** [get_current_admin] (auth.py 46-49), with its dependency. *)
Definition get_current_admin (authorization : option string) : M User :=
  user <- current_user authorization ;;
  if User.is_admin user then ret user else raise (HTTPException 403 "Admins only").

(** An endpoint with [Depends(get_current_admin)]: the dependency runs
    before the body. *)
Definition with_admin {A} (authorization : option string) (h : User -> M A) : M A :=
  admin <- get_current_admin authorization ;; h admin.

Definition with_user {A} (authorization : option string) (h : User -> M A) : M A :=
  user <- current_user authorization ;; h user.

(** [select(User).where(User.email == email)].first() *)
Definition user_by_email (d : DB) (email : string) : option User :=
  List.find (fun u => String.eqb (User.email u) email) (users d).

(** [api_signup] (main.py 60-68): the access token it returns. *)
Definition api_signup (email password : string) : M string :=
  existing <- read (fun d => user_by_email d email) ;;
  match existing with
  | Some _ => bad_request "Email already registered"
  | None =>
      uid <- read (fun d => next_id (users d)) ;;
      write (set_users (fun t => insert_row t (User.mkUser uid email (hash_password password) false))) ;;
      commit ;;
      ret (jwt_encode uid)
  end.

(** [api_login] (main.py 70-76). *)
Definition api_login (email password : string) : M string :=
  user <- read (fun d => user_by_email d email) ;;
  match user with
  | Some u => if verify_password password (User.hashed_password u) then ret (jwt_encode (User.id u))
              else bad_request "Invalid credentials"
  | None => bad_request "Invalid credentials"
  end.

(** No two accounts share an email (the unique index of [User.email]). *)
Definition emails_unique (d : DB) : Prop := NoDup (map User.email (users d)).
End Auth.

(** ** Lemmas *)

(** The space is the only character [str.lower()] sends to a space. *)
Lemma lower_ascii_sp c : Ascii.eqb (lower_ascii c) sp = Ascii.eqb c sp.
Proof. destruct c as [[] [] [] [] [] [] [] []]; reflexivity. Qed.

Lemma split_at_spec sep s :
  let '(a, b) := split_at sep s in s = String.append a (String sep b) \/ (s = a /\ b = EmptyString).
Proof.
  induction s as [|c r IH]; cbn; [by right|].
  destruct (Ascii.eqb_spec c sep) as [->|_]; [by left|].
  destruct (split_at sep r) as [a b]. destruct IH as [->|[-> ->]]; [left|right]; done.
Qed.

Lemma split_at_app sep x y :
  split_at sep x = (x, EmptyString) -> split_at sep (String.append x (String sep y)) = (x, y).
Proof.
  induction x as [|c r IH]; simpl; [by rewrite Ascii.eqb_refl|].
  destruct (Ascii.eqb c sep); [done|]. destruct (split_at sep r) as [a b] eqn:E.
  intros [= -> ->]. by rewrite IH.
Qed.

Lemma lower_split_at x :
  split_at sp (lower x) = (lower x, EmptyString) -> split_at sp x = (x, EmptyString).
Proof.
  induction x as [|c r IH]; cbn; [done|]. rewrite lower_ascii_sp.
  destruct (Ascii.eqb c sp); [done|].
  destruct (split_at sp (lower r)) as [a b] eqn:E. intros [= Ha ->]. subst a.
  by rewrite IH.
Qed.

Lemma lower_bearer_nonempty x : lower x = "bearer" -> x <> EmptyString.
Proof. by intros H ->. Qed.

(** The bearer scheme returns [t] exactly when the header is a scheme
    spelling ["bearer"] in any case, then a space and [t], or the
    scheme alone and [t] is empty. *)
Lemma oauth2_scheme_ok a t :
  oauth2_scheme a = Ok t <->
  exists scheme, lower scheme = "bearer" /\
    (a = Some (String.append scheme (String sp t)) \/ (a = Some scheme /\ t = EmptyString)).
Proof.
  split.
  - unfold oauth2_scheme, get_authorization_scheme_param.
    destruct a as [[|c r]|]; [done| |done].
    pose proof (split_at_spec sp (String c r)) as Hs.
    destruct (split_at sp (String c r)) as [x y]. destruct (String.eqb_spec (lower x) "bearer"); [|done].
    intros [= <-]. exists x. split; [done|]. destruct Hs as [->|[-> ->]]; [left|right]; done.
  - intros (x & Hx & Ha). pose proof (lower_bearer_nonempty x Hx) as Hne.
    assert (Hsp : split_at sp x = (x, EmptyString)) by (apply lower_split_at; by rewrite Hx).
    destruct x as [|c r]; [done|].
    destruct Ha as [->|[-> ->]]; unfold oauth2_scheme, get_authorization_scheme_param.
    + assert (E : split_at sp (String c (String.append r (String sp t))) = (String c r, t))
        by exact (split_at_app sp (String c r) t Hsp).
      change (String.append (String c r) (String sp t)) with (String c (String.append r (String sp t))).
      cbn -[split_at lower]. by rewrite E, Hx.
    + rewrite Hsp, Hx. done.
Qed.

(** Its only exception is the 401 "Not authenticated". *)
Lemma oauth2_scheme_err a e : oauth2_scheme a = Err e -> e = HTTPException 401 "Not authenticated".
Proof.
  unfold oauth2_scheme, get_authorization_scheme_param.
  destruct a as [[|c r]|]; [by intros [= <-]| |by intros [= <-]].
  destruct (split_at sp (String c r)) as [x y]. by destruct (String.eqb (lower x) "bearer"); intros [= <-].
Qed.

Lemma oauth2_scheme_bearer t : oauth2_scheme (Some (bearer t)) = Ok t.
Proof. apply oauth2_scheme_ok. exists "Bearer". split; [done|]. by left. Qed.

Section AuthLemmas.
Context `{PasswordHasher} `{Jwt}.

Lemma user_by_email_insert d u e :
  user_by_email (set_users (fun t => insert_row t u) d) e =
  match user_by_email d e with Some x => Some x | None => if String.eqb (User.email u) e then Some u else None end.
Proof.
  unfold user_by_email, insert_row. cbn. rewrite find_app. destruct (List.find _ _); [done|]. cbn.
  by destruct (String.eqb _ _).
Qed.

Lemma user_by_email_None d e : user_by_email d e = None -> e ∉ map User.email (users d).
Proof. apply find_key_None. Qed.

(** What the dependencies of [get_current_user] give on a request
    with header [authorization] against [d]: the account, or the
    exception raised first. *)
Definition auth_user (authorization : option string) (d : DB) : result User :=
  match oauth2_scheme authorization with
  | Err e => Err e
  | Ok EmptyString => Err (HTTPException 401 "Not authenticated")
  | Ok t =>
      match jwt_decode t with
      | None => Err (HTTPException 401 "Invalid token")
      | Some None => Err (ValueError "invalid literal for int()")
      | Some (Some uid) =>
          match get (users d) uid with
          | Some u => Ok u
          | None => Err (HTTPException 404 "User not found")
          end
      end
  end.

Definition admin_user (authorization : option string) (d : DB) : result User :=
  match auth_user authorization d with
  | Ok u => if User.is_admin u then Ok u else Err (HTTPException 403 "Admins only")
  | Err e => Err e
  end.

Lemma current_user_at a s : current_user a s = (s, auth_user a (working s)).
Proof.
  unfold current_user, auth_user, get_current_user, bind, read, raise, ret.
  destruct (oauth2_scheme a) as [[|c t]|e]; [done| |done].
  destruct (jwt_decode _) as [[uid|]|]; [|done|done]. cbn. by destruct (get _ uid).
Qed.

Lemma get_current_admin_at a s : get_current_admin a s = (s, admin_user a (working s)).
Proof.
  unfold get_current_admin, admin_user, bind at 1. rewrite current_user_at.
  destruct (auth_user a _) as [u|e]; [|done]. by destruct (User.is_admin u).
Qed.

Lemma with_user_run {A} a (k : User -> M A) d :
  run_handler (with_user a k) d = match auth_user a d with Ok u => run_handler (k u) d | Err e => (d, Err e) end.
Proof.
  unfold run_handler, with_user, bind at 1. rewrite current_user_at. cbn [working].
  by destruct (auth_user a d).
Qed.

Lemma with_admin_run {A} a (k : User -> M A) d :
  run_handler (with_admin a k) d = match admin_user a d with Ok u => run_handler (k u) d | Err e => (d, Err e) end.
Proof.
  unfold run_handler, with_admin, bind at 1. rewrite get_current_admin_at. cbn [working].
  by destruct (admin_user a d).
Qed.

Lemma current_user_run a d : run_handler (current_user a) d = (d, auth_user a d).
Proof. unfold run_handler. by rewrite current_user_at. Qed.

Lemma get_current_admin_run a d : run_handler (get_current_admin a) d = (d, admin_user a d).
Proof. unfold run_handler. by rewrite get_current_admin_at. Qed.

(** The dependencies accept a request as [u] exactly when its header
    is a bearer scheme, a space and a non-empty token that decodes to
    the id of [u]. *)
Lemma auth_user_ok a d u :
  auth_user a d = Ok u <->
  exists scheme t uid, lower scheme = "bearer" /\ a = Some (String.append scheme (String sp t)) /\
    t <> EmptyString /\ jwt_decode t = Some (Some uid) /\ get (users d) uid = Some u.
Proof.
  unfold auth_user. split.
  - destruct (oauth2_scheme a) as [t|e] eqn:Ha; [|done].
    apply oauth2_scheme_ok in Ha as (scheme & Hs & Ha).
    destruct t as [|c r]; [done|]. destruct Ha as [Ha|[_ ?]]; [|done].
    destruct (jwt_decode _) as [[uid|]|] eqn:Ht; [|done|done].
    destruct (get (users d) uid) eqn:Hu; [|done]. intros [= ->]. by exists scheme, (String c r), uid.
  - intros (scheme & t & uid & Hs & Ha & Hne & Ht & Hu).
    rewrite (proj2 (oauth2_scheme_ok a t)) by (exists scheme; auto).
    destruct t as [|c r]; [done|]. by rewrite Ht, Hu.
Qed.

(** A [Bearer] header carrying a non-empty token reaches [jwt.decode]. *)
Lemma auth_user_bearer t d :
  t <> EmptyString ->
  auth_user (Some (bearer t)) d =
  match jwt_decode t with
  | None => Err (HTTPException 401 "Invalid token")
  | Some None => Err (ValueError "invalid literal for int()")
  | Some (Some uid) => match get (users d) uid with Some u => Ok u | None => Err (HTTPException 404 "User not found") end
  end.
Proof. unfold auth_user. rewrite oauth2_scheme_bearer. by destruct t. Qed.

(** A request the dependencies let through runs the endpoint's body;
    one they stop changes nothing. *)
Lemma with_user_cases {A} a (k : User -> M A) d d' r :
  run_handler (with_user a k) d = (d', r) -> d' = d \/ exists u, run_handler (k u) d = (d', r).
Proof. rewrite with_user_run. destruct (auth_user a d) as [u|e]; [eauto|intros [= -> _]; by left]. Qed.

Lemma with_admin_cases {A} a (k : User -> M A) d d' r :
  run_handler (with_admin a k) d = (d', r) -> d' = d \/ exists u, run_handler (k u) d = (d', r).
Proof. rewrite with_admin_run. destruct (admin_user a d) as [u|e]; [eauto|intros [= -> _]; by left]. Qed.

Lemma with_admin_ok {A} a (k : User -> M A) d d' x :
  run_handler (with_admin a k) d = (d', Ok x) -> exists u, run_handler (k u) d = (d', Ok x).
Proof. rewrite with_admin_run. destruct (admin_user a d) as [u|e]; [eauto|done]. Qed.

(** The account [api_signup] adds. *)
Definition new_account (d : DB) (email password : string) : User :=
  User.mkUser (next_id (users d)) email (hash_password password) false.

Lemma api_signup_run d email password :
  run_handler (api_signup email password) d =
  match user_by_email d email with
  | Some _ => (d, Err (HTTPException 400 "Email already registered"))
  | None => (set_users (fun t => insert_row t (new_account d email password)) d,
             Ok (jwt_encode (next_id (users d))))
  end.
Proof. unfold run_handler, api_signup, bind, read. cbn. by destruct (user_by_email d email). Qed.

(** Signup keeps the account table well formed: rowids unique
    and no two accounts with the same email. *)
Lemma api_signup_preserves_accounts d email password d' r :
  ids_unique (users d) -> emails_unique d ->
  run_handler (api_signup email password) d = (d', r) ->
  ids_unique (users d') /\ emails_unique d'.
Proof.
  intros Hid Hem. rewrite api_signup_run. destruct (user_by_email d email) eqn:E; intros Hr; invc Hr; [done|].
  split; [by apply ids_unique_insert_next|].
  unfold emails_unique, insert_row in *. cbn. rewrite map_app. cbn. apply NoDup_app.
  split; [done|]. split; [|by constructor; [set_solver|constructor]].
  intros x Hx ->%list_elem_of_singleton. by apply (user_by_email_None d email).
Qed.
End AuthLemmas.

Section AuthTheorems.
Context `{PasswordLaws} `{JwtLaws}.

(** C27: an admin endpoint changes nothing unless the request's
    [Authorization] header is a bearer scheme, a space and a non-empty
    token that decodes to the id of an existing account with [is_admin]
    set: [oauth2_scheme], [get_current_user] and [get_current_admin]
    raise 401, 404 or 403 first. *)
Theorem with_admin_guard {A} (h : User -> M A) a d d' r :
  run_handler (with_admin a h) d = (d', r) -> d' <> d ->
  exists scheme t uid u, lower scheme = "bearer" /\ a = Some (String.append scheme (String sp t)) /\
    t <> EmptyString /\ jwt_decode t = Some (Some uid) /\ get (users d) uid = Some u /\ User.is_admin u = true.
Proof.
  rewrite with_admin_run. unfold admin_user. intros Hr Hne.
  destruct (auth_user a d) as [u|e] eqn:Hu; [|by invc Hr].
  destruct (User.is_admin u) eqn:Ha; [|by invc Hr].
  apply auth_user_ok in Hu as (scheme & t & uid & ? & ? & ? & ? & ?). by exists scheme, t, uid, u.
Qed.

(** C25: the dependencies of an endpoint behind [get_current_user]
    accept a request, as account [u], exactly when its [Authorization]
    header is the scheme ["bearer"] in any letter case, one space and a
    non-empty token that [jwt.decode] reads as the id of [u]; they never
    change the database.  Every header that is not a bearer scheme, a
    space and a non-empty token (a missing header, another scheme, a
    header without the space, an empty token) is refused with
    [HTTPException(401, "Not authenticated")]. *)
Theorem current_user_accepts a d :
  (forall u, run_handler (current_user a) d = (d, Ok u) <->
   exists scheme t uid, lower scheme = "bearer" /\ a = Some (String.append scheme (String sp t)) /\
     t <> EmptyString /\ jwt_decode t = Some (Some uid) /\ get (users d) uid = Some u) /\
  (~ (exists scheme t, lower scheme = "bearer" /\ a = Some (String.append scheme (String sp t)) /\
        t <> EmptyString) ->
   run_handler (current_user a) d = (d, Err (HTTPException 401 "Not authenticated"))).
Proof.
  split.
  - intros u. rewrite current_user_run, <- auth_user_ok. split; [by intros [=]|by intros ->].
  - intros Hn. rewrite current_user_run. unfold auth_user.
    destruct (oauth2_scheme a) as [t|e] eqn:Ha; [|by rewrite (oauth2_scheme_err _ _ Ha)].
    destruct t as [|c r]; [done|]. exfalso. apply Hn.
    apply oauth2_scheme_ok in Ha as (scheme & Hs & [Ha|[_ ?]]); [|done]. by exists scheme, (String c r).
Qed.
End AuthTheorems.

(** ** Test instances: a transparent hasher and a token codec *)

Module AuthFixtures.
#[export] Instance test_hasher : PasswordHasher := {|
  hash_password pw := String.append "argon2:" pw;
  verify_password pw h := String.eqb h (String.append "argon2:" pw)
|}.

#[export] Instance test_hasher_laws : PasswordLaws.
Proof. split. intros pw. cbn. apply String.eqb_refl. Qed.

(** The subject in binary, least significant bit first. *)
Fixpoint pos_bits (p : positive) : string :=
  match p with
  | xH => EmptyString
  | xO p => String (Ascii.ascii_of_nat 48) (pos_bits p)
  | xI p => String (Ascii.ascii_of_nat 49) (pos_bits p)
  end.

Fixpoint bits_pos (s : string) : option positive :=
  match s with
  | EmptyString => Some xH
  | String c r =>
      match bits_pos r with
      | None => None
      | Some p => if Ascii.eqb c (Ascii.ascii_of_nat 48) then Some (xO p)
                  else if Ascii.eqb c (Ascii.ascii_of_nat 49) then Some (xI p) else None
      end
  end.

Definition encode_sub (z : Z) : string :=
  match z with
  | Z0 => "z"
  | Zpos p => String (Ascii.ascii_of_nat 112) (pos_bits p)
  | Zneg p => String (Ascii.ascii_of_nat 110) (pos_bits p)
  end.

Definition decode_sub (s : string) : option (option Z) :=
  match s with
  | String c r =>
      if Ascii.eqb c (Ascii.ascii_of_nat 122) then Some (Some Z0)
      else if Ascii.eqb c (Ascii.ascii_of_nat 112) then Some (Zpos <$> bits_pos r)
      else if Ascii.eqb c (Ascii.ascii_of_nat 110) then Some (Zneg <$> bits_pos r)
      else None
  | EmptyString => None
  end.

#[export] Instance test_jwt : Jwt := {| jwt_encode := encode_sub; jwt_decode := decode_sub |}.

Lemma bits_pos_pos_bits p : bits_pos (pos_bits p) = Some p.
Proof. induction p as [p IH|p IH|]; cbn; [rewrite IH|rewrite IH|]; done. Qed.

#[export] Instance test_jwt_laws : JwtLaws.
Proof. split; intros [|p|p]; cbn; try done; by rewrite bits_pos_pos_bits. Qed.

(** The seeded administrator of [on_startup] (main.py 24-26). *)
Definition seed_admin : User := User.mkUser 1 "admin@demo.dev" (hash_password "admin123") true.
Definition accounts_db : DB := set_users (fun _ => [seed_admin]) Fixtures.scenario_ok.
End AuthFixtures.

Import AuthFixtures.

(** Wiping the accounts behind the administrator's token: the header
    [Bearer <token>] passes the guard. *)
Lemma with_admin_guard_witness :
  exists scheme t uid u, lower scheme = "bearer" /\ Some (bearer (jwt_encode 1)) = Some (String.append scheme (String sp t)) /\
    t <> EmptyString /\ jwt_decode t = Some (Some uid) /\ get (users accounts_db) uid = Some u /\ User.is_admin u = true.
Proof.
  apply (with_admin_guard (fun _ => write (set_users (fun _ => [])) ;; commit) (Some (bearer (jwt_encode 1)))
           accounts_db (set_users (fun _ => []) accounts_db) (Ok tt)).
  - vm_compute. reflexivity.
  - intros Heq. apply (f_equal (fun d => length (users d))) in Heq. vm_compute in Heq. discriminate.
Defined.

Lemma current_user_accepts_witness :
  run_handler (current_user None) accounts_db = (accounts_db, Err (HTTPException 401 "Not authenticated")).
Proof. apply (proj2 (current_user_accepts None accounts_db)). by intros (? & ? & _ & ? & _). Defined.

