(* ===== verification/Cart.v ===== *)
(** * Cart: [get_or_create_cart], [add_to_cart], [get_cart]

    The cart handlers of [src/main.py] (lines 79-115) in the request
    monad of [Session].  The user is the one [get_current_user]
    resolved ([src/auth.py], not modelled): the handlers take its id.
    The file also holds the table lemmas the cart and checkout proofs
    share, the cart invariant (one line per product in a cart) and the
    quantity a cart holds of a product, [cart_qty]. *)

From S2P Require Import Prelude Models Session.

(** ** Events *)

(** [session.add(Event(user_id=.., type=.., product_id=..))]. *)
Definition add_event (uid : option Z) (ty : string) (pid : option Z) : M unit :=
  write (set_events (fun t => insert_row t (Event.mkEvent (next_id t) uid ty pid None))).

(** ** [get_or_create_cart] (main.py 79-86) *)

Definition get_or_create_cart (user_id : Z) : M Cart :=
  c <- read (fun d => cart_of_user d user_id) ;;
  match c with
  | Some cart => ret cart
  | None =>
      cart <- read (fun d => Cart.mkCart (next_id (carts d)) user_id) ;;
      write (set_carts (fun t => insert_row t cart)) ;;
      commit ;;
      ret cart
  end.

(** ** [add_to_cart] (main.py 88-102) *)

Definition add_to_cart (user_id product_id qty : Z) : M unit :=
  product <- read (fun d => get (products d) product_id) ;;
  match product with
  | None => bad_request "Insufficient stock"
  | Some p =>
      if Product.stock p <? qty then bad_request "Insufficient stock" else
      cart <- get_or_create_cart user_id ;;
      item <- read (fun d => find_item d (Cart.id cart) product_id) ;;
      match item with
      | Some it =>
          write (set_cart_items (fun t =>
                   update_row t (CartItem.set_qty it (CartItem.qty it + qty))))
      | None =>
          write (set_cart_items (fun t =>
                   insert_row t (CartItem.mkCartItem (next_id t) (Cart.id cart) product_id qty)))
      end ;;
      add_event (Some user_id) "add_to_cart" (Some product_id) ;;
      commit
  end.

(** ** [get_cart] (main.py 104-115) *)

(** One entry of the ["items"] list the handler returns. *)
Record CartLine := mkCartLine {
  line_id : Z; line_product_id : Z; line_title : string; line_qty : Z;
  line_price : Q; line_subtotal : Q }.

(** The dict built for one line (line 112). *)
Definition cart_line (p : Product) (it : CartItem) : CartLine :=
  mkCartLine (CartItem.id it) (Product.id p) (Product.title p) (CartItem.qty it)
    (Product.price p) (round2 (qmul (Product.price p) (CartItem.qty it))).

(** The loop of [get_cart]: [out] and [total] are its accumulators. *)
Fixpoint get_cart_loop (items : list CartItem) (out : list CartLine) (total : Q)
  : M (list CartLine * Q) :=
  match items with
  | [] => ret (out, total)
  | it :: rest =>
      p <- get_product_or_crash (CartItem.product_id it) ;;
      get_cart_loop rest (out ++ [cart_line p it])
        (total + qmul (Product.price p) (CartItem.qty it))%Q
  end.

Definition get_cart (user_id : Z) : M (list CartLine * Q) :=
  cart <- get_or_create_cart user_id ;;
  items <- read (fun d => items_of_cart d (Cart.id cart)) ;;
  res <- get_cart_loop items [] 0%Q ;;
  ret (fst res, round2 (snd res)).

(** ** Pure views of the cart *)

(** [Σ price × qty] over cart lines at the prices of [d], in the order
    of the code's loop; [None] when a line names a missing product. *)
Fixpoint lines_total (d : DB) (items : list CartItem) (acc : Q) : option Q :=
  match items with
  | [] => Some acc
  | it :: rest =>
      match get (products d) (CartItem.product_id it) with
      | None => None
      | Some p => lines_total d rest (acc + qmul (Product.price p) (CartItem.qty it))%Q
      end
  end.

(** The quantity of product [pid] in cart [cid], summed over its lines. *)
Definition cart_qty (d : DB) (cid pid : Z) : Z :=
  sumZ CartItem.qty
    (List.filter (fun it => Z.eqb (CartItem.cart_id it) cid && Z.eqb (CartItem.product_id it) pid)
       (cart_items d)).

(** The cart invariant: at most one line per (cart, product). *)
Definition cart_lines_unique (d : DB) : Prop :=
  NoDup (map (fun it => (CartItem.cart_id it, CartItem.product_id it)) (cart_items d)).

(** ** [get_or_create_cart] as a function of the database *)

Definition goc_pure (d : DB) (uid : Z) : DB * Cart :=
  match cart_of_user d uid with
  | Some c => (d, c)
  | None =>
      let c := Cart.mkCart (next_id (carts d)) uid in
      (set_carts (fun t => insert_row t c) d, c)
  end.

Lemma get_or_create_cart_run uid d :
  get_or_create_cart uid (mkSession d d) =
  let '(d', c) := goc_pure d uid in (mkSession d' d', Ok c).
Proof.
  unfold get_or_create_cart, goc_pure, bind at 1, read at 1. cbn [working].
  by destruct (cart_of_user d uid).
Qed.

Lemma goc_pure_existing d uid c : cart_of_user d uid = Some c -> goc_pure d uid = (d, c).
Proof. unfold goc_pure. by intros ->. Qed.

(** Only the [carts] table may change. *)
Lemma goc_pure_tables d uid :
  let d' := fst (goc_pure d uid) in
  products d' = products d /\ cart_items d' = cart_items d /\ orders d' = orders d /\
  order_items d' = order_items d /\ events d' = events d /\ flags d' = flags d /\
  users d' = users d.
Proof. unfold goc_pure. destruct (cart_of_user d uid); simpl; repeat split. Qed.

(** The cart [goc_pure] returns is the user's cart in the new database. *)
Lemma goc_pure_cart d uid :
  cart_of_user (fst (goc_pure d uid)) uid = Some (snd (goc_pure d uid)).
Proof.
  unfold goc_pure. destruct (cart_of_user d uid) eqn:E; [done|]. simpl.
  unfold cart_of_user in *. simpl. unfold insert_row.
  rewrite find_app, E. simpl. by rewrite Z.eqb_refl.
Qed.

(** ** [get_cart] as a function of the database *)

(** The lines [get_cart] shows, at the products of [d]. *)
Definition cart_lines_of (d : DB) (items : list CartItem) : list CartLine :=
  omap (fun it => (fun p => cart_line p it) <$> get (products d) (CartItem.product_id it)) items.

Lemma get_cart_loop_run items out total s :
  get_cart_loop items out total s =
  (s, match lines_total (working s) items total with
      | Some t => Ok (out ++ cart_lines_of (working s) items, t)
      | None => Err (AttributeError "'NoneType' object has no attribute")
      end).
Proof.
  revert out total. induction items as [|it items IH]; intros out total.
  - cbn. by rewrite app_nil_r.
  - cbn [get_cart_loop lines_total]. unfold bind at 1, get_product_or_crash.
    destruct (get (products (working s)) (CartItem.product_id it)) as [p|] eqn:E; [|done].
    rewrite IH. destruct (lines_total _ _ _); [|done].
    unfold cart_lines_of. cbn [omap list_omap]. rewrite E. cbn. by rewrite <- app_assoc.
Qed.

Lemma get_cart_run uid d :
  run_handler (get_cart uid) d =
  let '(d1, cart) := goc_pure d uid in
  let items := items_of_cart d1 (Cart.id cart) in
  (d1, match lines_total d1 items 0%Q with
       | Some t => Ok (cart_lines_of d1 items, round2 t)
       | None => Err (AttributeError "'NoneType' object has no attribute")
       end).
Proof.
  unfold run_handler, get_cart. unfold bind at 1. rewrite get_or_create_cart_run.
  destruct (goc_pure d uid) as [d1 cart]. cbn -[get_cart_loop lines_total].
  unfold bind at 1. rewrite get_cart_loop_run. cbn -[lines_total].
  by destruct (lines_total _ _ _).
Qed.

(** ** [add_to_cart] as a function of the database *)

(** What an [Event] row records, without its rowid and [meta]. *)
Definition ev_view (e : Event) : option Z * string * option Z :=
  (Event.user_id e, Event.type e, Event.product_id e).

(** The cart-line write of [add_to_cart] (lines 94-99). *)
Definition merge_line (d : DB) (cid pid qty : Z) : DB :=
  match find_item d cid pid with
  | Some it => set_cart_items (fun t => update_row t (CartItem.set_qty it (CartItem.qty it + qty))) d
  | None => set_cart_items (fun t => insert_row t (CartItem.mkCartItem (next_id t) cid pid qty)) d
  end.

Definition add_to_cart_spec (uid pid qty : Z) (d : DB) : DB * result unit :=
  match get (products d) pid with
  | None => (d, Err (HTTPException 400 "Insufficient stock"))
  | Some p =>
      if Product.stock p <? qty then (d, Err (HTTPException 400 "Insufficient stock")) else
      let '(d1, cart) := goc_pure d uid in
      (set_events (fun t => insert_row t
         (Event.mkEvent (next_id t) (Some uid) "add_to_cart" (Some pid) None))
         (merge_line d1 (Cart.id cart) pid qty), Ok tt)
  end.

Lemma add_to_cart_run uid pid qty d :
  run_handler (add_to_cart uid pid qty) d = add_to_cart_spec uid pid qty d.
Proof.
  unfold run_handler, add_to_cart, add_to_cart_spec. unfold bind at 1, read at 1. cbn [working].
  destruct (get (products d) pid) as [p|]; [|done].
  destruct (Product.stock p <? qty); [done|].
  unfold bind at 1. rewrite get_or_create_cart_run. destruct (goc_pure d uid) as [d1 cart].
  unfold merge_line. cbn. by destruct (find_item d1 (Cart.id cart) pid).
Qed.

Lemma cart_qty_set_cart_items f d cid pid :
  cart_qty (set_cart_items f d) cid pid = cart_qty (mkDB [] [] [] [] (f (cart_items d)) [] [] [] []) cid pid.
Proof. reflexivity. Qed.

(** How [merge_line] changes the quantity of every (cart, product). *)
Lemma merge_line_qty d cid pid qty c p :
  ids_unique (cart_items d) ->
  cart_qty (merge_line d cid pid qty) c p =
  cart_qty d c p + (if Z.eqb c cid && Z.eqb p pid then qty else 0).
Proof.
  intros Hu. unfold merge_line, cart_qty, find_item.
  destruct (List.find _ (cart_items d)) as [it|] eqn:Hf.
  - apply find_some in Hf as [Hin Hm]. apply andb_true_iff in Hm as [Hc Hp].
    apply Z.eqb_eq in Hc, Hp.
    destruct (update_row_split (cart_items d) it (CartItem.set_qty it (CartItem.qty it + qty)))
      as (l1 & l2 & Hl & Hupd); [done|by apply list_elem_of_In|done|].
    cbn [cart_items set_cart_items]. rewrite Hupd, Hl, !List.filter_app, !sumZ_app.
    cbn [List.filter CartItem.set_qty CartItem.cart_id CartItem.product_id CartItem.qty].
    rewrite Hc, Hp.
    destruct (Z.eqb_spec cid c), (Z.eqb_spec pid p), (Z.eqb_spec c cid), (Z.eqb_spec p pid);
      cbn; rewrite ?sumZ_cons; lia.
  - cbn [cart_items set_cart_items]. unfold insert_row. rewrite List.filter_app, sumZ_app.
    cbn. destruct (Z.eqb_spec cid c), (Z.eqb_spec pid p), (Z.eqb_spec c cid), (Z.eqb_spec p pid);
      cbn; rewrite ?sumZ_cons; unfold sumZ; cbn; lia.
Qed.

Lemma merge_line_frame d cid pid qty :
  let d' := merge_line d cid pid qty in
  users d' = users d /\ products d' = products d /\ carts d' = carts d /\
  orders d' = orders d /\ order_items d' = order_items d /\ events d' = events d /\
  flags d' = flags d.
Proof. unfold merge_line. by destruct (find_item d cid pid). Qed.

(** The cart invariant of the whole table: rowids are a primary key and
    a cart has at most one line per product. *)
Definition cart_wf (d : DB) : Prop := ids_unique (cart_items d) /\ cart_lines_unique d.

Lemma merge_line_wf d cid pid qty : cart_wf d -> cart_wf (merge_line d cid pid qty).
Proof.
  intros [Hu Hpairs]. unfold merge_line, find_item, cart_wf, cart_lines_unique, ids_unique in *.
  destruct (List.find _ (cart_items d)) as [it|] eqn:Hf; cbn [cart_items set_cart_items].
  - apply find_some in Hf as [Hin _].
    destruct (update_row_split (cart_items d) it (CartItem.set_qty it (CartItem.qty it + qty)))
      as (l1 & l2 & Hl & Hupd); [done|by apply list_elem_of_In|done|].
    rewrite update_row_ids. split; [done|]. rewrite Hupd. rewrite Hl in Hpairs.
    by rewrite !map_app in Hpairs |- *.
  - unfold insert_row. rewrite !map_app. split.
    + apply NoDup_app. split_and!; [done| |apply NoDup_singleton].
      intros x Hx Hx'. apply list_elem_of_singleton in Hx' as ->. by apply (next_id_fresh (cart_items d)).
    + apply NoDup_app. split_and!; [done| |apply NoDup_singleton].
      intros x Hx Hx'. apply list_elem_of_singleton in Hx' as ->. cbn in Hx.
      apply list_elem_of_fmap in Hx as (y & Hy & Hyin). apply list_elem_of_In in Hyin.
      pose proof (find_none _ _ Hf y Hyin) as Hn. cbn in Hn. injection Hy as Hc Hp.
      rewrite Hc, Hp, !Z.eqb_refl in Hn. done.
Qed.

(** ** Properties of the cart handlers *)

(** C18: the guard of [add_to_cart] is exactly "the product exists and
    [qty] is at most its stock": a missing product or a quantity above
    the stock is rejected with [HTTPException(400, "Insufficient
    stock")] and the database is left unchanged; any other quantity is
    accepted, zero and negative ones included (the code has no
    [qty >= 1] check). *)
Theorem add_to_cart_guard uid pid qty d :
  ((forall p, get (products d) pid = Some p -> Product.stock p < qty) ->
     run_handler (add_to_cart uid pid qty) d = (d, Err (HTTPException 400 "Insufficient stock"))) /\
  (forall p, get (products d) pid = Some p -> qty <= Product.stock p ->
     exists d', run_handler (add_to_cart uid pid qty) d = (d', Ok tt)).
Proof.
  rewrite add_to_cart_run. unfold add_to_cart_spec. split.
  - intros H. destruct (get (products d) pid) as [p|] eqn:E; [|done].
    specialize (H p eq_refl). by destruct (Z.ltb_spec (Product.stock p) qty); [|lia].
  - intros p Hp Hq. rewrite Hp. destruct (Z.ltb_spec (Product.stock p) qty); [lia|].
    destruct (goc_pure d uid). by eexists.
Qed.

(** The outcome of a successful [add_to_cart], read off its pure form. *)
Lemma add_to_cart_ok_inv uid pid qty d d' :
  run_handler (add_to_cart uid pid qty) d = (d', Ok tt) ->
  exists p, get (products d) pid = Some p /\ qty <= Product.stock p /\
    let '(d1, cart) := goc_pure d uid in
    d' = set_events (fun t => insert_row t
           (Event.mkEvent (next_id t) (Some uid) "add_to_cart" (Some pid) None))
           (merge_line d1 (Cart.id cart) pid qty).
Proof.
  rewrite add_to_cart_run. unfold add_to_cart_spec.
  destruct (get (products d) pid) as [p|]; [|done].
  destruct (Z.ltb_spec (Product.stock p) qty); [done|].
  destruct (goc_pure d uid) as [d1 cart]. intros Heq. invc Heq. by exists p.
Qed.

(** C16: a successful [add_to_cart] adds [qty] to the quantity the
    user's cart holds of the product (merging into the existing line
    or creating one), leaves every other (cart, product) quantity
    unchanged, checked the product and its stock, and appends one
    [add_to_cart] event. *)
Theorem add_to_cart_accumulates uid pid qty d d' :
  ids_unique (cart_items d) ->
  run_handler (add_to_cart uid pid qty) d = (d', Ok tt) ->
  (exists p, get (products d) pid = Some p /\ qty <= Product.stock p) /\
  exists cart, cart_of_user d' uid = Some cart /\
    (forall c p, cart_qty d' c p =
                 cart_qty d c p + (if Z.eqb c (Cart.id cart) && Z.eqb p pid then qty else 0)) /\
    exists e, events d' = events d ++ [e] /\ ev_view e = (Some uid, "add_to_cart", Some pid).
Proof.
  intros Hu H. apply add_to_cart_ok_inv in H as (p & Hp & Hle & H).
  split; [by exists p|].
  pose proof (goc_pure_cart d uid) as Hc. pose proof (goc_pure_tables d uid) as Ht.
  destruct (goc_pure d uid) as [d1 cart]. cbn in Hc, Ht. destruct Ht as (_ & Hci & _ & _ & He & _).
  pose proof (merge_line_frame d1 (Cart.id cart) pid qty) as (_ & _ & Hcarts & _ & _ & Hev & _).
  subst d'. exists cart. split_and!.
  - unfold cart_of_user in *. cbn. by rewrite Hcarts.
  - intros c q. change (cart_qty (set_events ?f ?x) c q) with (cart_qty x c q).
    rewrite merge_line_qty by (by rewrite Hci). unfold cart_qty. by rewrite Hci.
  - eexists. split; [cbn; by rewrite Hev, He|]. done.
Qed.

Lemma add_to_cart_cart_wf uid pid qty d d' r :
  cart_wf d -> run_handler (add_to_cart uid pid qty) d = (d', r) -> cart_wf d'.
Proof.
  intros Hwf H. destruct r as [[]|e].
  - apply add_to_cart_ok_inv in H as (p & _ & _ & H).
    pose proof (goc_pure_tables d uid) as Ht. destruct (goc_pure d uid) as [d1 cart].
    cbn in Ht. destruct Ht as (_ & Hci & _). subst d'.
    assert (Hwf1 : cart_wf d1) by (unfold cart_wf, cart_lines_unique; by rewrite Hci).
    apply (merge_line_wf d1 (Cart.id cart) pid qty) in Hwf1. exact Hwf1.
  - rewrite add_to_cart_run in H. unfold add_to_cart_spec in H.
    destruct (get (products d) pid) as [p|]; [|by invc H].
    destruct (Product.stock p <? qty); [by invc H|].
    by destruct (goc_pure d uid).
Qed.

(** [add_to_cart] preserves the cart invariant: rowids stay
    unique and a cart keeps at most one line per product. *)
Theorem add_to_cart_preserves_cart_wf uid pid qty d d' r :
  cart_wf d -> run_handler (add_to_cart uid pid qty) d = (d', r) -> cart_wf d'.
Proof. intros. by eapply add_to_cart_cart_wf. Qed.

(** [Σ price × qty] over the lines [get_cart] displays. *)
Definition lines_sum (lines : list CartLine) : Q :=
  fold_right (fun l acc => qmul (line_price l) (line_qty l) + acc)%Q 0%Q lines.

Lemma lines_total_sum d items acc t :
  lines_total d items acc = Some t -> (t == acc + lines_sum (cart_lines_of d items))%Q.
Proof.
  revert acc. induction items as [|it items IH]; intros acc H; cbn in H.
  - invc H. cbn. ring.
  - unfold cart_lines_of. cbn [omap list_omap].
    destruct (get (products d) (CartItem.product_id it)) as [p|]; [|done].
    apply IH in H. cbn [fmap option_fmap option_map].
    change (lines_sum (?l :: ?ls)) with (qmul (line_price l) (line_qty l) + lines_sum ls)%Q.
    fold (cart_lines_of d items). rewrite H. cbn. ring.
Qed.

Lemma cart_lines_of_Forall (P : CartLine -> Prop) d items :
  (forall p it, P (cart_line p it)) -> Forall P (cart_lines_of d items).
Proof.
  intros HP. apply Forall_forall. intros l Hl. unfold cart_lines_of in Hl.
  apply list_elem_of_omap in Hl as (it & _ & Hl).
  destruct (get _ _); cbn in Hl; [|done]. invc Hl. apply HP.
Qed.

(** C19: the total [get_cart] returns is [round(Σ price × qty, 2)]
    over the very lines it displays (live prices), and each line's
    subtotal is [round(price × qty, 2)].  The total is rounded once,
    after summing: it need not equal the sum of the displayed
    subtotals. *)
Theorem get_cart_total uid d d' lines total :
  run_handler (get_cart uid) d = (d', Ok (lines, total)) ->
  total = round2 (lines_sum lines) /\
  Forall (fun l => line_subtotal l = round2 (qmul (line_price l) (line_qty l))) lines.
Proof.
  rewrite get_cart_run. destruct (goc_pure d uid) as [d1 cart].
  cbn zeta. destruct (lines_total d1 (items_of_cart d1 (Cart.id cart)) 0%Q) as [t|] eqn:Ht;
    intros H; invc H.
  split; [|by apply cart_lines_of_Forall].
  apply lines_total_sum in Ht. rewrite Qplus_0_l in Ht. by rewrite Ht.
Qed.

(** ** Witnesses on the scenarios of the specification *)

Import Fixtures.

(** Product B is out of stock; a negative quantity of A is stored as a
    cart line. *)
Lemma add_to_cart_guard_witness :
  run_handler (add_to_cart 7 2 2) scenario_empty =
    (scenario_empty, Err (HTTPException 400 "Insufficient stock")) /\
  exists d', run_handler (add_to_cart 7 1 (-3)) scenario_empty = (d', Ok tt) /\ cart_qty d' 1 1 = -3.
Proof.
  split.
  - apply (add_to_cart_guard 7 2 2 scenario_empty). intros p Hp. vm_compute in Hp. invc Hp. vm_compute. reflexivity.
  - destruct (proj2 (add_to_cart_guard 7 1 (-3) scenario_empty) prodA) as [d' Hr]; [reflexivity|vm_compute; discriminate|].
    exists d'. split; [exact Hr|]. vm_compute in Hr. invc Hr. reflexivity.
Defined.

(** Adding A x 2 twice to an empty cart leaves one line of A x 4. *)
Lemma add_to_cart_accumulates_witness :
  cart_qty (fst (run_handler (add_to_cart 7 1 2) scenario_ok)) 1 1 = 4 /\
  cart_items (fst (run_handler (add_to_cart 7 1 2) scenario_ok)) = [CartItem.mkCartItem 1 1 1 4].
Proof.
  destruct (run_handler (add_to_cart 7 1 2) scenario_ok) as [d' r] eqn:Hr.
  assert (r = Ok tt) as -> by (vm_compute in Hr; by invc Hr).
  destruct (add_to_cart_accumulates 7 1 2 scenario_ok d') as (_ & cart & Hc & Hq & _);
    [repeat constructor; set_solver|exact Hr|].
  vm_compute in Hr. invc Hr. vm_compute in Hc. invc Hc. split.
  - rewrite Hq. reflexivity.
  - reflexivity.
Defined.

Lemma add_to_cart_preserves_cart_wf_witness :
  cart_wf (fst (run_handler (add_to_cart 7 2 1) scenario_ok)).
Proof.
  destruct (run_handler (add_to_cart 7 2 1) scenario_ok) as [d' r] eqn:Hr.
  apply (add_to_cart_preserves_cart_wf 7 2 1 scenario_ok d' r); [|exact Hr].
  split; repeat constructor; set_solver.
Defined.

(** Two lines of 0.125: each subtotal rounds to 0.12 (half to even),
    the total of 0.25 is not their sum. *)
Lemma get_cart_total_witness :
  run_handler (get_cart 7)
    (mkDB [] [] [product 1 "A" (125 # 1000) 5; product 2 "B" (125 # 1000) 5] [cart7]
       [CartItem.mkCartItem 1 1 1 1; CartItem.mkCartItem 2 1 2 1] [] [] [] []) =
  (mkDB [] [] [product 1 "A" (125 # 1000) 5; product 2 "B" (125 # 1000) 5] [cart7]
       [CartItem.mkCartItem 1 1 1 1; CartItem.mkCartItem 2 1 2 1] [] [] [] [],
   Ok ([mkCartLine 1 1 "A" 1 (125 # 1000) (12 # 100); mkCartLine 2 2 "B" 1 (125 # 1000) (12 # 100)],
       25 # 100)) /\
  (25 # 100)%Q = round2 (lines_sum [mkCartLine 1 1 "A" 1 (125 # 1000) (12 # 100);
                                mkCartLine 2 2 "B" 1 (125 # 1000) (12 # 100)]).
Proof.
  assert (H : run_handler (get_cart 7)
    (mkDB [] [] [product 1 "A" (125 # 1000) 5; product 2 "B" (125 # 1000) 5] [cart7]
       [CartItem.mkCartItem 1 1 1 1; CartItem.mkCartItem 2 1 2 1] [] [] [] []) =
  (mkDB [] [] [product 1 "A" (125 # 1000) 5; product 2 "B" (125 # 1000) 5] [cart7]
       [CartItem.mkCartItem 1 1 1 1; CartItem.mkCartItem 2 1 2 1] [] [] [] [],
   Ok ([mkCartLine 1 1 "A" 1 (125 # 1000) (12 # 100); mkCartLine 2 2 "B" 1 (125 # 1000) (12 # 100)],
       25 # 100))) by (vm_compute; reflexivity).
  split; [exact H|]. exact (proj1 (get_cart_total _ _ _ _ _ H)).
Defined.
