(* ===== verification/Checkout.v ===== *)
(** * Checkout: the [checkout] handler (main.py 117-142)

    The handler in three phases, as the code writes it:
    - validation: the loop of lines 124-128 reads each line's product,
      raises [HTTPException(400, "Insufficient stock for <title>")] at
      the first line whose quantity exceeds the stock, and sums
      [price * qty];
    - first commit (129-132): the [Order] with [round(total, 2)];
    - second commit (133-141): per line, [p.stock -= it.qty], an
      [OrderItem] snapshot of the price, a [purchase] event; then the
      cart lines are deleted.

    Next to the monadic handler are its pure counterparts
    ([validate_pure], [apply_lines], [delete_lines]) and the lemmas
    that the loops compute them; the theorems are stated on
    [run_handler (checkout uid) d]. *)

From S2P Require Import Prelude Models Session Cart.

(** ** The handler *)

(** Lines 124-128. *)
Fixpoint validate_loop (items : list CartItem) (total : Q) : M Q :=
  match items with
  | [] => ret total
  | it :: rest =>
      p <- get_product_or_crash (CartItem.product_id it) ;;
      if Product.stock p <? CartItem.qty it
      then bad_request ("Insufficient stock for " ++ Product.title p)
      else validate_loop rest (total + qmul (Product.price p) (CartItem.qty it))%Q
  end.

(** Lines 133-137. *)
Fixpoint commit_loop (user_id order_id : Z) (items : list CartItem) : M unit :=
  match items with
  | [] => ret tt
  | it :: rest =>
      p <- get_product_or_crash (CartItem.product_id it) ;;
      write (set_products (fun t =>
               update_row t (Product.set_stock p (Product.stock p - CartItem.qty it)))) ;;
      write (set_order_items (fun t =>
               insert_row t (OrderItem.mkOrderItem (next_id t) order_id (Product.id p)
                               (CartItem.qty it) (Product.price p)))) ;;
      add_event (Some user_id) "purchase" (Some (Product.id p)) ;;
      commit_loop user_id order_id rest
  end.

(** Lines 139-140. *)
Fixpoint delete_loop (items : list CartItem) : M unit :=
  match items with
  | [] => ret tt
  | it :: rest =>
      write (set_cart_items (fun t => delete_row t (CartItem.id it))) ;;
      delete_loop rest
  end.

Definition checkout (user_id : Z) : M (Z * Q) :=
  cart <- get_or_create_cart user_id ;;
  items <- read (fun d => items_of_cart d (Cart.id cart)) ;;
  match items with
  | [] => bad_request "Cart is empty"
  | _ :: _ =>
      total <- validate_loop items 0%Q ;;
      order <- read (fun d => Order.mkOrder (next_id (orders d)) user_id (round2 total)) ;;
      write (set_orders (fun t => insert_row t order)) ;;
      commit ;;
      commit_loop user_id (Order.id order) items ;;
      delete_loop items ;;
      commit ;;
      ret (Order.id order, Order.total order)
  end.

(** ** Pure counterparts of the loops *)

Fixpoint validate_pure (d : DB) (items : list CartItem) (total : Q) : result Q :=
  match items with
  | [] => Ok total
  | it :: rest =>
      match get (products d) (CartItem.product_id it) with
      | None => Err (AttributeError "'NoneType' object has no attribute")
      | Some p =>
          if Product.stock p <? CartItem.qty it
          then Err (HTTPException 400 ("Insufficient stock for " ++ Product.title p))
          else validate_pure d rest (total + qmul (Product.price p) (CartItem.qty it))%Q
      end
  end.

(** The effect of one line of the commit loop on the database. *)
Definition apply_line (user_id order_id : Z) (it : CartItem) (p : Product) (d : DB) : DB :=
  let d1 := set_products (fun t =>
              update_row t (Product.set_stock p (Product.stock p - CartItem.qty it))) d in
  let d2 := set_order_items (fun t =>
              insert_row t (OrderItem.mkOrderItem (next_id t) order_id (Product.id p)
                              (CartItem.qty it) (Product.price p))) d1 in
  set_events (fun t => insert_row t
                (Event.mkEvent (next_id t) (Some user_id) "purchase" (Some (Product.id p)) None)) d2.

Fixpoint apply_lines (user_id order_id : Z) (items : list CartItem) (d : DB) : option DB :=
  match items with
  | [] => Some d
  | it :: rest =>
      match get (products d) (CartItem.product_id it) with
      | None => None
      | Some p => apply_lines user_id order_id rest (apply_line user_id order_id it p d)
      end
  end.

Definition delete_lines (items : list CartItem) (d : DB) : DB :=
  fold_left (fun d it => set_cart_items (fun t => delete_row t (CartItem.id it)) d) items d.

(** ** Invariants and views used by the theorems *)

(** Every stock the code can read is non-negative. *)
Definition stock_nonneg (d : DB) : Prop :=
  forall pid s, stock_of d pid = Some s -> 0 <= s.

(** Quantity of product [pid] summed over a list of lines. *)
Definition qty_for (pid : Z) (items : list CartItem) : Z :=
  sumZ CartItem.qty (List.filter (fun it => Z.eqb (CartItem.product_id it) pid) items).

(** ** The loops compute their pure counterparts *)

Lemma validate_loop_run items total s :
  validate_loop items total s = (s, validate_pure (working s) items total).
Proof.
  revert total. induction items as [|it items IH]; intros total; [done|].
  cbn [validate_loop validate_pure]. unfold bind at 1, get_product_or_crash.
  destruct (get (products (working s)) (CartItem.product_id it)) as [p|]; [|done].
  destruct (Product.stock p <? CartItem.qty it); [done|]. apply IH.
Qed.

Lemma commit_loop_ok uid oid items s d' :
  apply_lines uid oid items (working s) = Some d' ->
  commit_loop uid oid items s = (mkSession (committed s) d', Ok tt).
Proof.
  revert s. induction items as [|it items IH]; intros s H; cbn in H.
  - injection H as <-. by destruct s.
  - cbn [commit_loop]. unfold bind at 1, get_product_or_crash.
    destruct (get (products (working s)) (CartItem.product_id it)) as [p|]; [|done].
    apply (IH (mkSession (committed s) (apply_line uid oid it p (working s))) H).
Qed.

Lemma commit_loop_fail uid oid items s :
  apply_lines uid oid items (working s) = None ->
  exists s', commit_loop uid oid items s =
             (s', Err (AttributeError "'NoneType' object has no attribute")) /\
             committed s' = committed s.
Proof.
  revert s. induction items as [|it items IH]; intros s H; cbn in H; [done|].
  cbn [commit_loop]. unfold bind at 1, get_product_or_crash.
  destruct (get (products (working s)) (CartItem.product_id it)) as [p|]; [|by exists s].
  apply (IH (mkSession (committed s) (apply_line uid oid it p (working s))) H).
Qed.

Lemma delete_loop_run items s :
  delete_loop items s = (mkSession (committed s) (delete_lines items (working s)), Ok tt).
Proof.
  revert s. induction items as [|it items IH]; intros s; [by destruct s|].
  apply (IH (mkSession (committed s) _)).
Qed.

(** ** The handler as a function of the database *)

Definition checkout_spec (uid : Z) (d : DB) : DB * result (Z * Q) :=
  let '(d1, cart) := goc_pure d uid in
  match items_of_cart d1 (Cart.id cart) with
  | [] => (d1, Err (HTTPException 400 "Cart is empty"))
  | items =>
      match validate_pure d1 items 0%Q with
      | Err e => (d1, Err e)
      | Ok total =>
          let oid := next_id (orders d1) in
          let d2 := set_orders (fun t => insert_row t (Order.mkOrder oid uid (round2 total))) d1 in
          match apply_lines uid oid items d2 with
          | None => (d2, Err (AttributeError "'NoneType' object has no attribute"))
          | Some d3 => (delete_lines items d3, Ok (oid, round2 total))
          end
      end
  end.

Lemma checkout_run uid d : run_handler (checkout uid) d = checkout_spec uid d.
Proof.
  unfold run_handler, checkout, checkout_spec.
  unfold bind at 1. rewrite get_or_create_cart_run.
  destruct (goc_pure d uid) as [d1 cart].
  cbn -[validate_pure validate_loop apply_lines commit_loop delete_loop delete_lines].
  destruct (items_of_cart d1 (Cart.id cart)) as [|it items] eqn:Ei; [done|].
  cbn -[validate_pure validate_loop apply_lines commit_loop delete_loop delete_lines].
  unfold bind at 1. rewrite validate_loop_run. cbn [working].
  destruct (validate_pure d1 (it :: items) 0%Q) as [total|e]; [|done].
  cbn -[validate_pure validate_loop apply_lines commit_loop delete_loop delete_lines].
  set (d2 := set_orders _ d1).
  destruct (apply_lines uid (next_id (orders d1)) (it :: items) d2) as [d3|] eqn:Ea.
  - unfold bind at 1. rewrite (commit_loop_ok _ _ _ (mkSession d2 d2) _ Ea).
    cbn -[delete_loop delete_lines]. unfold bind at 1. by rewrite delete_loop_run.
  - destruct (commit_loop_fail uid (next_id (orders d1)) (it :: items)
                (mkSession d2 d2) Ea) as (s' & Hs' & Hc).
    unfold bind at 1.
    match goal with |- context [commit_loop ?a ?b ?c ?e] =>
      replace (commit_loop a b c e) with
        (s', Err (A:=unit) (AttributeError "'NoneType' object has no attribute")) end.
    cbn. by rewrite Hc.
Qed.

(** ** Validation *)

(** The condition the validation loop checks on one line. *)
Definition line_ok (d : DB) (it : CartItem) : bool :=
  match get (products d) (CartItem.product_id it) with
  | Some p => CartItem.qty it <=? Product.stock p
  | None => false
  end.

Lemma validate_pure_all_ok d items t :
  forallb (line_ok d) items = true ->
  exists t', validate_pure d items t = Ok t' /\ lines_total d items t = Some t'.
Proof.
  revert t. induction items as [|it items IH]; intros t H; [by exists t|].
  cbn in H |- *. apply andb_true_iff in H as [Hit Hrest]. unfold line_ok in Hit.
  destruct (get (products d) (CartItem.product_id it)) as [p|]; [|done].
  destruct (Z.ltb_spec (Product.stock p) (CartItem.qty it)); [apply Z.leb_le in Hit; lia|].
  apply IH, Hrest.
Qed.

Lemma validate_pure_Ok_inv d items t t' :
  validate_pure d items t = Ok t' ->
  forallb (line_ok d) items = true /\ lines_total d items t = Some t'.
Proof.
  revert t. induction items as [|it items IH]; intros t H;
    cbn [validate_pure forallb lines_total] in H |- *; [by invc H|].
  unfold line_ok at 1. destruct (get (products d) (CartItem.product_id it)) as [p|]; [|done].
  destruct (Z.ltb_spec (Product.stock p) (CartItem.qty it)); [done|].
  destruct (IH _ H) as [-> ->]. split; [|done]. apply andb_true_iff. split; [|done].
  apply Z.leb_le. lia.
Qed.

(** The first line out of stock names the error. *)
Lemma validate_pure_first_fail d pre it post p t :
  forallb (line_ok d) pre = true ->
  get (products d) (CartItem.product_id it) = Some p ->
  Product.stock p < CartItem.qty it ->
  validate_pure d (pre ++ it :: post) t =
  Err (HTTPException 400 ("Insufficient stock for " ++ Product.title p)).
Proof.
  intros Hpre Hp Hlt. revert t.
  induction pre as [|x pre IH]; intros t; cbn [forallb validate_pure app] in Hpre |- *.
  - rewrite Hp. by destruct (Z.ltb_spec (Product.stock p) (CartItem.qty it)); [|lia].
  - apply andb_true_iff in Hpre as [Hx Hpre]. unfold line_ok in Hx.
    destruct (get (products d) (CartItem.product_id x)) as [q|]; [|done].
    apply Z.leb_le in Hx.
    destruct (Z.ltb_spec (Product.stock q) (CartItem.qty x)); [lia|]. by apply IH.
Qed.

(** ** The commit loop *)

Lemma stock_of_apply_line uid oid it p d i :
  get (products d) (CartItem.product_id it) = Some p ->
  stock_of (apply_line uid oid it p d) i =
  (fun s => if Z.eqb (CartItem.product_id it) i then s - CartItem.qty it else s)
    <$> stock_of d i.
Proof.
  intros Hp. pose proof (get_Some _ _ _ Hp) as [Hid _].
  change (Product.id p = CartItem.product_id it) in Hid.
  unfold stock_of, apply_line. cbn [products set_events set_order_items set_products].
  rewrite get_update_row. change (row_id (Product.set_stock p ?s)) with (Product.id p).
  destruct (Z.eqb_spec i (Product.id p)) as [->|Hne].
  - rewrite Hid, Hp, Z.eqb_refl. done.
  - destruct (Z.eqb_spec (CartItem.product_id it) i); [congruence|].
    by destruct (get (products d) i).
Qed.

Lemma apply_line_is_Some uid oid it p d i :
  is_Some (get (products (apply_line uid oid it p d)) i) <-> is_Some (get (products d) i).
Proof.
  unfold apply_line. cbn [products set_events set_order_items set_products].
  rewrite get_update_row. destruct (Z.eqb _ _); [|done].
  destruct (get (products d) i); split; intros [? ?]; by eauto.
Qed.

Lemma qty_for_cons i it items :
  qty_for i (it :: items) =
  (if Z.eqb (CartItem.product_id it) i then CartItem.qty it else 0) + qty_for i items.
Proof. unfold qty_for. cbn [List.filter]. destruct (Z.eqb _ _); rewrite ?sumZ_cons; lia. Qed.

(** Each product's stock drops by the quantity the lines take of it. *)
Lemma apply_lines_stock uid oid items d d' :
  apply_lines uid oid items d = Some d' ->
  forall i, stock_of d' i = (fun s => s - qty_for i items) <$> stock_of d i.
Proof.
  revert d. induction items as [|it items IH]; intros d H i; cbn [apply_lines] in H.
  - invc H. destruct (stock_of d' i); cbn; [|done]. f_equal. unfold qty_for, sumZ. cbn. lia.
  - destruct (get (products d) (CartItem.product_id it)) as [p|] eqn:Hp; [|done].
    rewrite (IH _ H i), (stock_of_apply_line _ _ _ _ _ _ Hp), qty_for_cons.
    destruct (stock_of d i); cbn; [|done]. f_equal. destruct (Z.eqb _ _); lia.
Qed.

(** The commit loop cannot crash when every line's product exists. *)
Lemma apply_lines_Some uid oid items d :
  Forall (fun it => is_Some (get (products d) (CartItem.product_id it))) items ->
  is_Some (apply_lines uid oid items d).
Proof.
  revert d. induction items as [|it items IH]; intros d H; [cbn; by eexists|].
  inversion H as [|? ? [p Hp] Hrest]; subst. cbn. rewrite Hp. apply IH.
  eapply Forall_impl; [exact Hrest|]. intros x Hx. by apply apply_line_is_Some.
Qed.

Lemma line_ok_present d items :
  forallb (line_ok d) items = true ->
  Forall (fun it => is_Some (get (products d) (CartItem.product_id it))) items.
Proof.
  intros H. apply Forall_forall. intros it Hin. eapply forallb_forall in H; [|apply list_elem_of_In, Hin].
  unfold line_ok in H. destruct (get _ _); [by eexists|done].
Qed.

(** The tables the commit loop does not write. *)
Lemma apply_lines_frame uid oid items d d' :
  apply_lines uid oid items d = Some d' ->
  users d' = users d /\ categories d' = categories d /\ carts d' = carts d /\
  cart_items d' = cart_items d /\ orders d' = orders d /\ flags d' = flags d.
Proof.
  revert d. induction items as [|it items IH]; intros d H; cbn [apply_lines] in H.
  - by invc H.
  - destruct (get (products d) (CartItem.product_id it)) as [p|]; [|done].
    apply IH in H. exact H.
Qed.

(** The price the code reads for a product. *)
Definition price_of (d : DB) (pid : Z) : option Q := Product.price <$> get (products d) pid.

Lemma price_of_apply_line uid oid it p d i :
  get (products d) (CartItem.product_id it) = Some p ->
  price_of (apply_line uid oid it p d) i = price_of d i.
Proof.
  intros Hp. pose proof (get_Some _ _ _ Hp) as [Hid _].
  change (Product.id p = CartItem.product_id it) in Hid.
  unfold price_of, apply_line. cbn [products set_events set_order_items set_products].
  rewrite get_update_row. change (row_id (Product.set_stock p ?s)) with (Product.id p).
  destruct (Z.eqb_spec i (Product.id p)) as [->|]; [|done].
  by rewrite Hid, Hp.
Qed.

(** What an [OrderItem] row records, without its rowid. *)
Definition oi_view (oi : OrderItem) : Z * Z * Z * Q :=
  (OrderItem.order_id oi, OrderItem.product_id oi, OrderItem.qty oi, OrderItem.price_each oi).

(** The commit loop appends one [OrderItem] per line: the line's
    product and quantity and the product's price at that moment. *)
Lemma apply_lines_order_items uid oid items d d' :
  apply_lines uid oid items d = Some d' ->
  exists news, order_items d' = order_items d ++ news /\
    map oi_view news =
    map (fun it => (oid, CartItem.product_id it, CartItem.qty it,
                    default 0%Q (price_of d (CartItem.product_id it)))) items.
Proof.
  revert d. induction items as [|it items IH]; intros d H; cbn [apply_lines] in H.
  - invc H. exists []. by rewrite app_nil_r.
  - destruct (get (products d) (CartItem.product_id it)) as [p|] eqn:Hp; [|done].
    destruct (IH _ H) as (news & Hd' & Hv). pose proof (get_Some _ _ _ Hp) as [Hid _].
    change (Product.id p = CartItem.product_id it) in Hid.
    eexists. split; [rewrite Hd'; cbn; unfold insert_row; by rewrite <- app_assoc|].
    cbn. rewrite Hv. f_equal.
    + unfold oi_view, price_of. cbn. by rewrite Hid, Hp.
    + apply map_ext. intros x. by rewrite (price_of_apply_line _ _ _ _ _ _ Hp).
Qed.

(** The commit loop appends one [purchase] event per line. *)
Lemma apply_lines_events uid oid items d d' :
  apply_lines uid oid items d = Some d' ->
  exists news, events d' = events d ++ news /\
    map ev_view news = map (fun it => (Some uid, "purchase", Some (CartItem.product_id it))) items.
Proof.
  revert d. induction items as [|it items IH]; intros d H; cbn [apply_lines] in H.
  - invc H. exists []. by rewrite app_nil_r.
  - destruct (get (products d) (CartItem.product_id it)) as [p|] eqn:Hp; [|done].
    destruct (IH _ H) as (news & Hd' & Hv). pose proof (get_Some _ _ _ Hp) as [Hid _].
    change (Product.id p = CartItem.product_id it) in Hid.
    eexists. split; [rewrite Hd'; cbn; unfold insert_row; by rewrite <- app_assoc|].
    cbn. rewrite Hv. unfold ev_view. cbn. by rewrite Hid.
Qed.

(** ** Deleting the cart lines *)

Lemma delete_lines_cart_items items d :
  cart_items (delete_lines items d) =
  List.filter (fun x => negb (existsb (fun it => Z.eqb (CartItem.id x) (CartItem.id it)) items))
    (cart_items d).
Proof.
  revert d. induction items as [|it items IH]; intros d.
  - cbn. induction (cart_items d) as [|x l IHl]; cbn; [done|]. by rewrite <- IHl.
  - cbn [delete_lines fold_left]. unfold delete_lines in IH. rewrite IH. cbn.
    unfold delete_row. rewrite filter_filter. apply List.filter_ext. intros x.
    cbn. by rewrite negb_orb.
Qed.

Lemma delete_lines_frame items d :
  let d' := delete_lines items d in
  users d' = users d /\ categories d' = categories d /\ products d' = products d /\
  carts d' = carts d /\ orders d' = orders d /\ order_items d' = order_items d /\
  events d' = events d /\ flags d' = flags d.
Proof.
  revert d. induction items as [|it items IH]; intros d; [done|].
  exact (IH (set_cart_items (fun t => delete_row t (CartItem.id it)) d)).
Qed.

(** Deleting the lines of a cart leaves that cart empty. *)
Lemma delete_own_lines d d' cid :
  cart_items d' = cart_items d ->
  items_of_cart (delete_lines (items_of_cart d cid) d') cid = [].
Proof.
  intros Hci. unfold items_of_cart at 1. rewrite delete_lines_cart_items, Hci, filter_filter.
  apply filter_all_false. intros x Hx. cbv beta.
  destruct (Z.eqb_spec (CartItem.cart_id x) cid); [|by rewrite andb_false_r].
  rewrite andb_true_r.
  apply negb_false_iff, existsb_exists. exists x. split; [|apply Z.eqb_refl].
  unfold items_of_cart. apply filter_In. split; [by apply list_elem_of_In|].
  by apply Z.eqb_eq.
Qed.

(** A boolean check of [stock_nonneg] over the rows of the table. *)
Lemma stock_nonneg_rows d :
  forallb (fun p => Z.leb 0 (Product.stock p)) (products d) = true -> stock_nonneg d.
Proof.
  intros H pid s Hs. unfold stock_of in Hs.
  destruct (get (products d) pid) as [p|] eqn:Hp; invc Hs.
  apply get_Some in Hp as [_ Hin]. apply list_elem_of_In in Hin.
  eapply forallb_forall in H; [|exact Hin]. by apply Z.leb_le in H.
Qed.

(** ** The outcomes of [checkout] *)

Lemma stock_of_products d d' : products d' = products d -> stock_of d' = stock_of d.
Proof. unfold stock_of. by intros ->. Qed.

Lemma cart_qty_items_of_cart d cid pid : cart_qty d cid pid = qty_for pid (items_of_cart d cid).
Proof. unfold cart_qty, qty_for, items_of_cart. by rewrite filter_filter. Qed.

(** Either the handler fails before its first commit and the database
    is the one [get_or_create_cart] left, or every phase runs; the
    commit loop cannot crash once validation passed. *)
Lemma checkout_cases uid d d' r :
  run_handler (checkout uid) d = (d', r) ->
  let '(d1, cart) := goc_pure d uid in
  let items := items_of_cart d1 (Cart.id cart) in
  (exists e, r = Err e /\ d' = d1) \/
  (exists t d3, items <> [] /\ validate_pure d1 items 0%Q = Ok t /\
     apply_lines uid (next_id (orders d1)) items
       (set_orders (fun o => insert_row o (Order.mkOrder (next_id (orders d1)) uid (round2 t))) d1)
       = Some d3 /\
     d' = delete_lines items d3 /\ r = Ok (next_id (orders d1), round2 t)).
Proof.
  rewrite checkout_run. unfold checkout_spec. destruct (goc_pure d uid) as [d1 cart].
  cbn zeta. destruct (items_of_cart d1 (Cart.id cart)) as [|it rest] eqn:Ei.
  { intros H. invc H. left. by eexists. }
  destruct (validate_pure d1 (it :: rest) 0%Q) as [t|e] eqn:Hv.
  2:{ intros H. invc H. left. by eexists. }
  destruct (apply_lines_Some uid (next_id (orders d1)) (it :: rest)
              (set_orders (fun o => insert_row o (Order.mkOrder (next_id (orders d1)) uid (round2 t))) d1))
    as [d3 Ha].
  { apply validate_pure_Ok_inv in Hv as [Hok _]. by apply line_ok_present. }
  rewrite Ha. intros H. invc H. right. by exists t, d3.
Qed.

(** C1: checkout is all-or-nothing: when it fails, no stock, order,
    order line, event or cart line has changed (at most the user's
    empty cart was created), and when the user already had a cart the
    database is exactly the one before the request. *)
Theorem checkout_all_or_nothing uid d d' e :
  run_handler (checkout uid) d = (d', Err e) ->
  products d' = products d /\ orders d' = orders d /\ order_items d' = order_items d /\
  events d' = events d /\ cart_items d' = cart_items d /\
  (forall c, cart_of_user d uid = Some c -> d' = d).
Proof.
  intros H. apply checkout_cases in H. pose proof (goc_pure_tables d uid) as Ht.
  pose proof (goc_pure_existing d uid) as Hex.
  destruct (goc_pure d uid) as [d1 cart]. cbn in Ht.
  destruct H as [(e' & _ & ->)|(t & d3 & _ & _ & _ & _ & Hr)]; [|done].
  destruct Ht as (Hp & Hci & Ho & Hoi & He & _). split_and!; try done.
  intros c Hc. specialize (Hex c Hc). by invc Hex.
Qed.

(** C2: when the lines before some line are all in stock and that
    line asks for more than its product's stock, checkout fails with
    [HTTPException(400, "Insufficient stock for <title>")] naming that
    product, and the database is unchanged. *)
Theorem checkout_insufficient_stock uid d cart pre it post p :
  cart_of_user d uid = Some cart ->
  items_of_cart d (Cart.id cart) = pre ++ it :: post ->
  forallb (line_ok d) pre = true ->
  get (products d) (CartItem.product_id it) = Some p ->
  Product.stock p < CartItem.qty it ->
  run_handler (checkout uid) d =
  (d, Err (HTTPException 400 ("Insufficient stock for " ++ Product.title p))).
Proof.
  intros Hc Hi Hpre Hp Hlt. rewrite checkout_run. unfold checkout_spec.
  rewrite (goc_pure_existing _ _ _ Hc). cbn zeta. rewrite Hi.
  pose proof (validate_pure_first_fail d pre it post p 0%Q Hpre Hp Hlt) as Hf.
  destruct pre; cbn [app] in Hf |- *; by rewrite Hf.
Qed.

(** C3: when every line of the user's non-empty cart is in stock,
    checkout returns the new order id and [round(Σ price × qty, 2)] at
    the current prices, appends exactly that [Order], empties the cart
    and lowers each product's stock by the quantity the cart held of it. *)
Theorem checkout_success uid d cart :
  cart_of_user d uid = Some cart ->
  items_of_cart d (Cart.id cart) <> [] ->
  forallb (line_ok d) (items_of_cart d (Cart.id cart)) = true ->
  exists total d',
    lines_total d (items_of_cart d (Cart.id cart)) 0%Q = Some total /\
    run_handler (checkout uid) d = (d', Ok (next_id (orders d), round2 total)) /\
    orders d' = orders d ++ [Order.mkOrder (next_id (orders d)) uid (round2 total)] /\
    items_of_cart d' (Cart.id cart) = [] /\
    (forall pid, stock_of d' pid = (fun s => s - cart_qty d (Cart.id cart) pid) <$> stock_of d pid).
Proof.
  intros Hc Hne Hok.
  destruct (validate_pure_all_ok d _ 0%Q Hok) as (t & Hv & Hl).
  set (d2 := set_orders (fun o => insert_row o (Order.mkOrder (next_id (orders d)) uid (round2 t))) d).
  destruct (apply_lines_Some uid (next_id (orders d)) (items_of_cart d (Cart.id cart)) d2) as [d3 Ha].
  { by apply line_ok_present. }
  pose proof (apply_lines_frame _ _ _ _ _ Ha) as (_ & _ & _ & Hci & Ho & _).
  pose proof (delete_lines_frame (items_of_cart d (Cart.id cart)) d3) as (_ & _ & Hp & _ & Ho' & _).
  exists t, (delete_lines (items_of_cart d (Cart.id cart)) d3). split_and!.
  - done.
  - rewrite checkout_run. unfold checkout_spec. rewrite (goc_pure_existing _ _ _ Hc).
    cbn zeta. destruct (items_of_cart d (Cart.id cart)) as [|it rest]; [done|].
    rewrite Hv. fold d2. by rewrite Ha.
  - by rewrite Ho', Ho.
  - by apply delete_own_lines.
  - intros pid. rewrite (stock_of_products _ _ Hp), (apply_lines_stock _ _ _ _ _ Ha).
    by rewrite cart_qty_items_of_cart.
Qed.

(** Checking out a cart with no lines fails with
    [HTTPException(400, "Cart is empty")] and changes nothing. *)
Theorem checkout_empty_cart uid d cart :
  cart_of_user d uid = Some cart ->
  items_of_cart d (Cart.id cart) = [] ->
  run_handler (checkout uid) d = (d, Err (HTTPException 400 "Cart is empty")).
Proof.
  intros Hc Hi. rewrite checkout_run. unfold checkout_spec.
  rewrite (goc_pure_existing _ _ _ Hc). cbn zeta. by rewrite Hi.
Qed.

(** ** Stock never goes negative under the cart invariant *)

Lemma qty_for_absent pid items :
  pid ∉ map CartItem.product_id items -> qty_for pid items = 0.
Proof.
  intros Hn. unfold qty_for. rewrite filter_all_false; [done|].
  intros x Hx. destruct (Z.eqb_spec (CartItem.product_id x) pid) as [<-|]; [|done].
  exfalso. apply Hn. apply list_elem_of_fmap. by exists x.
Qed.

Lemma qty_for_le_stock d items pid s :
  NoDup (map CartItem.product_id items) -> forallb (line_ok d) items = true ->
  stock_of d pid = Some s -> 0 <= s -> qty_for pid items <= s.
Proof.
  induction items as [|it items IH]; intros Hnd Hok Hs Hpos; [unfold qty_for, sumZ; cbn; lia|].
  cbn in Hnd, Hok. apply NoDup_cons in Hnd as [Hn Hnd]. apply andb_true_iff in Hok as [Hit Hok].
  rewrite qty_for_cons. destruct (Z.eqb_spec (CartItem.product_id it) pid) as [<-|].
  - rewrite qty_for_absent by done. unfold line_ok in Hit. unfold stock_of in Hs.
    destruct (get (products d) (CartItem.product_id it)); [|done]. invc Hs.
    apply Z.leb_le in Hit. lia.
  - specialize (IH Hnd Hok Hs Hpos). lia.
Qed.

Lemma items_of_cart_nodup d cid :
  cart_lines_unique d -> NoDup (map CartItem.product_id (items_of_cart d cid)).
Proof.
  unfold cart_lines_unique, items_of_cart. induction (cart_items d) as [|x l IH]; intros Hnd.
  - constructor.
  - cbn in Hnd. apply NoDup_cons in Hnd as [Hn Hnd]. cbn.
    destruct (Z.eqb_spec (CartItem.cart_id x) cid) as [Hx|]; [|by apply IH]. cbn.
    apply NoDup_cons. split; [|by apply IH].
    intros Hin. apply list_elem_of_fmap in Hin as (y & Hy & Hyin).
    apply list_elem_of_In, filter_In in Hyin as [Hyl Hyc]. apply Z.eqb_eq in Hyc.
    apply Hn. apply list_elem_of_fmap. exists y. split; [by rewrite Hx, Hy, Hyc|].
    by apply list_elem_of_In.
Qed.

Lemma checkout_stock_nonneg uid d d' r :
  stock_nonneg d -> cart_lines_unique d ->
  run_handler (checkout uid) d = (d', r) -> stock_nonneg d'.
Proof.
  intros Hnn Hu H. apply checkout_cases in H. pose proof (goc_pure_tables d uid) as Ht.
  destruct (goc_pure d uid) as [d1 cart]. cbn in Ht. destruct Ht as (Hp & Hci & _).
  destruct H as [(e & _ & ->)|(t & d3 & _ & Hv & Ha & -> & _)].
  { intros pid s. rewrite (stock_of_products _ _ Hp). apply Hnn. }
  intros pid s Hs. pose proof (delete_lines_frame (items_of_cart d1 (Cart.id cart)) d3) as (_ & _ & Hp3 & _).
  rewrite (stock_of_products _ _ Hp3), (apply_lines_stock _ _ _ _ _ Ha) in Hs.
  change (stock_of (set_orders ?f d1) pid) with (stock_of d1 pid) in Hs.
  rewrite (stock_of_products d d1 Hp) in Hs.
  destruct (stock_of d pid) as [s0|] eqn:Hs0; invc Hs.
  apply validate_pure_Ok_inv in Hv as [Hok _].
  assert (Hnd : NoDup (map CartItem.product_id (items_of_cart d1 (Cart.id cart)))).
  { apply items_of_cart_nodup. unfold cart_lines_unique in *. by rewrite Hci. }
  pose proof (Hnn _ _ Hs0).
  enough (qty_for pid (items_of_cart d1 (Cart.id cart)) <= s0) by lia.
  apply (qty_for_le_stock d1); [done|done| |done]. by rewrite (stock_of_products d d1 Hp).
Qed.

(** C4: under the cart invariant (at most one line per product in a
    cart), checkout keeps every stock non-negative, whatever its
    outcome. *)
Theorem checkout_preserves_stock_nonneg uid d d' r :
  stock_nonneg d -> cart_lines_unique d ->
  run_handler (checkout uid) d = (d', r) -> stock_nonneg d'.
Proof. intros. by eapply checkout_stock_nonneg. Qed.

(** ** The order agrees with the cart *)

(** C14: the total of the order [checkout] creates is the total
    [get_cart] displays for the same database. *)
Theorem checkout_total_is_cart_total uid d d1 d2 lines t oid t' :
  run_handler (get_cart uid) d = (d1, Ok (lines, t)) ->
  run_handler (checkout uid) d = (d2, Ok (oid, t')) ->
  t' = t.
Proof.
  rewrite get_cart_run. intros Hg Hc. apply checkout_cases in Hc.
  destruct (goc_pure d uid) as [d0 cart]. cbn zeta in Hg.
  destruct Hc as [(e & He & _)|(t0 & d3 & _ & Hv & _ & _ & Hr)]; [done|].
  apply validate_pure_Ok_inv in Hv as [_ Hl]. rewrite Hl in Hg. by invc Hg; invc Hr.
Qed.

(** C15: a successful checkout appends, for every line of the cart,
    one [OrderItem] with the order id, the product, the quantity and
    the product's price at checkout time, and one [purchase] event for
    the user and the product, in the order of the lines. *)
Theorem checkout_records_lines uid d cart d' oid t :
  cart_of_user d uid = Some cart ->
  run_handler (checkout uid) d = (d', Ok (oid, t)) ->
  (exists news, order_items d' = order_items d ++ news /\
     map oi_view news =
     map (fun it => (oid, CartItem.product_id it, CartItem.qty it,
                     default 0%Q (price_of d (CartItem.product_id it))))
       (items_of_cart d (Cart.id cart))) /\
  (exists news, events d' = events d ++ news /\
     map ev_view news =
     map (fun it => (Some uid, "purchase", Some (CartItem.product_id it)))
       (items_of_cart d (Cart.id cart))).
Proof.
  intros Hc H. apply checkout_cases in H. rewrite (goc_pure_existing _ _ _ Hc) in H.
  destruct H as [(e & He & _)|(t0 & d3 & _ & _ & Ha & -> & Hr)]; [done|]. invc Hr.
  pose proof (delete_lines_frame (items_of_cart d (Cart.id cart)) d3) as (_ & _ & _ & _ & _ & Hoi & He & _).
  rewrite Hoi, He. split.
  - exact (apply_lines_order_items _ _ _ _ _ Ha).
  - exact (apply_lines_events _ _ _ _ _ Ha).
Qed.

(** ** Conservation of stock *)

(** Units of product [pid] sold: the quantities of its order lines. *)
Definition sold (d : DB) (pid : Z) : Z :=
  sumZ OrderItem.qty (List.filter (fun oi => Z.eqb (OrderItem.product_id oi) pid) (order_items d)).

Lemma sold_new_lines (news : list OrderItem) (items : list CartItem) (g : CartItem -> Z * Z * Z * Q) pid :
  map oi_view news = map g items ->
  (forall it, (g it).1.1.2 = CartItem.product_id it /\ (g it).1.2 = CartItem.qty it) ->
  sumZ OrderItem.qty (List.filter (fun oi => Z.eqb (OrderItem.product_id oi) pid) news) =
  qty_for pid items.
Proof.
  intros Hv Hg. revert items Hv.
  induction news as [|oi news IH]; intros [|it items] Hv; cbn in Hv; try discriminate.
  - done.
  - injection Hv as Hoi Hrest. rewrite qty_for_cons, <- (IH _ Hrest).
    destruct (Hg it) as [Hp Hq]. unfold oi_view in Hoi. rewrite <- Hoi in Hp, Hq. cbn in Hp, Hq.
    cbn [List.filter]. rewrite <- Hp.
    destruct (Z.eqb (OrderItem.product_id oi) pid); rewrite ?sumZ_cons; lia.
Qed.

Lemma checkout_stock_balance uid d d' r :
  run_handler (checkout uid) d = (d', r) ->
  forall pid s, stock_of d pid = Some s ->
  exists s', stock_of d' pid = Some s' /\ s' + sold d' pid = s + sold d pid.
Proof.
  intros H pid s Hs. apply checkout_cases in H. pose proof (goc_pure_tables d uid) as Ht.
  destruct (goc_pure d uid) as [d1 cart]. cbn in Ht. destruct Ht as (Hp & _ & _ & Hoi & _).
  destruct H as [(e & _ & ->)|(t & d3 & _ & _ & Ha & -> & _)].
  { exists s. rewrite (stock_of_products _ _ Hp). unfold sold. by rewrite Hoi. }
  pose proof (delete_lines_frame (items_of_cart d1 (Cart.id cart)) d3)
    as (_ & _ & Hp3 & _ & _ & Hoi3 & _).
  destruct (apply_lines_order_items _ _ _ _ _ Ha) as (news & Hnews & Hv).
  exists (s - qty_for pid (items_of_cart d1 (Cart.id cart))). split.
  - rewrite (stock_of_products _ _ Hp3), (apply_lines_stock _ _ _ _ _ Ha).
    change (stock_of (set_orders ?f d1) pid) with (stock_of d1 pid).
    by rewrite (stock_of_products _ _ Hp), Hs.
  - unfold sold. rewrite Hoi3, Hnews, List.filter_app, sumZ_app.
    cbn [order_items set_orders]. rewrite Hoi.
    rewrite (sold_new_lines _ _ _ _ Hv); [lia|]. intros it. done.
Qed.

(** C5: checkout conserves stock: for every product, the stock plus
    the units sold (over all order lines) is the same before and after
    the request, whatever its outcome. *)
Theorem checkout_conserves_stock uid d d' r :
  run_handler (checkout uid) d = (d', r) ->
  forall pid s, stock_of d pid = Some s ->
  exists s', stock_of d' pid = Some s' /\ s' + sold d' pid = s + sold d pid.
Proof. intros. by eapply checkout_stock_balance. Qed.

(** ** The scenarios of the specification *)

Import Fixtures.

(** Section 8: after the failed checkout of A x 3 and B x 2, the stock
    of A is still 5 and no order exists. *)
Lemma checkout_all_or_nothing_witness :
  stock_of (fst (run_handler (checkout 7) scenario_oos)) 1 = Some 5 /\
  orders (fst (run_handler (checkout 7) scenario_oos)) = [].
Proof.
  destruct (run_handler (checkout 7) scenario_oos) as [d' r] eqn:Hc.
  assert (Hr : r = Err (HTTPException 400 "Insufficient stock for B")) by (vm_compute in Hc; by invc Hc).
  subst r. destruct (checkout_all_or_nothing _ _ _ _ Hc) as (Hp & Ho & _).
  cbn [fst]. rewrite (stock_of_products _ _ Hp), Ho. split; reflexivity.
Defined.

(** Section 8: A x 3 (stock 5) and B x 2 (stock 1) fails naming B. *)
Lemma checkout_insufficient_stock_witness :
  run_handler (checkout 7) scenario_oos =
  (scenario_oos, Err (HTTPException 400 "Insufficient stock for B")).
Proof.
  apply (checkout_insufficient_stock 7 scenario_oos cart7
           [CartItem.mkCartItem 1 1 1 3] (CartItem.mkCartItem 2 1 2 2) [] prodB);
    [reflexivity|reflexivity|reflexivity|reflexivity|vm_compute; reflexivity].
Defined.

(** Section 8: A x 2 (stock 5) succeeds, the stock becomes 3, one
    order with total 2 x 19.99. *)
Lemma checkout_success_witness :
  exists d', run_handler (checkout 7) scenario_ok = (d', Ok (1, 3998 # 100)) /\
    orders d' = [Order.mkOrder 1 7 (3998 # 100)] /\
    items_of_cart d' 1 = [] /\ stock_of d' 1 = Some 3.
Proof.
  destruct (checkout_success 7 scenario_ok cart7) as (t & d' & Ht & Hr & Ho & Hi & Hs);
    [reflexivity|discriminate|reflexivity|].
  vm_compute in Ht. invc Ht. exists d'. split_and!.
  - rewrite Hr. reflexivity.
  - rewrite Ho. reflexivity.
  - exact Hi.
  - rewrite Hs. reflexivity.
Defined.

Lemma checkout_empty_cart_witness :
  run_handler (checkout 7) scenario_empty =
  (scenario_empty, Err (HTTPException 400 "Cart is empty")).
Proof. apply (checkout_empty_cart 7 scenario_empty cart7); reflexivity. Defined.

Lemma checkout_preserves_stock_nonneg_witness :
  stock_nonneg (fst (run_handler (checkout 7) scenario_ok)).
Proof.
  destruct (run_handler (checkout 7) scenario_ok) as [d' r] eqn:Hc.
  apply (checkout_preserves_stock_nonneg 7 scenario_ok d' r); [|vm_compute|exact Hc].
  - apply stock_nonneg_rows. reflexivity.
  - repeat constructor; set_solver.
Defined.

Lemma checkout_total_is_cart_total_witness :
  run_handler (get_cart 7) scenario_ok = (scenario_ok, Ok (cart_lines_of scenario_ok [CartItem.mkCartItem 1 1 1 2], 3998 # 100)) /\
  exists d', run_handler (checkout 7) scenario_ok = (d', Ok (1, 3998 # 100)).
Proof.
  assert (Hg : run_handler (get_cart 7) scenario_ok =
               (scenario_ok, Ok (cart_lines_of scenario_ok [CartItem.mkCartItem 1 1 1 2], 3998 # 100)))
    by (vm_compute; reflexivity).
  split; [exact Hg|].
  destruct (run_handler (checkout 7) scenario_ok) as [d' r] eqn:Hc.
  destruct r as [[oid t]|e]; [|vm_compute in Hc; discriminate].
  pose proof (checkout_total_is_cart_total _ _ _ _ _ _ _ _ Hg Hc) as ->.
  exists d'. vm_compute in Hc. invc Hc. reflexivity.
Defined.

Lemma checkout_records_lines_witness :
  exists d' news, run_handler (checkout 7) scenario_ok = (d', Ok (1, 3998 # 100)) /\
    order_items d' = news /\ map oi_view news = [(1, 1, 2, 1999 # 100)].
Proof.
  destruct (run_handler (checkout 7) scenario_ok) as [d' r] eqn:Hc.
  assert (Hr : r = Ok (1, 3998 # 100)) by (vm_compute in Hc; by invc Hc). subst r.
  destruct (checkout_records_lines 7 scenario_ok cart7 d' 1 (3998 # 100) eq_refl Hc)
    as [(news & Hoi & Hv) _].
  exists d', news. split_and!; [done| |exact Hv]. rewrite Hoi. reflexivity.
Defined.

(** Without the cart invariant checkout oversells: with product A
    on two lines of 3 against a stock of 5, each line passes the
    validation on its own, the checkout succeeds and the stock becomes
    -1. *)
Theorem checkout_duplicate_lines_oversell :
  stock_nonneg scenario_dup /\ ~ cart_lines_unique scenario_dup /\
  exists d', run_handler (checkout 7) scenario_dup = (d', Ok (1, 11994 # 100)) /\
    stock_of d' 1 = Some (-1).
Proof.
  split_and!.
  - apply stock_nonneg_rows. reflexivity.
  - unfold cart_lines_unique. cbn. intros Hnd. apply NoDup_cons in Hnd as [Hn _]. set_solver.
  - eexists. split; vm_compute; reflexivity.
Qed.

Lemma checkout_conserves_stock_witness :
  stock_of (fst (run_handler (checkout 7) scenario_ok)) 1 = Some 3 /\
  sold (fst (run_handler (checkout 7) scenario_ok)) 1 = 2.
Proof.
  destruct (run_handler (checkout 7) scenario_ok) as [d' r] eqn:Hc.
  destruct (checkout_conserves_stock 7 scenario_ok d' r Hc 1 5 eq_refl) as (s' & Hs' & Hsum).
  assert (Hsold : sold d' 1 = 2) by (vm_compute in Hc; invc Hc; reflexivity).
  cbn [fst]. rewrite Hs'. split; [|exact Hsold]. f_equal.
  change (sold scenario_ok 1) with 0 in Hsum. lia.
Defined.
