(* ===== verification/Interleave.v ===== *)
(** * Interleave: concurrent checkouts against the shared database

    FastAPI runs each request of [src/main.py] in its own thread with
    its own session, and the handlers share the SQLite database.  The
    [checkout] handler (lines 117-142) touches that database at four
    kinds of points, which are the atomic steps of this model:
    - [Start]: [get_or_create_cart] (its own commit), the select of the
      cart lines and the validation loop, all reading the committed
      database (a coarsening: the loop's reads are taken together);
    - [Validated]: the first commit, of the [Order] (lines 129-132);
    - [Committing]: one line of the commit loop (lines 133-137).  The
      commit of line 131 expired every object of the session, so
      [it.product_id] reloads the cart line from the database (its
      quantity as it is now, or [ObjectDeletedError] when the row is
      gone); the product is loaded from the database, or taken from the
      session's identity map when the session already modified it, and
      its stock is decremented in memory only;
    - the second commit (line 141): the modified product rows are
      flushed with the values computed in memory, the [OrderItem] rows
      and [purchase] events inserted and the cart lines deleted.
    A request may also die between the two commits ([Aborted]): the
    session is then closed and its pending work lost.

    [wstep] interleaves the threads' steps; [run_schedule] runs a given
    schedule and computes. *)

From S2P Require Import Prelude Models Session Cart Checkout.

Inductive phase :=
  | Start
  | Validated (items : list CartItem) (total : Q)
  | Committing (items : list CartItem) (total : Q) (oid : Z)
      (todo : list CartItem) (loaded : list (CartItem * Product))
  | Finished (r : result (Z * Q))
  | Aborted.

Record thread := mkThread { uid : Z; phase_of : phase }.

(** [session.get(Product, pid)] in the commit loop: the object the
    session already modified for this id, else a fresh load. *)
Definition load_product (d : DB) (loaded : list (CartItem * Product)) (pid : Z) : option Product :=
  match get (rev (map snd loaded)) pid with
  | Some p => Some p
  | None => get (products d) pid
  end.

(** The writes the second commit flushes for one line, whose product
    object [p] already carries the decremented stock. *)
Definition commit_line (user_id oid : Z) (it : CartItem) (p : Product) (d : DB) : DB :=
  let d1 := set_products (fun t => update_row t p) d in
  let d2 := set_order_items (fun t =>
              insert_row t (OrderItem.mkOrderItem (next_id t) oid (Product.id p)
                              (CartItem.qty it) (Product.price p))) d1 in
  set_events (fun t => insert_row t
                (Event.mkEvent (next_id t) (Some user_id) "purchase" (Some (Product.id p)) None)) d2.

Definition commit_lines (user_id oid : Z) (loaded : list (CartItem * Product)) (d : DB) : DB :=
  fold_left (fun d l => commit_line user_id oid (fst l) (snd l) d) loaded d.

(** One atomic step of a checkout thread on the shared database. *)
Definition step_thread (d : DB) (t : thread) : option (DB * thread) :=
  match phase_of t with
  | Start =>
      let '(d1, cart) := goc_pure d (uid t) in
      match items_of_cart d1 (Cart.id cart) with
      | [] => Some (d1, mkThread (uid t) (Finished (Err (HTTPException 400 "Cart is empty"))))
      | items =>
          match validate_pure d1 items 0%Q with
          | Err e => Some (d1, mkThread (uid t) (Finished (Err e)))
          | Ok total => Some (d1, mkThread (uid t) (Validated items total))
          end
      end
  | Validated items total =>
      let oid := next_id (orders d) in
      Some (set_orders (fun o => insert_row o (Order.mkOrder oid (uid t) (round2 total))) d,
            mkThread (uid t) (Committing items total oid items []))
  | Committing items total oid (it :: rest) loaded =>
      match get (cart_items d) (CartItem.id it) with
      | None => Some (d, mkThread (uid t) (Finished (Err ObjectDeletedError)))
      | Some it' =>
          match load_product d loaded (CartItem.product_id it') with
          | None => Some (d, mkThread (uid t)
                               (Finished (Err (AttributeError "'NoneType' object has no attribute"))))
          | Some p =>
              Some (d, mkThread (uid t) (Committing items total oid rest
                     (loaded ++ [(it', Product.set_stock p (Product.stock p - CartItem.qty it'))])))
          end
      end
  | Committing items total oid [] loaded =>
      Some (delete_lines items (commit_lines (uid t) oid loaded d),
            mkThread (uid t) (Finished (Ok (oid, round2 total))))
  | Finished _ | Aborted => None
  end.

(** ** Worlds: the shared database and the request threads *)

Definition world : Type := pool DB thread.

(** A thread moves; or a thread between its two commits dies (the
    process is killed): its first commit stays, its session's work is
    lost. *)
Inductive wstep : world -> world -> Prop :=
  | wstep_run w w' : pstep step_thread w w' -> wstep w w'
  | wstep_abort w i t items total oid todo loaded :
      threads_of w !! i = Some t ->
      phase_of t = Committing items total oid todo loaded ->
      wstep w (mkPool (shared_of w) (<[i := mkThread (uid t) Aborted]> (threads_of w))).

(** Run thread [i] for one step, if it can move. *)
Definition step_world (i : nat) (w : world) : world := step_pool step_thread i w.

(** A schedule: the thread that moves at each step. *)
Definition run_schedule (sched : list nat) (w : world) : world := run_pool step_thread sched w.

(** ** Schedules are traces of [wstep] *)

Lemma run_schedule_star sched w : star wstep w (run_schedule sched w).
Proof. apply (star_mono (pstep step_thread)); [by constructor|apply run_pool_star]. Qed.

Import Fixtures.

(** ** Interleavings the code allows *)

(** The two checkout requests of the specification's scenario: users 7
    and 8 each want 3 of A, whose stock is 5. *)
Definition race_world : world := mkPool scenario_race [mkThread 7 Start; mkThread 8 Start].

(** C6: interleaved checkouts break the stock and the orders.  The
    checkout does not re-validate stock under the commit: in an
    interleaving where both requests validate before either commits,
    both succeed and the stock of A ends at -1, where the
    specification's scenario has exactly one succeed and the stock never
    negative.  The new stock is computed in the session and written
    back as a value: when both requests load the product before either
    flushes, one decrement is lost; both succeed, 6 units are sold and
    the stock is 2, so stock plus units sold is 8 where it was 5
    (compare [checkout_conserves_stock] for requests run one at a
    time).  And the [Order] is committed before any stock is
    decremented: a request that dies between the two commits leaves an
    order with no order line, the stock untouched and the cart still
    full. *)
Theorem concurrent_checkout_anomalies :
  (exists w, star wstep race_world w /\
    map phase_of (threads_of w) = [Finished (Ok (1, 5997 # 100)); Finished (Ok (2, 5997 # 100))] /\
    stock_of (shared_of w) 1 = Some (-1)) /\
  (exists w, star wstep race_world w /\
    map phase_of (threads_of w) = [Finished (Ok (1, 5997 # 100)); Finished (Ok (2, 5997 # 100))] /\
    stock_of (shared_of w) 1 = Some 2 /\ sold (shared_of w) 1 = 6 /\
    stock_of (shared_of race_world) 1 = Some 5 /\ sold (shared_of race_world) 1 = 0) /\
  (exists w, star wstep race_world w /\
    orders (shared_of w) = [Order.mkOrder 1 7 (5997 # 100)] /\ order_items (shared_of w) = [] /\
    stock_of (shared_of w) 1 = Some 5 /\ items_of_cart (shared_of w) 1 = [CartItem.mkCartItem 1 1 1 3]).
Proof.
  split_and!.
  - exists (run_schedule [0; 1; 0; 0; 0; 1; 1; 1]%nat race_world).
    split; [apply run_schedule_star|]. split; vm_compute; reflexivity.
  - exists (run_schedule [0; 1; 0; 1; 0; 1; 0; 1]%nat race_world).
    split; [apply run_schedule_star|]. split_and!; vm_compute; reflexivity.
  - set (w1 := run_schedule [0; 0]%nat race_world).
    exists (mkPool (shared_of w1) (<[0%nat := mkThread 7 Aborted]> (threads_of w1))). split.
    + eapply star_trans; [apply run_schedule_star|]. apply star_one.
      eapply (wstep_abort w1 0 (mkThread 7 (Committing [CartItem.mkCartItem 1 1 1 3] (5997 # 100) 1
                                     [CartItem.mkCartItem 1 1 1 3] [])));
        vm_compute; reflexivity.
    + split_and!; vm_compute; reflexivity.
Qed.

(** Run one request after the other, the scenario ends as the
    specification asks: one checkout succeeds, the other is refused. *)
Example serial_checkouts_one_succeeds :
  map phase_of (threads_of (run_schedule [0; 0; 0; 0; 1]%nat race_world)) =
  [Finished (Ok (1, 5997 # 100)); Finished (Err (HTTPException 400 "Insufficient stock for A"))] /\
  stock_of (shared_of (run_schedule [0; 0; 0; 0; 1]%nat race_world)) 1 = Some 2.
Proof. split; vm_compute; reflexivity. Qed.

(** Two checkout requests of the same user, a submit sent twice: user
    7's cart holds A x 2. *)
Definition double_submit : world := mkPool scenario_ok [mkThread 7 Start; mkThread 7 Start].

(** C7: a checkout submitted twice leaves a phantom order.  Both
    requests validate the same cart; the first runs to its end, so its
    second commit deletes the cart lines; the second then commits its
    own [Order], and the reload of the first line it checks out fails
    with [ObjectDeletedError] (an HTTP 500).  The database keeps two
    orders charging 39.98 each, one order line, for order 1, and a
    stock lowered once.  Run one after the other, the second request
    is refused with "Cart is empty" and only one order exists. *)
Theorem double_checkout_phantom_order :
  (exists w, star wstep double_submit w /\
    map phase_of (threads_of w) = [Finished (Ok (1, 3998 # 100)); Finished (Err ObjectDeletedError)] /\
    orders (shared_of w) = [Order.mkOrder 1 7 (3998 # 100); Order.mkOrder 2 7 (3998 # 100)] /\
    map OrderItem.order_id (order_items (shared_of w)) = [1] /\ stock_of (shared_of w) 1 = Some 3) /\
  (let d1 := fst (run_handler (checkout 7) scenario_ok) in
   snd (run_handler (checkout 7) d1) = Err (HTTPException 400 "Cart is empty") /\
   length (orders (fst (run_handler (checkout 7) d1))) = 1%nat).
Proof.
  split.
  - exists (run_schedule [0; 1; 0; 0; 0; 1; 1]%nat double_submit).
    split; [apply run_schedule_star|]. split_and!; vm_compute; reflexivity.
  - split; vm_compute; reflexivity.
Qed.

