(* ===== verification/Recs.v ===== *)
(** * Recs: [recommend_for_product] ([src/recs.py]) and [product_page]

    The function loads every product in rowid order, fits a TF-IDF
    vectoriser on the descriptions, and, when the query product is
    known, ranks the others by the cosine similarity of their vectors
    with its own: [sims.argsort()[::-1]], then a loop that skips the
    query product and stops once [len(out) >= n].  When the query
    product is unknown it returns [products[:n]].

    scikit-learn's [TfidfVectorizer], [cosine_similarity] and numpy's
    [argsort] are library calls.  They are the typeclasses
    [TfidfVectorizer] and [ArgSort] with the laws ([TfidfLaws],
    [ArgSortLaws]) the library guarantees and the theorems use: a
    vectoriser fails ([ValueError]) exactly when no document has a
    token; similarities lie in [0, 1]; two documents have a positive
    similarity exactly when they share a token; [argsort] returns a
    permutation of the indices in ascending order of value, ties in any
    order (numpy's default sort is not stable).  [ArgSort] has an
    instance by stdpp's merge sort, and a test
    vectoriser (token overlap) is the instance the examples compute
    with. *)

From S2P Require Import Prelude Models Session.
From stdpp Require Import sorting.

(** ** The library interfaces *)

Class TfidfVectorizer := {
  tfidf_matrix : Type;
  (** the analyzer: lower-casing, tokenizing and stop-word removal *)
  analyze : string -> list string;
  (** [vec.fit_transform(docs)]; [None] when the vocabulary is empty *)
  fit_transform : list string -> option tfidf_matrix;
  (** [cosine_similarity(X[idx], X).flatten()] *)
  cosine_row : tfidf_matrix -> nat -> list Q
}.

Class TfidfLaws `{TfidfVectorizer} := {
  fit_transform_empty_vocabulary docs :
    fit_transform docs = None <-> Forall (fun d => analyze d = []) docs;
  cosine_row_length docs X i :
    fit_transform docs = Some X -> (i < length docs)%nat -> length (cosine_row X i) = length docs;
  cosine_row_range docs X i :
    fit_transform docs = Some X -> (i < length docs)%nat ->
    Forall (fun s => 0 <= s <= 1)%Q (cosine_row X i);
  cosine_row_shared docs X i j di dj :
    fit_transform docs = Some X -> docs !! i = Some di -> docs !! j = Some dj ->
    ((0 < nth j (cosine_row X i) 0)%Q <-> exists w, w ∈ analyze di /\ w ∈ analyze dj)
}.

(** [xs.argsort()]. *)
Class ArgSort := { argsort : list Q -> list nat }.

Class ArgSortLaws `{ArgSort} := {
  argsort_perm xs : Permutation (argsort xs) (seq 0 (length xs));
  argsort_sorted xs : Sorted (fun i j => (nth i xs 0 <= nth j xs 0)%Q) (argsort xs)
}.

(** ** The function *)

Section Recommend.
Context `{TfidfVectorizer} `{ArgSort}.

(** [{p.id: i for i, p in enumerate(products)}][pid]: the last index
    holding that id. *)
Fixpoint idx_map_from (i : nat) (ps : list Product) (pid : Z) (acc : option nat) : option nat :=
  match ps with
  | [] => acc
  | p :: rest => idx_map_from (S i) rest pid (if Z.eqb (Product.id p) pid then Some i else acc)
  end.

Definition idx_map (ps : list Product) (pid : Z) : option nat := idx_map_from 0 ps pid None.

(** The loop of lines 21-25 over [order], with accumulator [out]. *)
Fixpoint recs_loop (products : list Product) (product_id n : Z) (order : list nat)
    (out : list Product) : result (list Product) :=
  match order with
  | [] => Ok out
  | j :: rest =>
      match products !! j with
      | None => Err IndexError
      | Some p =>
          let out' := if negb (Z.eqb (Product.id p) product_id) then out ++ [p] else out in
          if Z.leb n (Z.of_nat (length out')) then Ok out'
          else recs_loop products product_id n rest out'
      end
  end.

(** [recommend_for_product] on the products of the table, in rowid order. *)
Definition recommend (products : list Product) (product_id n : Z) : result (list Product) :=
  match products with
  | [] => Ok []
  | _ :: _ =>
      match fit_transform (map Product.description products) with
      | None => Err (ValueError "empty vocabulary; perhaps the documents only contain stop words")
      | Some X =>
          match idx_map products product_id with
          | None => Ok (py_slice_to n products)
          | Some idx => recs_loop products product_id n (rev (argsort (cosine_row X idx))) []
          end
      end
  end.

Definition recommend_for_product (product_id n : Z) : M (list Product) :=
  fun s => (s, recommend (products (working s)) product_id n).

(** [product_page] (main.py 51-57), without the template rendering. *)
Definition product_page (pid : Z) : M (Product * list Product) :=
  product <- read (fun d => get (products d) pid) ;;
  match product with
  | None => raise (HTTPException 404 "Product not found")
  | Some p => recs <- recommend_for_product pid 4 ;; ret (p, recs)
  end.

(** The ranking the loop reads, from first to last. *)
Definition ranking (X : tfidf_matrix) (idx : nat) : list nat := rev (argsort (cosine_row X idx)).

(** The reference the loop implements, for [n >= 1]: the first [n]
    products of the ranking that are not the query product. *)
Definition recs_reference (products : list Product) (product_id n : Z) (order : list nat) : list Product :=
  take (Z.to_nat n)
    (List.filter (fun p => negb (Z.eqb (Product.id p) product_id)) (omap (fun j => products !! j) order)).
End Recommend.

(** ** An [ArgSort]: merge sort of the indices by their values *)

Definition idx_le (xs : list Q) : relation nat := fun i j => (nth i xs 0 <= nth j xs 0)%Q.

#[export] Instance idx_le_dec xs : RelDecision (idx_le xs).
Proof.
  intros i j. unfold idx_le. destruct (Qlt_le_dec (nth j xs 0%Q) (nth i xs 0%Q)) as [H|H].
  - right. by apply Qlt_not_le.
  - by left.
Defined.

#[export] Instance idx_le_total xs : Total (idx_le xs).
Proof.
  intros i j. unfold idx_le. destruct (Qlt_le_dec (nth j xs 0%Q) (nth i xs 0%Q)) as [H|H].
  - right. by apply Qlt_le_weak.
  - by left.
Qed.

Definition merge_argsort (xs : list Q) : list nat := merge_sort (idx_le xs) (seq 0 (length xs)).

#[export] Instance merge_ArgSort : ArgSort := {| argsort := merge_argsort |}.

#[export] Instance merge_ArgSortLaws : ArgSortLaws.
Proof.
  split; intros xs; cbn; unfold merge_argsort.
  - apply merge_sort_Permutation.
  - apply (Sorted_merge_sort (idx_le xs)).
Qed.

(** ** A test vectoriser: token overlap *)

(** Whitespace tokenizer keeping tokens of two characters or more (the
    length rule of scikit-learn's token pattern), without duplicates. *)
Fixpoint split_spaces (s : string) (cur : string) : list string :=
  match s with
  | EmptyString => [cur]
  | String c rest =>
      if Ascii.eqb c (Ascii.ascii_of_nat 32) then cur :: split_spaces rest ""
      else split_spaces rest (cur +:+ String c EmptyString)
  end.

Definition overlap_analyze (s : string) : list string :=
  remove_dups (List.filter (fun w => Nat.leb 2 (String.length w)) (split_spaces s "")).

(** Shared tokens over the larger token count. *)
Definition overlap_sim (a b : list string) : Q :=
  Z.of_nat (length (List.filter (fun w => bool_decide (w ∈ b)) a)) # Pos.of_nat (Nat.max (length a) (length b)).

Definition overlap_fit (docs : list string) : option (list (list string)) :=
  if forallb (fun d => bool_decide (overlap_analyze d = [])) docs then None
  else Some (map overlap_analyze docs).

#[export] Instance overlap_Vectorizer : TfidfVectorizer := {|
  tfidf_matrix := list (list string);
  analyze := overlap_analyze;
  fit_transform := overlap_fit;
  cosine_row X i := map (overlap_sim (nth i X [])) X
|}.

Lemma nth_map_lookup {A B} (f : A -> B) (l : list A) j x d :
  l !! j = Some x -> nth j (map f l) d = f x.
Proof. revert j. induction l as [|y l IH]; intros [|j] H; cbn in *; try done; [by invc H|]. by apply IH. Qed.

Lemma map_lookup {A B} (f : A -> B) (l : list A) j x : l !! j = Some x -> map f l !! j = Some (f x).
Proof. revert j. induction l as [|y l IH]; intros [|j] H; cbn in *; try done; [by invc H|]. by apply IH. Qed.



Lemma overlap_sim_range a b : (0 <= overlap_sim a b <= 1)%Q.
Proof.
  unfold overlap_sim, Qle. cbn [Qnum Qden]. split; [lia|].
  pose proof (length_filter_le_list (fun w => bool_decide (w ∈ b)) a) as Hf.
  destruct (Nat.max (length a) (length b)) as [|m] eqn:Hm.
  - assert (length a = 0)%nat by lia. cbn. lia.
  - assert (Z.pos (Pos.of_nat (S m)) = Z.of_nat (S m)) as ->
      by (rewrite <- positive_nat_Z, Nat2Pos.id; done).
    lia.
Qed.

Lemma overlap_sim_pos a b : (0 < overlap_sim a b)%Q <-> exists w, w ∈ a /\ w ∈ b.
Proof.
  unfold overlap_sim, Qlt. cbn [Qnum Qden]. rewrite Z.mul_0_l, Z.mul_1_r. split.
  - intros H. destruct (List.filter _ a) as [|w l] eqn:E; [cbn in H; lia|].
    assert (Hw : In w (List.filter (fun w => bool_decide (w ∈ b)) a)) by (rewrite E; now left).
    apply filter_In in Hw as [Hwa Hwb]. apply bool_decide_eq_true in Hwb.
    exists w. split; [by apply list_elem_of_In|done].
  - intros (w & Ha & Hb).
    assert (Hw : In w (List.filter (fun w => bool_decide (w ∈ b)) a)).
    { apply filter_In. split; [by apply list_elem_of_In|by apply bool_decide_eq_true]. }
    destruct (List.filter _ a); [done|]. cbn. lia.
Qed.

Lemma overlap_fit_Some docs X : overlap_fit docs = Some X -> X = map overlap_analyze docs.
Proof. unfold overlap_fit. destruct (forallb _ _); by intros H; invc H. Qed.

#[export] Instance overlap_Laws : TfidfLaws.
Proof.
  split.
  - intros docs. cbn. unfold overlap_fit. rewrite Forall_forall.
    destruct (forallb _ docs) eqn:E; split; intros H; try done.
    + intros d Hd. eapply forallb_forall in E; [|by apply list_elem_of_In].
      by apply bool_decide_eq_true in E.
    + exfalso. apply not_true_iff_false in E. apply E, forallb_forall.
      intros d Hd. apply bool_decide_eq_true, H. by apply list_elem_of_In.
  - intros docs X i HX _. cbn in *. apply overlap_fit_Some in HX as ->. by rewrite !length_map.
  - intros docs X i HX _. cbn in *. apply Forall_forall. intros s Hs.
    apply list_elem_of_In, in_map_iff in Hs as (b & <- & _). apply overlap_sim_range.
  - intros docs X i j di dj HX Hi Hj. cbn in *. apply overlap_fit_Some in HX as ->.
    rewrite (nth_map_lookup _ _ _ _ _ Hi).
    rewrite (nth_map_lookup _ _ _ _ _ (map_lookup overlap_analyze _ _ _ Hj)).
    apply overlap_sim_pos.
Qed.

(** ** The loop and the index map *)

Lemma recs_loop_take (products : list Product) (pid n : Z) order out :
  Forall (fun j => j < length products)%nat order -> (Z.of_nat (length out) < n)%Z ->
  recs_loop products pid n order out =
  Ok (out ++ take (Z.to_nat n - length out)
        (List.filter (fun p => negb (Z.eqb (Product.id p) pid)) (omap (fun j => products !! j) order))).
Proof.
  revert out. induction order as [|j order IH]; intros out Hv Hn; cbn [recs_loop].
  - cbn. by rewrite take_nil, app_nil_r.
  - apply Forall_cons in Hv as [Hj Hv]. destruct (lookup_lt_is_Some_2 _ _ Hj) as [p Hp].
    rewrite Hp. cbn [omap list_omap]. rewrite Hp. cbn [List.filter].
    destruct (Z.eqb (Product.id p) pid); cbn [negb].
    + rewrite (proj2 (Z.leb_gt _ _) Hn). by apply IH.
    + replace (Z.to_nat n - length out)%nat with (S (Z.to_nat n - length (out ++ [p])))
        by (rewrite length_app; cbn; lia).
      cbn [take].
      destruct (Z.leb_spec n (Z.of_nat (length (out ++ [p])))) as [Hle|Hlt].
      * by replace (Z.to_nat n - length (out ++ [p]))%nat with 0%nat by lia.
      * rewrite (IH _ Hv Hlt). by rewrite <- app_assoc.
Qed.

Lemma recs_loop_nonself (products : list Product) (pid n : Z) order out r :
  Forall (fun p => Product.id p <> pid) out ->
  recs_loop products pid n order out = Ok r -> Forall (fun p => Product.id p <> pid) r.
Proof.
  revert out. induction order as [|j order IH]; intros out Hout Hr; cbn [recs_loop] in Hr.
  - by invc Hr.
  - destruct (products !! j) as [p|]; [|done].
    assert (Hout' : Forall (fun p => Product.id p <> pid)
                      (if negb (Z.eqb (Product.id p) pid) then out ++ [p] else out)).
    { destruct (Z.eqb_spec (Product.id p) pid); cbn; [done|].
      apply Forall_app; split; [done|]. by apply Forall_singleton. }
    destruct (Z.leb _ _); [by invc Hr|]. by eapply IH.
Qed.

Lemma idx_map_from_spec i ps pid acc :
  (idx_map_from i ps pid acc = acc /\ Forall (fun p => Product.id p <> pid) ps) \/
  (exists k p, idx_map_from i ps pid acc = Some (i + k)%nat /\ ps !! k = Some p /\ Product.id p = pid).
Proof.
  revert i acc. induction ps as [|q ps IH]; intros i acc; cbn [idx_map_from]; [by left|].
  destruct (IH (S i) (if Z.eqb (Product.id q) pid then Some i else acc))
    as [[-> Hf]|(k & p & -> & Hk & Hp)].
  - destruct (Z.eqb_spec (Product.id q) pid) as [E|E].
    + right. exists 0%nat, q. by rewrite Nat.add_0_r.
    + left. split; [done|]. by constructor.
  - right. exists (S k), p. split; [f_equal; lia|done].
Qed.

Lemma idx_map_Some ps pid i :
  idx_map ps pid = Some i -> exists p, ps !! i = Some p /\ Product.id p = pid.
Proof.
  unfold idx_map. destruct (idx_map_from_spec 0 ps pid None) as [[-> _]|(k & p & -> & Hk & Hp)]; [done|].
  intros H. invc H. eauto.
Qed.

Lemma idx_map_None ps pid :
  idx_map ps pid = None -> Forall (fun p => Product.id p <> pid) ps.
Proof.
  unfold idx_map. destruct (idx_map_from_spec 0 ps pid None) as [[_ Hf]|(k & p & -> & _)]; done.
Qed.

Lemma StronglySorted_app_cons {A} (R : relation A) l1 x l2 :
  StronglySorted R (l1 ++ x :: l2) -> Forall (fun k => R k x) l1.
Proof.
  induction l1 as [|y l1 IH]; cbn; intros H; [done|].
  apply StronglySorted_inv in H as [H1 H2]. constructor; [|auto].
  eapply Forall_forall in H2; [exact H2|]. set_solver.
Qed.

Lemma NoDup_map_omap_lookup {B} (f : Product -> B) (ps : list Product) js :
  NoDup (map f ps) -> NoDup js -> NoDup (map f (omap (fun j => ps !! j) js)).
Proof.
  intros Hps. induction js as [|j js IH]; intros Hjs; cbn [omap list_omap]; [constructor|].
  apply NoDup_cons in Hjs as [Hj Hjs]. destruct (ps !! j) as [p|] eqn:Ep; [|auto].
  cbn [map]. constructor; [|auto]. rewrite list_elem_of_In, in_map_iff.
  intros (q & Hfq & Hq). apply list_elem_of_In, list_elem_of_omap in Hq as (k & Hk & Eq).
  apply Hj. enough (j = k) by congruence.
  eapply NoDup_lookup; [exact Hps|apply map_lookup, Ep|]. rewrite <- Hfq. by apply map_lookup.
Qed.

Lemma filter_omap_self (ps : list Product) pid l :
  Forall (fun k => exists q, ps !! k = Some q /\ Product.id q = pid) l ->
  List.filter (fun p => negb (Z.eqb (Product.id p) pid)) (omap (fun j => ps !! j) l) = [].
Proof.
  induction l as [|k l IH]; intros Hl; cbn [omap list_omap]; [done|].
  apply Forall_cons in Hl as [(q & -> & Hq) Hl]. cbn [List.filter].
  rewrite Hq, Z.eqb_refl. cbn. auto.
Qed.

(** ** Recommendation against the library laws *)

Section Ranking.
Context `{TfidfVectorizer} `{!TfidfLaws} `{ArgSort} `{!ArgSortLaws}.

Lemma ranking_perm (products : list Product) X idx :
  fit_transform (map Product.description products) = Some X -> (idx < length products)%nat ->
  ranking X idx ≡ₚ seq 0 (length products).
Proof.
  intros HX Hidx. unfold ranking. rewrite <- Permutation_rev, argsort_perm.
  erewrite cosine_row_length; [|exact HX|by rewrite length_map]. by rewrite length_map.
Qed.

Lemma ranking_valid (products : list Product) X idx :
  fit_transform (map Product.description products) = Some X -> (idx < length products)%nat ->
  Forall (fun j => j < length products)%nat (ranking X idx).
Proof. intros HX Hidx. rewrite (ranking_perm _ _ _ HX Hidx), Forall_seq. lia. Qed.

Lemma ranking_NoDup (products : list Product) X idx :
  fit_transform (map Product.description products) = Some X -> (idx < length products)%nat ->
  NoDup (ranking X idx).
Proof. intros HX Hidx. rewrite (ranking_perm _ _ _ HX Hidx). apply NoDup_seq. Qed.

Lemma ranking_sorted X idx :
  Sorted (fun i j => nth j (cosine_row X idx) 0 <= nth i (cosine_row X idx) 0)%Q (ranking X idx).
Proof. unfold ranking. rewrite rev_alt. apply (Sorted_reverse (idx_le _)), argsort_sorted. Qed.

Lemma recommend_loop_case (products : list Product) pid n X idx :
  (1 <= n)%Z -> fit_transform (map Product.description products) = Some X ->
  idx_map products pid = Some idx ->
  recommend products pid n = Ok (recs_reference products pid n (ranking X idx)).
Proof.
  intros Hn HX Hidx. destruct (idx_map_Some _ _ _ Hidx) as (p & Hp & _).
  pose proof (lookup_lt_Some _ _ _ Hp) as Hlt.
  destruct products as [|p0 ps]; [done|]. unfold recommend. rewrite HX, Hidx.
  rewrite (recs_loop_take _ _ _ _ _ (ranking_valid _ _ _ HX Hlt)) by (cbn; lia).
  unfold recs_reference. cbn [length app]. by rewrite Nat.sub_0_r.
Qed.

Lemma ranking_head (products : list Product) pid X idx jy :
  fit_transform (map Product.description products) = Some X -> (idx < length products)%nat ->
  (jy < length products)%nat ->
  (forall k q, products !! k = Some q -> Product.id q <> pid -> k <> jy ->
     (nth k (cosine_row X idx) 0 < nth jy (cosine_row X idx) 0)%Q) ->
  exists l1 l2, ranking X idx = l1 ++ jy :: l2 /\
    Forall (fun k => exists q, products !! k = Some q /\ Product.id q = pid) l1.
Proof.
  intros HX Hidx Hjy Hlt.
  assert (Hin : jy ∈ ranking X idx) by (rewrite (ranking_perm _ _ _ HX Hidx), elem_of_seq; lia).
  apply list_elem_of_split in Hin as (l1 & l2 & Hr). exists l1, l2. split; [done|].
  pose proof (ranking_NoDup _ _ _ HX Hidx) as Hnd. pose proof (ranking_valid _ _ _ HX Hidx) as Hv.
  pose proof (ranking_sorted X idx) as Hs. rewrite Hr in Hnd, Hv, Hs.
  apply Sorted_StronglySorted in Hs; [|intros a b c Hab Hbc; eapply Qle_trans; eauto].
  apply StronglySorted_app_cons in Hs. apply NoDup_app in Hnd as (_ & Hnd & _).
  apply Forall_app in Hv as [Hv _]. apply Forall_forall. intros k Hk.
  eapply Forall_forall in Hv, Hs; [|exact Hk..]. destruct (lookup_lt_is_Some_2 _ _ Hv) as [q Hq].
  exists q. split; [done|]. destruct (Z.eq_dec (Product.id q) pid) as [|Hne]; [done|].
  exfalso. assert (k <> jy) as Hkj by (intros ->; apply (Hnd jy Hk); left).
  specialize (Hlt k q Hq Hne Hkj). by apply (Qlt_not_le _ _ Hlt).
Qed.

End Ranking.

Lemma recommend_cases `{TfidfVectorizer} `{ArgSort} products pid n out :
  recommend products pid n = Ok out ->
  (products = [] /\ out = []) \/
  (idx_map products pid = None /\ out = py_slice_to n products) \/
  (exists X idx, fit_transform (map Product.description products) = Some X /\
     idx_map products pid = Some idx /\ recs_loop products pid n (ranking X idx) [] = Ok out).
Proof.
  unfold recommend. destruct products as [|p0 ps]; [intros Hr; invc Hr; by left|].
  destruct (fit_transform _) as [X|] eqn:HX; [|done].
  destruct (idx_map _ _) as [idx|] eqn:Hi; intros Hr; right; [right; eauto|left; by invc Hr].
Qed.


Lemma no_shared_of_Forall (a b : list string) :
  Forall (fun w => w ∉ b) a -> ~ exists w, w ∈ a /\ w ∈ b.
Proof. intros Hf (w & Ha & Hb). eapply Forall_forall in Hf; [exact (Hf Hb)|exact Ha]. Qed.

(** ** The recommendation theorems *)

(** C8: [recommend_for_product] never returns the query product, for
    every vectoriser, every sort and every [n]: the loop appends only
    products whose id differs from [product_id], and the fallback runs
    only when no product has that id. *)
Theorem recommend_excludes_self `{TfidfVectorizer} `{ArgSort} products pid n out :
  recommend products pid n = Ok out -> Forall (fun p => Product.id p <> pid) out.
Proof.
  intros Hr. destruct (recommend_cases _ _ _ _ Hr) as [[_ ->]|[[Hi ->]|(X & idx & _ & _ & Hl)]].
  - constructor.
  - apply idx_map_None in Hi. unfold py_slice_to. destruct (Z.leb 0 n); by apply Forall_take.
  - eapply recs_loop_nonself; [constructor|exact Hl].
Qed.

Section Contract.
Context `{TfidfVectorizer} `{!TfidfLaws} `{ArgSort} `{!ArgSortLaws}.

(** C9: for [n >= 1] and a product table with unique ids, the result
    has at most [n] products and no two of them share an id. *)
Theorem recommend_at_most_n_distinct products pid n out :
  (1 <= n)%Z -> ids_unique products -> recommend products pid n = Ok out ->
  (length out <= Z.to_nat n)%nat /\ NoDup (map Product.id out).
Proof.
  intros Hn Hu Hr. destruct (recommend_cases _ _ _ _ Hr) as [[_ ->]|[[Hi ->]|(X & idx & HX & Hi & Hl)]].
  - cbn. split; [lia|constructor].
  - rewrite py_slice_to_nonneg by lia. rewrite length_take. split; [lia|by apply NoDup_map_take].
  - destruct (idx_map_Some _ _ _ Hi) as (p & Hp & _). pose proof (lookup_lt_Some _ _ _ Hp) as Hlt.
    rewrite (recs_loop_take _ _ _ _ _ (ranking_valid _ _ _ HX Hlt)) in Hl by (cbn; lia).
    invc Hl. cbn [app length]. rewrite length_take. split; [lia|].
    apply NoDup_map_take, NoDup_map_filter, NoDup_map_omap_lookup; [exact Hu|].
    exact (ranking_NoDup _ _ _ HX Hlt).
Qed.

(** C10: when the query product is known and [n >= 1], the result is
    the first [n] products other than the query product in [ranking],
    and [ranking] is a permutation of the product indices ordered by
    non-increasing similarity to the query product. *)
Theorem recommend_top_n products pid n X idx :
  (1 <= n)%Z -> fit_transform (map Product.description products) = Some X ->
  idx_map products pid = Some idx ->
  recommend products pid n = Ok (recs_reference products pid n (ranking X idx)) /\
  ranking X idx ≡ₚ seq 0 (length products) /\
  Sorted (fun i j => nth j (cosine_row X idx) 0 <= nth i (cosine_row X idx) 0)%Q (ranking X idx).
Proof.
  intros Hn HX Hi. destruct (idx_map_Some _ _ _ Hi) as (p & Hp & _).
  split; [by apply recommend_loop_case|]. split; [|apply ranking_sorted].
  apply (ranking_perm _ _ _ HX). eapply lookup_lt_Some, Hp.
Qed.

(** The scenario of the specification: when the description of
    the query product [x] shares a token with that of [y] and with no
    other product's, [y] comes first in the result. *)
Theorem recommend_shared_vocabulary_first products pid n idx jy x y :
  (1 <= n)%Z -> idx_map products pid = Some idx -> products !! idx = Some x ->
  products !! jy = Some y -> Product.id y <> pid ->
  (exists w, w ∈ analyze (Product.description x) /\ w ∈ analyze (Product.description y)) ->
  (forall k q, products !! k = Some q -> Product.id q <> pid -> k <> jy ->
     ~ exists w, w ∈ analyze (Product.description x) /\ w ∈ analyze (Product.description q)) ->
  exists rest, recommend products pid n = Ok (y :: rest).
Proof.
  intros Hn Hi Hx Hy Hyid Hshare Honly.
  pose proof (map_lookup Product.description _ _ _ Hx) as Hdx.
  destruct (fit_transform (map Product.description products)) as [X|] eqn:HX.
  2:{ apply fit_transform_empty_vocabulary in HX. eapply Forall_lookup_1 in HX; [|exact Hdx].
      destruct Hshare as (w & Hw & _). cbn in HX. rewrite HX in Hw. set_solver. }
  rewrite (recommend_loop_case _ _ _ _ _ Hn HX Hi).
  assert (Hpos : (0 < nth jy (cosine_row X idx) 0)%Q)
    by (eapply cosine_row_shared; [exact HX|exact Hdx|by apply map_lookup|exact Hshare]).
  destruct (ranking_head products pid X idx jy HX (lookup_lt_Some _ _ _ Hx) (lookup_lt_Some _ _ _ Hy))
    as (l1 & l2 & -> & Hl1).
  { intros k q Hq Hne Hk. eapply Qle_lt_trans; [|exact Hpos]. apply Qnot_lt_le. intros Hk0.
    eapply (Honly k q Hq Hne Hk), cosine_row_shared; [exact HX|exact Hdx|by apply map_lookup|exact Hk0]. }
  unfold recs_reference. rewrite omap_app, List.filter_app, (filter_omap_self _ _ _ Hl1).
  cbn [omap list_omap app]. rewrite Hy. cbn [List.filter].
  rewrite (proj2 (Z.eqb_neq _ _) Hyid). cbn [negb].
  destruct (Z.to_nat n) as [|m] eqn:Em; [lia|]. cbn [take]. eauto.
Qed.

(** C20: when no description has a token, fitting the vectoriser
    raises [ValueError] ("empty vocabulary"), also when the query
    product is unknown and the fallback [products[:n]] would apply. *)
Theorem recommend_empty_vocabulary_error products pid n :
  products <> [] -> Forall (fun p => analyze (Product.description p) = []) products ->
  exists e, recommend products pid n = Err (ValueError e).
Proof.
  intros Hne Hall. destruct products as [|p0 ps]; [done|]. unfold recommend.
  assert (fit_transform (map Product.description (p0 :: ps)) = None) as ->; [|eauto].
  apply fit_transform_empty_vocabulary. by apply Forall_map.
Qed.

End Contract.

(** [product_page] only reads: on a known product it returns the
    product and [recommend_for_product(session, pid, 4)] and leaves the
    database as it was; on an unknown one it raises 404. *)
Theorem product_page_spec `{TfidfVectorizer} `{ArgSort} pid d :
  run_handler (product_page pid) d =
  (d, match get (products d) pid with
      | None => Err (HTTPException 404 "Product not found")
      | Some p => match recommend (products d) pid 4 with
                  | Ok recs => Ok (p, recs)
                  | Err e => Err e
                  end
      end).
Proof.
  unfold run_handler, product_page, bind, read, recommend_for_product, raise, ret. cbn.
  destruct (get _ _); [|done]. by destruct (recommend _ _ _).
Qed.

(** C21: [n] is not checked.  For [n <= 0] and a known product the
    loop still runs once, since it appends before it tests
    [len(out) >= n]: the result is the product ranked first when that
    is not the query product, and empty when it is; so [n = 0] can
    return one product.  For an unknown id the fallback slices
    [products[:n]] with Python's semantics: [n = -1] returns every
    product but the last. *)
Theorem recommend_n_unchecked `{TfidfVectorizer} `{ArgSort} products pid n X :
  (n <= 0)%Z -> fit_transform (map Product.description products) = Some X ->
  (forall idx, idx_map products pid = Some idx ->
     recommend products pid n =
     match ranking X idx with
     | [] => Ok []
     | j :: _ => match products !! j with
                 | None => Err IndexError
                 | Some p => Ok (if Z.eqb (Product.id p) pid then [] else [p])
                 end
     end) /\
  (idx_map products pid = None -> products <> [] -> recommend products pid n = Ok (py_slice_to n products)).
Proof.
  intros Hn HX. split.
  - intros idx Hidx. destruct products as [|p0 ps]; [done|]. unfold recommend. rewrite HX, Hidx.
    fold (ranking X idx). destruct (ranking X idx) as [|j rest]; [done|]. cbn [recs_loop].
    destruct ((p0 :: ps) !! j) as [p|]; [|done].
    destruct (Z.eqb (Product.id p) pid); cbn; by replace (Z.leb n _) with true by (symmetry; apply Z.leb_le; cbn; lia).
  - intros Hidx Hne. destruct products as [|p0 ps]; [done|]. unfold recommend. by rewrite HX, Hidx.
Qed.

(** ** Fixtures: the seed catalog of [on_startup] and small catalogs *)

Module RecsFixtures.
Definition seed_product (i : Z) (t d : string) (price : Q) (stock : Z) (img : string) : Product :=
  Product.mkProduct i t d price (Some img) stock (Some 1%Z) None None None None.

Definition seed_drone := seed_product 1 "Pocket Drone" "Mini foldable drone with HD camera and gesture control." (12999 # 100) 12 "https://images.unsplash.com/photo-1518770660439-4636190af475".
Definition seed_mug := seed_product 2 "Smart Mug" "Self-heating mug keeps your coffee at the perfect temperature." 89 30 "https://images.unsplash.com/photo-1511920170033-f8396924c348".
Definition seed_headband := seed_product 3 "Sleep Headband" "Bluetooth sleep mask with ultra‑thin speakers for side sleepers." (395 # 10) 50 "https://images.unsplash.com/photo-1522335789203-aabd1fc54bc9".
Definition seed_clip := seed_product 4 "Air Quality Clip" "Wearable sensor that tracks VOCs, PM2.5, and CO2 with alerts." (599 # 10) 22 "https://images.unsplash.com/photo-1520607162513-77705c0f0d4a".
Definition seed_catalog : list Product := [seed_drone; seed_mug; seed_headband; seed_clip].

Definition described (i : Z) (d : string) : Product :=
  Product.mkProduct i "" d 1 None 1 None None None None None.

(** Product 1 shares the token "camera" with product 2 only. *)
Definition shared_catalog : list Product :=
  [described 1 "drone camera kit"; described 2 "camera strap"; described 3 "coffee mug"; described 4 "sleep mask"].

(** Product 1 has no description. *)
Definition zero_catalog : list Product :=
  [described 1 ""; described 2 "camera strap"; described 3 "coffee mug"].

Definition stopword_catalog : list Product := [described 1 ""; described 2 "a"].
End RecsFixtures.

(** ** Witnesses and examples, with the token-overlap vectoriser and
    the merge sort *)

Import RecsFixtures.

Lemma recommend_excludes_self_witness :
  recommend seed_catalog 1 4 = Ok [seed_clip; seed_headband; seed_mug] /\
  Forall (fun p => Product.id p <> 1%Z) [seed_clip; seed_headband; seed_mug].
Proof.
  assert (H : recommend seed_catalog 1 4 = Ok [seed_clip; seed_headband; seed_mug])
    by (vm_compute; reflexivity).
  split; [exact H|exact (recommend_excludes_self _ _ _ _ H)].
Defined.

Lemma recommend_at_most_n_distinct_witness :
  (length [seed_clip; seed_headband; seed_mug] <= Z.to_nat 4)%nat /\
  NoDup (map Product.id [seed_clip; seed_headband; seed_mug]).
Proof.
  apply (recommend_at_most_n_distinct seed_catalog 1 4); [lia| |vm_compute; reflexivity].
  unfold ids_unique. apply (bool_decide_unpack _). vm_compute. reflexivity.
Defined.

Lemma recommend_top_n_witness :
  let X := map overlap_analyze (map Product.description seed_catalog) in
  recommend seed_catalog 1 4 = Ok (recs_reference seed_catalog 1 4 (ranking X 0)) /\
  ranking X 0 ≡ₚ seq 0 (length seed_catalog) /\
  Sorted (fun i j => nth j (cosine_row X 0) 0 <= nth i (cosine_row X 0) 0)%Q (ranking X 0).
Proof.
  intros X. apply recommend_top_n; [lia|vm_compute; reflexivity|vm_compute; reflexivity].
Defined.

Lemma recommend_shared_vocabulary_first_witness :
  exists rest, recommend shared_catalog 1 4 = Ok (described 2 "camera strap" :: rest).
Proof.
  apply (recommend_shared_vocabulary_first shared_catalog 1 4 0 1
           (described 1 "drone camera kit") (described 2 "camera strap"));
    [lia|vm_compute; reflexivity|reflexivity|reflexivity|cbn; lia| |].
  - exists "camera". split; apply (bool_decide_unpack _); vm_compute; reflexivity.
  - intros [|[|[|[|k]]]] q Hq Hne Hk; cbn in Hq; invc Hq; try done;
      apply no_shared_of_Forall, (bool_decide_unpack _); vm_compute; reflexivity.
Defined.

Lemma recommend_empty_vocabulary_error_witness :
  exists e, recommend stopword_catalog 9 4 = Err (ValueError e).
Proof. apply recommend_empty_vocabulary_error; [done|repeat constructor]. Defined.

Lemma recommend_n_unchecked_witness :
  recommend zero_catalog 1 0 = Ok [described 2 "camera strap"] /\
  recommend seed_catalog 9 (-1) = Ok [seed_drone; seed_mug; seed_headband].
Proof.
  split.
  - rewrite (proj1 (@recommend_n_unchecked overlap_Vectorizer merge_ArgSort zero_catalog 1 0
                      (map overlap_analyze (map Product.description zero_catalog)) ltac:(lia) eq_refl) 0 eq_refl).
    vm_compute. reflexivity.
  - rewrite (proj2 (@recommend_n_unchecked overlap_Vectorizer merge_ArgSort seed_catalog 9 (-1)
                      (map overlap_analyze (map Product.description seed_catalog)) ltac:(lia) eq_refl) eq_refl)
      by discriminate.
    vm_compute. reflexivity.
Defined.
