(* ===== verification/Admin.v ===== *)
(** * Admin: the admin API of [src/main.py] (151-187) and the notifier

    [admin_toggle_stock] flips a product's stock between 0 and 10,
    commits, and broadcasts [{"type": "stock_update", "product_id",
    "stock"}] to the inventory listeners through [hub] ([app/ws.py],
    which is not part of [src/]: the hub is modelled from section 4.3
    of the specification, behind the [Notifier] interface).
    [admin_upload] inserts one product per CSV row and commits once;
    [csv.DictReader] and Python's [float]/[int] are library calls: a row
    is the dictionary the reader yields, and the number parsers are the
    [NumParse] class ([None] is a [ValueError]).  [admin_flags] upserts a
    feature flag by name.  Every endpoint runs behind
    [Depends(get_current_admin)] ([Auth.with_admin]). *)

From S2P Require Import Prelude Models Session Auth Checkout.

(** ** The notifier *)

Record StockUpdate := mkStockUpdate { su_product_id : Z; su_stock : Z }.

(** What the clients of the hub rely on: [broadcast] never fails and
    delivers the message to every listener that is still connected;
    [disconnect] removes a listener. *)
Class Notifier := {
  hub_state : Type;
  listeners : hub_state -> list Z;
  connect : Z -> hub_state -> hub_state;
  disconnect : Z -> hub_state -> hub_state;
  broadcast : StockUpdate -> hub_state -> hub_state;
  inbox : hub_state -> Z -> list StockUpdate
}.

Class NotifierLaws `{Notifier} := {
  broadcast_delivers msg h ws :
    ws ∈ listeners (broadcast msg h) ->
    exists n, (0 < n)%nat /\ inbox (broadcast msg h) ws = inbox h ws ++ repeat msg n;
  broadcast_skips msg h ws :
    ws ∉ listeners (broadcast msg h) -> inbox (broadcast msg h) ws = inbox h ws;
  broadcast_listeners msg h ws : ws ∈ listeners (broadcast msg h) -> ws ∈ listeners h;
  connect_listens ws h : ws ∈ listeners (connect ws h);
  disconnect_stops ws h : ws ∉ listeners (disconnect ws h);
  connect_inbox ws h w : inbox (connect ws h) w = inbox h w;
  disconnect_inbox ws h w : inbox (disconnect ws h) w = inbox h w
}.

(** The hub of section 4.3: registered sockets in connection order,
    the sockets whose peer has gone (a send to them fails), and what
    each socket has received. *)
Record Hub := mkHub {
  hub_active : list Z;
  hub_gone : list Z;
  hub_sent : list (Z * StockUpdate)
}.

Definition hub_connect (ws : Z) (h : Hub) : Hub :=
  mkHub (hub_active h ++ [ws]) (List.filter (fun w => negb (Z.eqb w ws)) (hub_gone h)) (hub_sent h).

Definition hub_disconnect (ws : Z) (h : Hub) : Hub :=
  mkHub (List.filter (fun w => negb (Z.eqb w ws)) (hub_active h)) (hub_gone h) (hub_sent h).

Definition is_gone (h : Hub) (ws : Z) : bool := bool_decide (ws ∈ hub_gone h).

(** [for ws in list(self.active): try: await ws.send_json(msg) except:
    self.disconnect(ws)]. *)
Definition hub_broadcast (msg : StockUpdate) (h : Hub) : Hub :=
  mkHub (List.filter (fun w => negb (is_gone h w)) (hub_active h)) (hub_gone h)
        (hub_sent h ++ map (fun w => (w, msg)) (List.filter (fun w => negb (is_gone h w)) (hub_active h))).

Definition hub_inbox (h : Hub) (ws : Z) : list StockUpdate :=
  map snd (List.filter (fun e => Z.eqb (fst e) ws) (hub_sent h)).

#[export] Instance hub_Notifier : Notifier := {|
  hub_state := Hub; listeners := hub_active; connect := hub_connect;
  disconnect := hub_disconnect; broadcast := hub_broadcast; inbox := hub_inbox
|}.

(** ** The endpoints *)

Section Admin.
Context `{Jwt}.

(** [admin_toggle_stock] (151-160) after the admin check: the message
    it broadcasts.  A missing product fails at [p.stock]. *)
Definition admin_toggle_stock (pid : Z) : M StockUpdate :=
  p <- get_product_or_crash pid ;;
  let s := if Z.ltb 0 (Product.stock p) then 0 else 10 in
  write (set_products (fun t => update_row t (Product.set_stock p s))) ;;
  commit ;;
  ret (mkStockUpdate (Product.id p) s).

(** The request: the database and the hub before and after, and the
    response's [stock]. *)
Definition toggle_stock_request `{Notifier} (tok : option string) (pid : Z) (d : DB) (h : hub_state)
    : DB * hub_state * result Z :=
  match run_handler (with_admin tok (fun _ => admin_toggle_stock pid)) d with
  | (d', Ok msg) => (d', broadcast msg h, Ok (su_stock msg))
  | (d', Err e) => (d', h, Err e)
  end.
End Admin.

(** ** CSV upload *)

(** Python's [float(str)] and [int(str)]: [None] when they raise
    [ValueError]. *)
Class NumParse := {
  py_float : string -> option Q;
  py_int : string -> option Z
}.

(** A row of [csv.DictReader]: each field of the header with the row's
    value, or [None] (the reader's [restval]) where the row is shorter
    than the header.  The values of a row longer than the header go to
    the key [None] ([restkey]), which no [row.get] of the handler reads;
    they are left out. *)
Definition csv_row := list (string * option string).

(** [row.get(key)]: [None] when the header has no such field. *)
Definition row_get (row : csv_row) (k : string) : option (option string) :=
  snd <$> List.find (fun e => String.eqb (fst e) k) row.

(** [row.get(key, "")]. *)
Definition row_text (row : csv_row) (k : string) : option string :=
  match row_get row k with None => Some "" | Some v => v end.

(** A row whose [title] or [description] is [None]: the INSERT of its
    product violates the NOT NULL of these columns ([title: str],
    [description: str] in models.py). *)
Definition row_null (row : csv_row) : bool :=
  match row_text row "title", row_text row "description" with
  | Some _, Some _ => false
  | _, _ => true
  end.

(** Running a computation that may raise inside the handler. *)
Definition lift {A} (r : result A) : M A := fun s => (s, r).

Section Upload.
Context `{NumParse}.

(** [float(row.get("price", 0))]: the default [0] converts. *)
Definition row_price (row : csv_row) : result Q :=
  match row_get row "price" with
  | None => Ok 0%Q
  | Some None => Err (TypeError "float() argument must be a string or a real number, not 'NoneType'")
  | Some (Some v) => match py_float v with
              | Some q => Ok q
              | None => Err (ValueError "could not convert string to float")
              end
  end.

(** [int(row.get("stock", 0))]. *)
Definition row_stock (row : csv_row) : result Z :=
  match row_get row "stock" with
  | None => Ok 0%Z
  | Some None => Err (TypeError "int() argument must be a string, a bytes-like object or a real number, not 'NoneType'")
  | Some (Some v) => match py_int v with
              | Some z => Ok z
              | None => Err (ValueError "invalid literal for int() with base 10")
              end
  end.

(** The [Product(...)] of lines 167-173 with the rowid it gets (a
    [None] title or description never reaches the table: see
    [row_null]). *)
Definition row_product (i : Z) (row : csv_row) (price : Q) (stock : Z) : Product :=
  Product.mkProduct i (default "" (row_text row "title")) (default "" (row_text row "description"))
    price (match row_get row "image_url" with Some v => v | None => None end) stock None None None None None.

(** The loop of lines 166-174. *)
Fixpoint upload_loop (rows : list csv_row) : M unit :=
  match rows with
  | [] => ret tt
  | row :: rest =>
      price <- lift (row_price row) ;;
      stock <- lift (row_stock row) ;;
      write (set_products (fun t => insert_row t (row_product (next_id t) row price stock))) ;;
      upload_loop rest
  end.

(** [admin_upload] (162-176) after the admin check: the commit
    flushes the new rows, and the INSERT of a product with a NULL title
    or description raises [IntegrityError], leaving nothing committed. *)
Definition admin_upload (rows : list csv_row) : M unit :=
  upload_loop rows ;;
  (if existsb row_null rows then raise (IntegrityError "NOT NULL constraint failed") else commit) ;;
  ret tt.

(** The products table after the loop, or the error it raises. *)
Fixpoint upload_pure (rows : list csv_row) (t : list Product) : result (list Product) :=
  match rows with
  | [] => Ok t
  | row :: rest =>
      match row_price row, row_stock row with
      | Ok price, Ok stock => upload_pure rest (insert_row t (row_product (next_id t) row price stock))
      | Err e, _ => Err e
      | Ok _, Err e => Err e
      end
  end.
End Upload.

(** ** Feature flags *)

(** [select(FeatureFlag).where(FeatureFlag.name == name)].first() *)
Definition flag_by_name (d : DB) (name : string) : option FeatureFlag :=
  List.find (fun f => String.eqb (FeatureFlag.name f) name) (flags d).

(** [admin_flags] (178-187) after the admin check. *)
Definition admin_flags (name : string) (enabled : bool) : M unit :=
  flag <- read (fun d => flag_by_name d name) ;;
  match flag with
  | None => write (set_flags (fun t => insert_row t (FeatureFlag.mkFeatureFlag (next_id t) name enabled)))
  | Some f => write (set_flags (fun t => update_row t
                (FeatureFlag.mkFeatureFlag (FeatureFlag.id f) (FeatureFlag.name f) enabled)))
  end ;;
  commit ;;
  ret tt.

(** The flags table: rowids unique and, as the unique index on
    [FeatureFlag.name] requires, names unique. *)
Definition flags_wf (d : DB) : Prop :=
  ids_unique (flags d) /\ NoDup (map FeatureFlag.name (flags d)).

(** ** Lemmas *)

Lemma inbox_sent_map (msg : StockUpdate) (l : list Z) ws :
  map snd (List.filter (fun e => Z.eqb (fst e) ws) (map (fun w => (w, msg)) l)) =
  repeat msg (length (List.filter (fun w => Z.eqb w ws) l)).
Proof. induction l as [|w l IH]; cbn; [done|]. by destruct (Z.eqb w ws); cbn; rewrite IH. Qed.

Lemma count_filter_pos (l : list Z) ws :
  ws ∈ l <-> (0 < length (List.filter (fun w => Z.eqb w ws) l))%nat.
Proof.
  induction l as [|w l IH]; cbn; [split; [by intros ?%not_elem_of_nil|lia]|].
  rewrite elem_of_cons, IH. destruct (Z.eqb_spec w ws); cbn; split; intros; try lia; try tauto.
Qed.

Lemma hub_inbox_broadcast msg h ws :
  hub_inbox (hub_broadcast msg h) ws =
  hub_inbox h ws ++ repeat msg (length (List.filter (fun w => Z.eqb w ws) (hub_active (hub_broadcast msg h)))).
Proof. unfold hub_inbox. cbn. by rewrite List.filter_app, map_app, inbox_sent_map. Qed.

#[export] Instance hub_NotifierLaws : NotifierLaws.
Proof.
  split; cbn -[hub_inbox hub_broadcast].
  - intros msg h ws Hws. rewrite hub_inbox_broadcast. eexists; split; [|reflexivity].
    by apply count_filter_pos.
  - intros msg h ws Hws. rewrite hub_inbox_broadcast.
    assert (length (List.filter (fun w => Z.eqb w ws) (hub_active (hub_broadcast msg h))) = 0)%nat as ->.
    { destruct (length _) eqn:E; [done|]. exfalso. apply Hws, count_filter_pos. cbn in E |- *. lia. }
    by rewrite app_nil_r.
  - intros msg h ws Hws. cbn in Hws. apply list_elem_of_In, filter_In in Hws as [Hws _].
    by apply list_elem_of_In.
  - intros ws h. cbn. set_solver.
  - intros ws h Hin. cbn in Hin. apply list_elem_of_In, filter_In in Hin as [_ Hb].
    by rewrite Z.eqb_refl in Hb.
  - done.
  - done.
Qed.

Lemma admin_toggle_stock_run pid d :
  run_handler (admin_toggle_stock pid) d =
  match get (products d) pid with
  | None => (d, Err (AttributeError "'NoneType' object has no attribute"))
  | Some p =>
      let s := if Z.ltb 0 (Product.stock p) then 0 else 10 in
      (set_products (fun t => update_row t (Product.set_stock p s)) d, Ok (mkStockUpdate (Product.id p) s))
  end.
Proof. unfold run_handler, admin_toggle_stock, get_product_or_crash, bind. cbn. by destruct (get _ _). Qed.

(** Setting one product's stock: that product reads the new stock,
    every other product its old one. *)
Lemma stock_of_set_stock d p pid s q :
  get (products d) pid = Some p ->
  stock_of (set_products (fun t => update_row t (Product.set_stock p s)) d) q =
  if Z.eqb q pid then Some s else stock_of d q.
Proof.
  intros Hp. pose proof (get_Some _ _ _ Hp) as [Hid _]. unfold stock_of. cbn [products set_products].
  rewrite get_update_row. change (row_id (Product.set_stock p s)) with (Product.id p).
  change (row_id p) with (Product.id p) in Hid. rewrite Hid.
  destruct (Z.eqb_spec q pid) as [->|]; [by rewrite Hp|done].
Qed.

Section UploadLemmas.
Context `{NumParse}.

Lemma upload_loop_run rows s :
  exists w, upload_loop rows s =
    (mkSession (committed s) w,
     match upload_pure rows (products (working s)) with Ok _ => Ok tt | Err e => Err e end) /\
    (forall t, upload_pure rows (products (working s)) = Ok t -> w = set_products (fun _ => t) (working s)).
Proof.
  revert s. induction rows as [|row rows IH]; intros s; cbn [upload_loop upload_pure].
  - exists (working s). split; [by destruct s|]. intros t Ht. invc Ht. by destruct (working s).
  - unfold bind, lift. destruct (row_price row) as [price|e]; [|exists (working s); by destruct s].
    destruct (row_stock row) as [stock|e]; [|exists (working s); by destruct s].
    unfold write. cbn [fst snd].
    destruct (IH (mkSession (committed s) (set_products
               (fun t => insert_row t (row_product (next_id t) row price stock)) (working s))))
      as (w & Hrun & Hw).
    exists w. split; [exact Hrun|]. intros t Ht. rewrite (Hw t Ht). done.
Qed.

Lemma admin_upload_run rows d :
  run_handler (admin_upload rows) d =
  match upload_pure rows (products d) with
  | Ok t => if existsb row_null rows then (d, Err (IntegrityError "NOT NULL constraint failed"))
            else (set_products (fun _ => t) d, Ok tt)
  | Err e => (d, Err e)
  end.
Proof.
  unfold run_handler, admin_upload, bind.
  destruct (upload_loop_run rows (mkSession d d)) as (w & -> & Hw). cbn in Hw |- *.
  destruct (upload_pure rows (products d)) as [t|e]; [|done].
  destruct (existsb row_null rows); [done|]. by rewrite (Hw t eq_refl).
Qed.

Lemma upload_pure_Ok rows t t' :
  upload_pure rows t = Ok t' ->
  exists news, t' = t ++ news /\ length news = length rows /\ (ids_unique t -> ids_unique t').
Proof.
  revert t. induction rows as [|row rows IH]; intros t Ht; cbn in Ht.
  - invc Ht. exists []. by rewrite app_nil_r.
  - destruct (row_price row) as [price|], (row_stock row) as [stock|]; try done.
    destruct (IH _ Ht) as (news & -> & Hlen & Hu). exists (row_product (next_id t) row price stock :: news).
    unfold insert_row. rewrite <- app_assoc. split; [done|]. split; [cbn; lia|].
    intros Hu0. rewrite app_assoc. apply Hu, ids_unique_insert_next; done.
Qed.

(** The products an upload of rows without [None] titles and
    descriptions appends carry the price, stock, title and description
    of their rows. *)
Lemma upload_pure_rows rows t t' :
  existsb row_null rows = false -> upload_pure rows t = Ok t' ->
  exists news, t' = t ++ news /\
    Forall2 (fun row p => row_price row = Ok (Product.price p) /\ row_stock row = Ok (Product.stock p) /\
               row_text row "title" = Some (Product.title p) /\
               row_text row "description" = Some (Product.description p)) rows news.
Proof.
  revert t. induction rows as [|row rows IH]; intros t Hn Ht; cbn in Hn, Ht.
  - invc Ht. exists []. by rewrite app_nil_r.
  - apply orb_false_iff in Hn as [Hr Hn].
    destruct (row_price row) as [price|] eqn:Hp, (row_stock row) as [stock|] eqn:Hs; try done.
    destruct (IH _ Hn Ht) as (news & -> & Hnews). exists (row_product (next_id t) row price stock :: news).
    unfold insert_row. rewrite <- app_assoc. split; [done|]. constructor; [|done].
    unfold row_null in Hr. cbn.
    destruct (row_text row "title"), (row_text row "description"); done.
Qed.

Lemma upload_pure_Err rows t e :
  upload_pure rows t = Err e -> exists msg, e = ValueError msg \/ e = TypeError msg.
Proof.
  revert t. induction rows as [|row rows IH]; intros t Ht; cbn in Ht; [done|].
  unfold row_price, row_stock in Ht.
  destruct (row_get row "price") as [[v|]|]; [destruct (py_float v)| |];
    destruct (row_get row "stock") as [[w|]|]; try destruct (py_int w); invc Ht; eauto.
Qed.
End UploadLemmas.

Lemma admin_flags_run name en d :
  run_handler (admin_flags name en) d =
  (match flag_by_name d name with
   | None => set_flags (fun t => insert_row t (FeatureFlag.mkFeatureFlag (next_id t) name en)) d
   | Some f => set_flags (fun t => update_row t
                 (FeatureFlag.mkFeatureFlag (FeatureFlag.id f) (FeatureFlag.name f) en)) d
   end, Ok tt).
Proof. unfold run_handler, admin_flags, bind, read. cbn. by destruct (flag_by_name d name). Qed.

(** A search by name in a table with unique names whose row [a] is
    replaced by [a'] of the same name: where [a] was found, [a'] is. *)
Lemma find_name_replace (l1 l2 : list FeatureFlag) a a' n :
  FeatureFlag.name a' = FeatureFlag.name a ->
  NoDup (map FeatureFlag.name (l1 ++ a :: l2)) ->
  List.find (fun f => String.eqb (FeatureFlag.name f) n) (l1 ++ a' :: l2) =
  if String.eqb (FeatureFlag.name a) n then Some a'
  else List.find (fun f => String.eqb (FeatureFlag.name f) n) (l1 ++ a :: l2).
Proof.
  intros Hn Hu. rewrite !find_app. cbn. rewrite Hn.
  destruct (List.find _ l1) as [x|] eqn:E1.
  - destruct (String.eqb_spec (FeatureFlag.name a) n) as [<-|]; [|done]. exfalso.
    apply find_some in E1 as [Hx Hxn]. apply String.eqb_eq in Hxn.
    rewrite map_app in Hu. apply NoDup_app in Hu as (_ & Hdis & _).
    apply (Hdis (FeatureFlag.name x)); [apply list_elem_of_fmap; exists x; split;
      [done|by apply list_elem_of_In]|]. rewrite Hxn. cbn. set_solver.
  - by destruct (String.eqb _ _).
Qed.

Lemma admin_flags_effect name en d d' r :
  flags_wf d -> run_handler (admin_flags name en) d = (d', r) ->
  r = Ok tt /\ flags_wf d' /\
  (exists f, flag_by_name d' name = Some f /\ FeatureFlag.enabled f = en) /\
  (forall n, n <> name -> flag_by_name d' n = flag_by_name d n).
Proof.
  intros [Hid Hnm]. rewrite admin_flags_run. intros Hr. invc Hr. split; [done|].
  unfold flag_by_name, flags_wf in *. destruct (List.find _ (flags d)) as [f|] eqn:Ef; cbn.
  - apply find_some in Ef as [Hf Hfn]. apply String.eqb_eq in Hfn. apply list_elem_of_In in Hf.
    destruct (update_row_split (flags d) f (FeatureFlag.mkFeatureFlag (FeatureFlag.id f)
                (FeatureFlag.name f) en) Hid Hf eq_refl) as (l1 & l2 & Ht & ->).
    rewrite Ht in Hnm, Hid |- *. split; [split|split].
    + unfold ids_unique in *. rewrite !map_app in *. exact Hid.
    + rewrite !map_app in Hnm |- *. exact Hnm.
    + eexists. rewrite (find_name_replace l1 l2 f) by done. cbn. rewrite Hfn, String.eqb_refl. by split.
    + intros n Hne. rewrite (find_name_replace l1 l2 f) by done. cbn. rewrite Hfn.
      by destruct (String.eqb_spec name n); [congruence|].
  - pose proof (find_key_None _ _ _ Ef) as Hnot. unfold insert_row. split; [split|split].
    + by apply ids_unique_insert_next.
    + rewrite map_app. apply NoDup_app. split; [done|]. split; [|by constructor; [set_solver|constructor]].
      intros x Hx ->%list_elem_of_singleton. by apply Hnot.
    + eexists. rewrite find_app, Ef. cbn. rewrite String.eqb_refl. by split.
    + intros n Hne. rewrite find_app. cbn.
      destruct (String.eqb_spec name n) as [->|Hn]; [congruence|].
      by destruct (List.find (fun f => String.eqb (FeatureFlag.name f) n) (flags d)).
Qed.

(** C26: [admin_flags] is an upsert: afterwards the flag of that name
    exists with the requested [enabled], every other name reads as
    before, and the flags table keeps unique rowids and unique names. *)
Theorem admin_flags_upsert name en d d' r :
  flags_wf d -> run_handler (admin_flags name en) d = (d', r) ->
  r = Ok tt /\ flags_wf d' /\
  (exists f, flag_by_name d' name = Some f /\ FeatureFlag.enabled f = en) /\
  (forall n, n <> name -> flag_by_name d' n = flag_by_name d n).
Proof. intros. by eapply admin_flags_effect. Qed.

(** C23: on a request the [get_current_admin] dependency accepts, toggling an existing product sets its
    stock to 0 when it was positive and to 10 otherwise, leaves every
    other product's stock as it was, and broadcasts the new stock: every
    listener still connected receives it, the others receive nothing. *)
Theorem toggle_stock_request_spec `{Jwt} `{NotifierLaws} a u pid p d h :
  run_handler (get_current_admin a) d = (d, Ok u) -> get (products d) pid = Some p ->
  let s := if Z.ltb 0 (Product.stock p) then 0 else 10 in
  exists d' h', toggle_stock_request a pid d h = (d', h', Ok s) /\
    stock_of d' pid = Some s /\ (forall q, q <> pid -> stock_of d' q = stock_of d q) /\
    (forall ws, ws ∈ listeners h' ->
       exists n, (0 < n)%nat /\ inbox h' ws = inbox h ws ++ repeat (mkStockUpdate pid s) n) /\
    (forall ws, ws ∉ listeners h' -> inbox h' ws = inbox h ws).
Proof.
  intros Hadm Hp s. pose proof (get_Some _ _ _ Hp) as [Hid _].
  change (row_id p) with (Product.id p) in Hid. rewrite get_current_admin_run in Hadm. injection Hadm as Hadm.
  unfold toggle_stock_request. rewrite with_admin_run, Hadm.
  rewrite admin_toggle_stock_run, Hp.
  cbn zeta. rewrite Hid. eexists _, _. split; [reflexivity|].
  split; [by rewrite (stock_of_set_stock _ _ _ _ _ Hp), Z.eqb_refl|]. split.
  - intros q Hq. rewrite (stock_of_set_stock _ _ _ _ _ Hp). by destruct (Z.eqb_spec q pid).
  - split; [apply broadcast_delivers|apply broadcast_skips].
Qed.

(** C24: a CSV upload is all or nothing: either every row parses and
    has a title and a description, and the products table gains exactly
    one product per row, in row order, appended with fresh rowids and
    carrying the title, description, price and stock of its row,
    unchecked (a negative stock or price is stored as it is), while
    every other table is unchanged; or nothing is committed and the
    request fails with [ValueError] (a value [float] or [int] cannot
    read), [TypeError] ([float(None)] or [int(None)] on a row shorter
    than the header) or [IntegrityError] (a [None] title or
    description at the commit). *)
Theorem admin_upload_all_or_nothing `{NumParse} rows d d' r :
  run_handler (admin_upload rows) d = (d', r) ->
  (r = Ok tt /\ exists news, d' = set_products (fun _ => products d ++ news) d /\
     Forall2 (fun row p => row_price row = Ok (Product.price p) /\ row_stock row = Ok (Product.stock p) /\
                row_text row "title" = Some (Product.title p) /\
                row_text row "description" = Some (Product.description p)) rows news /\
     (ids_unique (products d) -> ids_unique (products d'))) \/
  (d' = d /\ exists msg, r = Err (ValueError msg) \/ r = Err (TypeError msg) \/ r = Err (IntegrityError msg)).
Proof.
  rewrite admin_upload_run. destruct (upload_pure rows (products d)) as [t|e] eqn:Hu.
  - destruct (existsb row_null rows) eqn:Hn; intros Hr; invc Hr; [right; eauto|].
    left. split; [done|]. destruct (upload_pure_Ok _ _ _ Hu) as (news & -> & _ & Hid).
    destruct (upload_pure_rows _ _ _ Hn Hu) as (news' & Heq & Hrows).
    apply app_inv_head in Heq as ->. eauto.
  - intros Hr. invc Hr. right. split; [done|]. destruct (upload_pure_Err _ _ _ Hu) as [msg [->| ->]]; eauto.
Qed.

(** ** Fixtures: a decimal parser, a hub and the seeded administrator *)

Module AdminFixtures.
Import AuthFixtures.

(** A non-empty string of decimal digits. *)
Fixpoint digits_val (s : string) (acc : Z) : option Z :=
  match s with
  | EmptyString => Some acc
  | String c r =>
      let n := Ascii.nat_of_ascii c in
      if Nat.leb 48 n && Nat.leb n 57 then digits_val r (acc * 10 + Z.of_nat (n - 48)) else None
  end.

Definition parse_digits (s : string) : option Z :=
  match s with EmptyString => None | _ => digits_val s 0 end.

Definition is_char (c : Ascii.ascii) (n : nat) : bool := Nat.eqb (Ascii.nat_of_ascii c) n.

Definition test_int (s : string) : option Z :=
  match s with
  | String c r => if is_char c 45 then Z.opp <$> parse_digits r else parse_digits s
  | EmptyString => None
  end.

Fixpoint before_dot (s : string) : string :=
  match s with
  | EmptyString => EmptyString
  | String c r => if is_char c 46 then EmptyString else String c (before_dot r)
  end.

Fixpoint after_dot (s : string) : option string :=
  match s with
  | EmptyString => None
  | String c r => if is_char c 46 then Some r else after_dot r
  end.

Definition unsigned_float (s : string) : option Q :=
  match after_dot s with
  | None => inject_Z <$> parse_digits s
  | Some f =>
      match parse_digits (before_dot s), parse_digits f with
      | Some i, Some fr => Some (inject_Z i + Qmake fr (Pos.of_nat (10 ^ String.length f)))%Q
      | _, _ => None
      end
  end.

Definition test_float (s : string) : option Q :=
  match s with
  | String c r => if is_char c 45 then Qopp <$> unsigned_float r else unsigned_float s
  | EmptyString => None
  end.

#[export] Instance test_NumParse : NumParse := {| py_float := test_float; py_int := test_int |}.

(** Socket 1 is connected, socket 2 was registered but its peer left. *)
Definition demo_hub : Hub := mkHub [1; 2] [2] [].

(** Rows under the header [title,description,price,stock]. *)
Definition lamp_row : csv_row :=
  [("title", Some "Lamp"); ("description", Some "desk lamp"); ("price", Some "12.50"); ("stock", Some "3")].
Definition broken_row : csv_row :=
  [("title", Some "Broken"); ("description", Some "bad"); ("price", Some "abc"); ("stock", Some "1")].
Definition negative_row : csv_row :=
  [("title", Some "Refund"); ("description", Some "credit"); ("price", Some "0"); ("stock", Some "-5")].
(** The line [Stub] alone: the reader fills the other fields with [None]. *)
Definition short_row : csv_row :=
  [("title", Some "Stub"); ("description", None); ("price", None); ("stock", None)].
(** Under the header [price,stock,title,description], the line
    [1,2,Lamp]: its description is [None]. *)
Definition no_text_row : csv_row :=
  [("price", Some "1"); ("stock", Some "2"); ("title", Some "Lamp"); ("description", None)].
End AdminFixtures.

Import AuthFixtures AdminFixtures.

Lemma toggle_stock_request_spec_witness :
  exists d' h', toggle_stock_request (Some (bearer (jwt_encode 1))) 1 accounts_db demo_hub = (d', h', Ok 0) /\
    stock_of d' 1 = Some 0 /\ (forall q, q <> 1 -> stock_of d' q = stock_of accounts_db q) /\
    (forall ws, ws ∈ listeners h' ->
       exists n, (0 < n)%nat /\ inbox h' ws = inbox demo_hub ws ++ repeat (mkStockUpdate 1 0) n) /\
    (forall ws, ws ∉ listeners h' -> inbox h' ws = inbox demo_hub ws).
Proof.
  apply (toggle_stock_request_spec (Some (bearer (jwt_encode 1))) seed_admin 1 Fixtures.prodA);
    vm_compute; reflexivity.
Defined.

Lemma admin_upload_all_or_nothing_witness :
  let res := run_handler (admin_upload [lamp_row; short_row]) accounts_db in
  (snd res = Ok tt /\ exists news, fst res = set_products (fun _ => products accounts_db ++ news) accounts_db /\
     Forall2 (fun row p => row_price row = Ok (Product.price p) /\ row_stock row = Ok (Product.stock p) /\
                row_text row "title" = Some (Product.title p) /\
                row_text row "description" = Some (Product.description p)) [lamp_row; short_row] news /\
     (ids_unique (products accounts_db) -> ids_unique (products (fst res)))) \/
  (fst res = accounts_db /\ exists msg, snd res = Err (ValueError msg) \/ snd res = Err (TypeError msg) \/
     snd res = Err (IntegrityError msg)).
Proof.
  intros res. apply (admin_upload_all_or_nothing [lamp_row; short_row] accounts_db (fst res) (snd res)).
  vm_compute. reflexivity.
Defined.

(** A short row fails on [float(None)]; a row whose description is [None]
    parses and fails at the commit. *)
Example admin_upload_type_and_integrity_errors :
  snd (run_handler (admin_upload [lamp_row; short_row]) accounts_db) =
    Err (TypeError "float() argument must be a string or a real number, not 'NoneType'") /\
  run_handler (admin_upload [lamp_row; no_text_row]) accounts_db =
    (accounts_db, Err (IntegrityError "NOT NULL constraint failed")).
Proof. split; vm_compute; reflexivity. Qed.

(** The upload does not check the stock it parses: a row with a
    negative stock breaks [stock_nonneg], which every other handler
    preserves. *)
Example admin_upload_negative_stock :
  stock_nonneg accounts_db /\
  stock_of (fst (run_handler (admin_upload [negative_row]) accounts_db)) 3 = Some (-5) /\
  ~ stock_nonneg (fst (run_handler (admin_upload [negative_row]) accounts_db)).
Proof.
  assert (Hs : stock_of (fst (run_handler (admin_upload [negative_row]) accounts_db)) 3 = Some (-5))
    by (vm_compute; reflexivity).
  split; [apply stock_nonneg_rows; vm_compute; reflexivity|]. split; [exact Hs|].
  intros Hn. specialize (Hn 3 (-5) Hs). lia.
Qed.

Lemma admin_flags_upsert_witness :
  let res := run_handler (admin_flags "experiments" false) (set_flags (fun _ => [FeatureFlag.mkFeatureFlag 1 "experiments" true]) accounts_db) in
  snd res = Ok tt /\ flags_wf (fst res) /\
  (exists f, flag_by_name (fst res) "experiments" = Some f /\ FeatureFlag.enabled f = false) /\
  (forall n, n <> "experiments" -> flag_by_name (fst res) n =
     flag_by_name (set_flags (fun _ => [FeatureFlag.mkFeatureFlag 1 "experiments" true]) accounts_db) n).
Proof.
  intros res. apply admin_flags_upsert; [|vm_compute; reflexivity].
  split; [unfold ids_unique|]; apply (bool_decide_unpack _); vm_compute; reflexivity.
Defined.
