(* ===== verification/Analytics.v ===== *)
(** * Analytics: [track] and [analytics_summary] ([src/main.py] 189-199, 211-216)

    [track] appends one event and commits.  [analytics_summary] selects
    the ["view"] and the ["purchase"] events and ranks the products by
    purchase count with [collections.Counter]: a Counter is a dict, so
    its keys are in first-insertion order, and [most_common(5)] is
    [heapq.nlargest(5, items, key=count)], which keeps that order among
    equal counts.  The Counter is an association list in insertion
    order and [most_common] a stable insertion sort by decreasing count
    followed by [take 5]. *)

From S2P Require Import Prelude Models Session Cart.

(** [track] (211-216): [user] is the optional [User] the endpoint
    receives. *)
Definition track (event_type : string) (product_id : option Z) (user : option User) : M unit :=
  add_event (User.id <$> user) event_type product_id ;;
  commit ;;
  ret tt.

(** ** [collections.Counter] *)

(** [c[k] += 1]. *)
Fixpoint counter_add (c : list (Z * nat)) (k : Z) : list (Z * nat) :=
  match c with
  | [] => [(k, 1%nat)]
  | (k', n) :: rest => if Z.eqb k' k then (k', S n) :: rest else (k', n) :: counter_add rest k
  end.

(** [Counter(keys)]. *)
Definition counter_of (keys : list Z) : list (Z * nat) := fold_left counter_add keys [].

(** [c[k]]. *)
Definition counter_get (c : list (Z * nat)) (k : Z) : nat :=
  default 0%nat (snd <$> List.find (fun e => Z.eqb (fst e) k) c).

(** Insert before the first entry whose count is not larger: applied
    from the last entry to the first, equal counts keep their order. *)
Fixpoint insert_desc (x : Z * nat) (l : list (Z * nat)) : list (Z * nat) :=
  match l with
  | [] => [x]
  | y :: rest => if Nat.leb (snd y) (snd x) then x :: y :: rest else y :: insert_desc x rest
  end.

Definition sort_desc (l : list (Z * nat)) : list (Z * nat) := fold_right insert_desc [] l.

(** [c.most_common(n)]. *)
Definition most_common (c : list (Z * nat)) (n : nat) : list (Z * nat) := take n (sort_desc c).

(** ** The summary *)

Record Summary := mkSummary {
  views : nat; purchases : nat; top_products : list (Z * nat) }.

Definition events_of_type (evs : list Event) (ty : string) : list Event :=
  List.filter (fun e => String.eqb (Event.type e) ty) evs.

(** [[e.product_id for e in purchases if e.product_id]]: [None] and the
    falsy id [0] are skipped. *)
Definition purchased_ids (purchases : list Event) : list Z :=
  omap (fun e => match Event.product_id e with
                 | Some pid => if Z.eqb pid 0 then None else Some pid
                 | None => None
                 end) purchases.

Definition summarize (evs : list Event) : Summary :=
  let vs := events_of_type evs "view" in
  let ps := events_of_type evs "purchase" in
  mkSummary (length vs) (length ps) (most_common (counter_of (purchased_ids ps)) 5).

(** [analytics_summary] after the admin check. *)
Definition analytics_summary : M Summary := read (fun d => summarize (events d)).

(** The number of purchase events naming product [k]. *)
Definition purchase_count (evs : list Event) (k : Z) : nat :=
  length (List.filter (fun pid => Z.eqb pid k) (purchased_ids (events_of_type evs "purchase"))).

(** ** Lemmas on the Counter *)

Definition count_of (keys : list Z) (k : Z) : nat := length (List.filter (fun x => Z.eqb x k) keys).

Lemma counter_add_get c x k :
  counter_get (counter_add c x) k = (counter_get c k + if Z.eqb x k then 1 else 0)%nat.
Proof.
  unfold counter_get. induction c as [|[k' n] c IH]; cbn.
  - by destruct (Z.eqb x k).
  - destruct (Z.eqb_spec k' x) as [->|Hne]; cbn.
    + destruct (Z.eqb x k); cbn; lia.
    + destruct (Z.eqb_spec k' k) as [->|]; cbn; [|exact IH].
      destruct (Z.eqb_spec x k); [congruence|cbn; lia].
Qed.

Lemma counter_of_get keys k : counter_get (counter_of keys) k = count_of keys k.
Proof.
  unfold counter_of, count_of.
  assert (forall c, counter_get (fold_left counter_add keys c) k =
                    (counter_get c k + length (List.filter (fun x => Z.eqb x k) keys))%nat) as ->
    by (induction keys as [|x keys IH]; intros c; cbn [fold_left List.filter length]; [lia|];
        rewrite IH, counter_add_get; destruct (Z.eqb x k); cbn [length]; lia).
  cbn. lia.
Qed.

(** Keys are unique and counts positive. *)
Definition counter_wf (c : list (Z * nat)) : Prop :=
  NoDup (map fst c) /\ Forall (fun e => 0 < snd e)%nat c.

Lemma counter_add_keys c x : x ∉ map fst c -> map fst (counter_add c x) = map fst c ++ [x].
Proof.
  induction c as [|[k' n] c IH]; cbn; intros Hx; [done|].
  destruct (Z.eqb_spec k' x) as [->|]; [set_solver|]. cbn. f_equal. apply IH. set_solver.
Qed.

Lemma counter_add_keys_in c x : x ∈ map fst c -> map fst (counter_add c x) = map fst c.
Proof.
  induction c as [|[k' n] c IH]; cbn; intros Hx; [set_solver|].
  destruct (Z.eqb_spec k' x) as [->|Hne]; [done|]. cbn. f_equal. apply IH. set_solver.
Qed.

Lemma counter_add_pos c x : Forall (fun e => 0 < snd e)%nat c -> Forall (fun e => 0 < snd e)%nat (counter_add c x).
Proof.
  induction c as [|[k' n] c IH]; cbn; intros Hc; [repeat constructor|].
  apply Forall_cons in Hc as [Hn Hc]. destruct (Z.eqb k' x); constructor; cbn in *; auto; lia.
Qed.

Lemma counter_add_wf c x : counter_wf c -> counter_wf (counter_add c x).
Proof.
  intros [Hnd Hpos]. split; [|by apply counter_add_pos].
  destruct (decide (x ∈ map fst c)) as [Hin|Hin].
  - by rewrite counter_add_keys_in.
  - rewrite counter_add_keys by done. apply NoDup_app. split; [done|].
    split; [|repeat constructor; set_solver]. intros y Hy ->%list_elem_of_singleton. done.
Qed.

Lemma counter_of_wf keys : counter_wf (counter_of keys).
Proof.
  unfold counter_of. assert (counter_wf []) as H0 by (split; constructor).
  revert H0. generalize (@nil (Z * nat)). induction keys as [|x keys IH]; intros c Hc; cbn; [done|].
  by apply IH, counter_add_wf.
Qed.

Lemma counter_get_elem c k n : NoDup (map fst c) -> (k, n) ∈ c -> counter_get c k = n.
Proof.
  unfold counter_get. induction c as [|[k' n'] c IH]; cbn; intros Hnd Hin; [set_solver|].
  apply NoDup_cons in Hnd as [Hk' Hnd]. apply elem_of_cons in Hin as [Heq|Hin].
  - invc Heq. by rewrite Z.eqb_refl.
  - destruct (Z.eqb_spec k' k) as [->|]; [|by apply IH].
    exfalso. apply Hk'. apply list_elem_of_fmap. by exists (k, n).
Qed.

Lemma counter_get_pos c k : (0 < counter_get c k)%nat -> exists n, (k, n) ∈ c /\ counter_get c k = n.
Proof.
  unfold counter_get. destruct (List.find _ c) as [[k' n]|] eqn:Hf; cbn; [|lia]. intros _.
  apply find_some in Hf as [Hin Hk]. apply Z.eqb_eq in Hk. cbn in Hk. subst.
  exists n. split; [by apply list_elem_of_In|done].
Qed.

(** ** Lemmas on [most_common] *)

Definition count_ge (x y : Z * nat) : Prop := (snd y <= snd x)%nat.

Lemma insert_desc_perm x l : insert_desc x l ≡ₚ x :: l.
Proof.
  induction l as [|y l IH]; cbn; [done|]. destruct (Nat.leb _ _); [done|].
  rewrite IH. apply Permutation_swap.
Qed.

Lemma sort_desc_perm l : sort_desc l ≡ₚ l.
Proof. induction l as [|x l IH]; cbn; [done|]. by rewrite insert_desc_perm, IH. Qed.

Lemma insert_desc_sorted x l :
  StronglySorted count_ge l -> StronglySorted count_ge (insert_desc x l).
Proof.
  unfold count_ge. induction l as [|y l IH]; cbn; intros Hs; [repeat constructor|].
  apply StronglySorted_inv in Hs as [Hs Hy].
  destruct (Nat.leb_spec (snd y) (snd x)) as [Hle|Hlt].
  - constructor; [by constructor|]. constructor; [done|].
    eapply Forall_impl; [exact Hy|]. cbn. lia.
  - constructor; [by apply IH|]. apply Forall_forall. intros z Hz.
    rewrite (insert_desc_perm x l) in Hz. apply elem_of_cons in Hz as [->|Hz]; [lia|].
    eapply Forall_forall in Hy; [exact Hy|done].
Qed.

Lemma sort_desc_sorted l : StronglySorted count_ge (sort_desc l).
Proof. induction l as [|x l IH]; cbn; [constructor|]. by apply insert_desc_sorted. Qed.

Lemma StronglySorted_take_drop {A} (R : relation A) l n x y :
  StronglySorted R l -> x ∈ take n l -> y ∈ drop n l -> R x y.
Proof.
  rewrite <- (take_drop n l) at 1. generalize (take n l) (drop n l). clear.
  intros l1 l2. induction l1 as [|z l1 IH]; cbn; intros Hs Hx Hy; [set_solver|].
  apply StronglySorted_inv in Hs as [Hs Hz]. apply elem_of_cons in Hx as [->|Hx]; [|auto].
  eapply Forall_forall in Hz; [exact Hz|]. set_solver.
Qed.

Lemma StronglySorted_take {A} (R : relation A) l n :
  StronglySorted R l -> StronglySorted R (take n l).
Proof.
  revert n. induction l as [|x l IH]; intros [|n] Hs; cbn; try constructor.
  - apply StronglySorted_inv in Hs as [Hs Hx]. by apply IH.
  - apply StronglySorted_inv in Hs as [Hs Hx].
    apply Forall_forall. intros y Hy. eapply Forall_forall; [exact Hx|].
    by apply (subseteq_take n l).
Qed.

(** ** The summary *)

Lemma elem_of_sort_desc c x : x ∈ sort_desc c <-> x ∈ c.
Proof. by rewrite sort_desc_perm. Qed.

(** ** The Counter against its reference *)

(** The distinct keys of [l] not in [seen], in first-occurrence order. *)
Fixpoint first_keys (seen l : list Z) : list Z :=
  match l with
  | [] => []
  | x :: r => if bool_decide (x ∈ seen) then first_keys seen r else x :: first_keys (x :: seen) r
  end.

(** What [Counter(keys)] means: each distinct key, first seen first,
    with the number of times it occurs. *)
Definition counter_ref (keys : list Z) : list (Z * nat) :=
  map (fun k => (k, count_of keys k)) (first_keys [] keys).

Lemma elem_of_first_keys s l x : x ∈ first_keys s l <-> x ∈ l /\ x ∉ s.
Proof.
  revert s. induction l as [|y l IH]; intros s; cbn; [set_solver|].
  case_bool_decide; rewrite ?elem_of_cons, !IH, ?elem_of_cons;
    destruct (decide (x = y)) as [->|]; intuition.
Qed.

Lemma first_keys_snoc s p x :
  first_keys s (p ++ [x]) = first_keys s p ++ (if bool_decide (x ∈ s \/ x ∈ p) then [] else [x]).
Proof.
  revert s. induction p as [|y p IH]; intros s; cbn.
  - by repeat case_bool_decide; set_solver.
  - case_bool_decide; rewrite IH; [|cbn; f_equal]; f_equal;
      (case_bool_decide; case_bool_decide; [done| | |done]; set_solver).
Qed.

Lemma count_of_snoc p x k : count_of (p ++ [x]) k = (count_of p k + if Z.eqb x k then 1 else 0)%nat.
Proof. unfold count_of. rewrite List.filter_app, length_app. cbn. by destruct (Z.eqb x k). Qed.

Lemma count_of_notin p x : x ∉ p -> count_of p x = 0%nat.
Proof.
  unfold count_of. induction p as [|y p IH]; intros Hx; cbn; [done|].
  destruct (Z.eqb_spec y x) as [->|]; [set_solver|]. apply IH. set_solver.
Qed.

Lemma counter_add_map ks f x :
  NoDup ks ->
  counter_add (map (fun k => (k, f k)) ks) x =
  map (fun k => (k, if Z.eqb x k then S (f k) else f k)) ks ++
  (if bool_decide (x ∈ ks) then [] else [(x, 1%nat)]).
Proof.
  induction ks as [|k ks IH]; intros Hnd; cbn; [done|]. apply NoDup_cons in Hnd as [Hk Hnd].
  destruct (Z.eqb_spec k x) as [->|Hne].
  - rewrite Z.eqb_refl, bool_decide_true, app_nil_r by set_solver. f_equal.
    apply map_ext_in. intros y Hy. destruct (Z.eqb_spec x y) as [->|]; [|done].
    exfalso. apply Hk, list_elem_of_In, Hy.
  - rewrite (proj2 (Z.eqb_neq x k)) by congruence. cbn. rewrite IH by done. do 2 f_equal.
    by rewrite (bool_decide_ext (x ∈ k :: ks) (x ∈ ks)) by set_solver.
Qed.

(** [collections.Counter] built by [c[k] += 1] over the keys is
    the reference counter: one entry per distinct key, in the order of
    first occurrence, holding the number of occurrences of the key. *)
Theorem counter_of_ref keys : counter_of keys = counter_ref keys.
Proof.
  induction keys as [|x p IH] using rev_ind; [done|].
  unfold counter_of in *. rewrite fold_left_app, IH. cbn [fold_left]. unfold counter_ref.
  assert (NoDup (first_keys [] p)) as Hnd.
  { pose proof (proj1 (counter_of_wf p)) as Hw. unfold counter_of in Hw.
    rewrite IH in Hw. unfold counter_ref in Hw. by rewrite List.map_map, List.map_id in Hw. }
  rewrite counter_add_map, first_keys_snoc, map_app by done. f_equal.
  - apply map_ext. intros k. rewrite count_of_snoc. destruct (Z.eqb x k); f_equal; lia.
  - rewrite (bool_decide_ext (x ∈ first_keys [] p) (x ∈ [] \/ x ∈ p))
      by (rewrite elem_of_first_keys; set_solver).
    case_bool_decide as Hx; [done|]. cbn. rewrite count_of_snoc, Z.eqb_refl, count_of_notin by set_solver.
    done.
Qed.

(** C30: the [top_products] of the summary are at most five distinct
    products, by non-increasing purchase count; each comes with the
    number of purchase events naming it, which is positive; and no
    product left out has more purchases than any product listed. *)
Theorem summarize_top_products evs :
  let top := top_products (summarize evs) in
  (length top <= 5)%nat /\ Sorted count_ge top /\ NoDup (map fst top) /\
  (forall k n, (k, n) ∈ top -> n = purchase_count evs k /\ (0 < n)%nat) /\
  (forall k x, k ∉ map fst top -> x ∈ top -> (purchase_count evs k <= snd x)%nat).
Proof.
  cbn zeta. unfold summarize, most_common, purchase_count. cbn [top_products].
  set (keys := purchased_ids _). pose proof (counter_of_wf keys) as [Hnd Hpos].
  pose proof (counter_of_get keys) as Hget. set (c := counter_of keys) in *.
  split; [rewrite length_take; lia|]. split.
  { apply StronglySorted_Sorted, StronglySorted_take, sort_desc_sorted. }
  split.
  { apply NoDup_map_take. rewrite (Permutation_map fst (sort_desc_perm c)). exact Hnd. }
  split.
  - intros k n Hin. apply subseteq_take, (proj1 (elem_of_sort_desc _ _)) in Hin.
    split; [by rewrite <- (counter_get_elem c k n Hnd Hin), Hget|].
    exact (proj1 (Forall_forall _ _) Hpos _ Hin).
  - intros k x Hk Hx. fold (count_of keys k). rewrite <- Hget.
    destruct (counter_get c k) as [|m] eqn:Hm; [lia|].
    destruct (counter_get_pos c k) as (n & Hin & Hn); [lia|]. rewrite Hm in Hn. subst n.
    apply (proj2 (elem_of_sort_desc _ _)) in Hin. rewrite <- (take_drop 5 (sort_desc c)) in Hin.
    apply elem_of_app in Hin as [Hin|Hin].
    + exfalso. apply Hk, list_elem_of_fmap. by exists (k, S m).
    + exact (StronglySorted_take_drop _ _ _ _ _ (sort_desc_sorted c) Hx Hin).
Qed.

(** ** Ties *)

Definition has_count (c : nat) (e : Z * nat) : bool := Nat.eqb (snd e) c.

(** [insert_desc] passes only entries of larger count: the entries of
    one count keep their order. *)
Lemma insert_desc_filter c x l :
  List.filter (has_count c) (insert_desc x l) = List.filter (has_count c) (x :: l).
Proof.
  unfold has_count. induction l as [|y l IH]; cbn; [done|].
  destruct (Nat.leb (snd y) (snd x)) eqn:E; [done|]. cbn. rewrite IH. cbn.
  apply Nat.leb_gt in E.
  destruct (Nat.eqb_spec (snd y) c), (Nat.eqb_spec (snd x) c); done || lia.
Qed.

(** [sorted(..., reverse=True)] is stable. *)
Lemma sort_desc_stable c l : List.filter (has_count c) (sort_desc l) = List.filter (has_count c) l.
Proof.
  induction l as [|x l IH]; [done|]. unfold sort_desc. cbn [fold_right].
  rewrite insert_desc_filter. cbn. fold (sort_desc l). by rewrite IH.
Qed.

Lemma filter_take_prefix {A} (f : A -> bool) l n :
  List.filter f (take n l) `prefix_of` List.filter f l.
Proof.
  revert n. induction l as [|x l IH]; intros [|n]; cbn; try done; [apply prefix_nil|].
  destruct (f x); [by apply prefix_cons|apply IH].
Qed.

Lemma filter_counter_ref c keys :
  List.filter (has_count c) (counter_ref keys) =
  map (fun k => (k, c)) (List.filter (fun k => Nat.eqb (count_of keys k) c) (first_keys [] keys)).
Proof.
  unfold counter_ref, has_count. induction (first_keys [] keys) as [|k ks IH]; [done|]. cbn.
  destruct (Nat.eqb_spec (count_of keys k) c) as [<-|]; cbn; by rewrite IH.
Qed.

(** C31: products with equal purchase counts are listed in the order
    of their first purchase, not by product id: for every count [c],
    the products the summary lists with [c] purchases are the first of
    all products with [c] purchases, taken in the order in which each
    was first bought ([Counter] keeps first-insertion order and
    [most_common] sorts stably). *)
Theorem summarize_ties_first_purchase evs c :
  let ids := purchased_ids (events_of_type evs "purchase") in
  List.filter (fun e => Nat.eqb (snd e) c) (top_products (summarize evs)) `prefix_of`
  map (fun k => (k, c)) (List.filter (fun k => Nat.eqb (count_of ids k) c) (first_keys [] ids)).
Proof.
  cbn zeta. unfold summarize, most_common. cbn [top_products].
  etrans; [apply (filter_take_prefix (has_count c))|].
  rewrite sort_desc_stable, counter_of_ref, filter_counter_ref. done.
Qed.

(** Product 2 bought first, then product 1, once each: 2 ranks before 1. *)
Example summarize_ties_example :
  top_products (summarize [Event.mkEvent 1 None "purchase" (Some 2) None;
                           Event.mkEvent 2 None "purchase" (Some 1) None]) = [(2, 1%nat); (1, 1%nat)].
Proof. vm_compute. reflexivity. Qed.
