(* ===== verification/Pages.v ===== *)
(** * Pages: [home], [admin_page] and the inventory socket ([src/main.py] 45-49, 144-149, 201-209)

    The two HTML pages read the database and hand what they read to a
    Jinja2 template; the template and the HTML are not modelled, the
    handlers return the data the template receives.  [inventory_ws]
    registers the socket with the hub, then reads heartbeats until
    [receive_text] raises, and unregisters the socket: each frame the
    peer sends, or its going away, is one [ws_event]. *)

From S2P Require Import Prelude Models Session Auth Admin.

(** [home] (46-49): [select(Product)] in rowid order. *)
Definition home : M (list Product) := read products.

(** [admin_page] (145-149) after [Depends(get_current_admin)]. *)
Definition admin_page (admin : User) : M (list Product * list FeatureFlag * User) :=
  ps <- read products ;;
  fs <- read flags ;;
  ret (ps, fs, admin).

(** What [ws.receive_text()] sees: a text frame, or the peer gone (it
    raises [WebSocketDisconnect]). *)
Inductive ws_event := WsText (msg : string) | WsClosed.

Section Socket.
Context `{Notifier}.

(** One turn of [while True: await ws.receive_text()]: a heartbeat
    changes nothing; the exception runs [hub.disconnect(ws)]. *)
Definition ws_receive (ws : Z) (ev : ws_event) (h : hub_state) : hub_state :=
  match ev with WsText _ => h | WsClosed => disconnect ws h end.

(** Whether the loop goes on after the event. *)
Definition ws_live (ev : ws_event) : bool := match ev with WsText _ => true | WsClosed => false end.

Fixpoint ws_loop (ws : Z) (evs : list ws_event) (h : hub_state) : hub_state :=
  match evs with
  | [] => h
  | ev :: rest => if ws_live ev then ws_loop ws rest (ws_receive ws ev h) else ws_receive ws ev h
  end.

(** [inventory_ws] (202-209) on the frames the peer sends, run alone. *)
Definition inventory_ws (ws : Z) (evs : list ws_event) (h : hub_state) : hub_state :=
  ws_loop ws evs (connect ws h).
End Socket.

(** ** Lemmas *)

Lemma home_run d : run_handler home d = (d, Ok (products d)).
Proof. done. Qed.

Lemma admin_page_run u d : run_handler (admin_page u) d = (d, Ok (products d, flags d, u)).
Proof. done. Qed.

(** A socket the hub holds and whose peer has not gone. *)
Definition hub_live (h : Hub) (ws : Z) : Prop := ws ∈ hub_active h /\ ws ∉ hub_gone h.

Lemma hub_connect_live h ws : hub_live (hub_connect ws h) ws.
Proof.
  unfold hub_live, hub_connect. cbn. split; [set_solver|].
  intros Hin. apply list_elem_of_In, filter_In in Hin as [_ Hb]. by rewrite Z.eqb_refl in Hb.
Qed.

Lemma hub_connect_keeps h ws ws' : hub_live h ws -> hub_live (hub_connect ws' h) ws.
Proof.
  intros [Ha Hg]. unfold hub_live, hub_connect. cbn. split; [set_solver|].
  intros Hin. apply list_elem_of_In, filter_In in Hin as [Hin _]. apply Hg, list_elem_of_In, Hin.
Qed.

Lemma hub_disconnect_keeps h ws ws' : ws' <> ws -> hub_live h ws -> hub_live (hub_disconnect ws' h) ws.
Proof.
  intros Hne [Ha Hg]. unfold hub_live, hub_disconnect. cbn. split; [|done].
  apply list_elem_of_In, filter_In. split; [by apply list_elem_of_In|].
  by destruct (Z.eqb_spec ws ws'); [congruence|].
Qed.

Lemma hub_broadcast_keeps h ws msg : hub_live h ws -> hub_live (hub_broadcast msg h) ws.
Proof.
  intros [Ha Hg]. unfold hub_live, hub_broadcast. cbn. split; [|done].
  apply list_elem_of_In, filter_In. split; [by apply list_elem_of_In|].
  unfold is_gone. by rewrite bool_decide_false.
Qed.

Lemma hub_disconnect_gone h ws : ws ∉ hub_active (hub_disconnect ws h).
Proof.
  unfold hub_disconnect. cbn. intros Hin.
  apply list_elem_of_In, filter_In in Hin as [_ Hb]. by rewrite Z.eqb_refl in Hb.
Qed.
