(* ===== verification/System.v ===== *)
(** * System: the application as a step relation over requests

    A state of the store is the database and the notifier hub.  A
    request is one call of an endpoint of [src/main.py] with its form
    fields and [Authorization] header; [serve] runs its handler (with the
    [get_current_user] or [get_current_admin] dependency first) in a
    fresh session and returns the committed database, the hub and the
    response.  [sys_step] is one request; states reachable from a
    database are [star sys_step].  The theorems are invariants of
    every request, stated once for the whole application:
    - orders, order lines and events are append-only (no handler
      rewrites a committed order or its total);
    - stock stays non-negative and carts well formed, as long as
      uploaded CSV rows carry non-negative stocks;
    - outside the admin's stock toggle, every product's stock plus the
      units sold is constant. *)

From S2P Require Import Prelude Models Session Auth Cart Checkout Recs Admin Analytics Pages.

Inductive request :=
  | RqSignup (email password : string)
  | RqLogin (email password : string)
  | RqAddToCart (authorization : option string) (product_id qty : Z)
  | RqGetCart (authorization : option string)
  | RqCheckout (authorization : option string)
  | RqProductPage (pid : Z)
  | RqToggleStock (authorization : option string) (pid : Z)
  | RqUploadCsv (authorization : option string) (rows : list csv_row)
  | RqSetFlag (authorization : option string) (name : string) (enabled : bool)
  | RqTrack (event_type : string) (product_id : option Z) (user : option User)
  | RqSummary (authorization : option string)
  | RqHome
  | RqAdminPage (authorization : option string)
  | RqWsConnect (ws : Z)
  | RqWsReceive (ws : Z) (ev : ws_event).

Inductive response :=
  | RespOk
  | RespToken (access_token : string)
  | RespCart (lines : list CartLine) (total : Q)
  | RespOrder (order_id : Z) (total : Q)
  | RespPage (product : Product) (recs : list Product)
  | RespStock (stock : Z)
  | RespSummary (s : Summary)
  | RespProducts (products : list Product)
  | RespAdminPage (products : list Product) (flags : list FeatureFlag) (admin : User).

Definition rmap {A B} (f : A -> B) (r : result A) : result B :=
  match r with Ok a => Ok (f a) | Err e => Err e end.

Section Serve.
Context `{PasswordHasher} `{Jwt} `{NumParse} `{TfidfVectorizer} `{ArgSort} `{Notifier}.

Definition respond {A} (f : A -> response) (x : DB * result A) (h : hub_state)
    : DB * hub_state * result response :=
  (fst x, h, rmap f (snd x)).

(** One request on the database [d] and the hub [h]. *)
Definition serve (rq : request) (d : DB) (h : hub_state) : DB * hub_state * result response :=
  match rq with
  | RqSignup e p => respond RespToken (run_handler (api_signup e p) d) h
  | RqLogin e p => respond RespToken (run_handler (api_login e p) d) h
  | RqAddToCart tok pid qty =>
      respond (fun _ => RespOk) (run_handler (with_user tok (fun u => add_to_cart (User.id u) pid qty)) d) h
  | RqGetCart tok =>
      respond (fun c => RespCart (fst c) (snd c)) (run_handler (with_user tok (fun u => get_cart (User.id u))) d) h
  | RqCheckout tok =>
      respond (fun o => RespOrder (fst o) (snd o)) (run_handler (with_user tok (fun u => checkout (User.id u))) d) h
  | RqProductPage pid => respond (fun pr => RespPage (fst pr) (snd pr)) (run_handler (product_page pid) d) h
  | RqToggleStock tok pid =>
      let '(d', h', r) := toggle_stock_request tok pid d h in (d', h', rmap RespStock r)
  | RqUploadCsv tok rows => respond (fun _ => RespOk) (run_handler (with_admin tok (fun _ => admin_upload rows)) d) h
  | RqSetFlag tok name en =>
      respond (fun _ => RespOk) (run_handler (with_admin tok (fun _ => admin_flags name en)) d) h
  | RqTrack ty pid user => respond (fun _ => RespOk) (run_handler (track ty pid user) d) h
  | RqSummary tok => respond RespSummary (run_handler (with_admin tok (fun _ => analytics_summary)) d) h
  | RqHome => respond RespProducts (run_handler home d) h
  | RqAdminPage tok =>
      respond (fun x => RespAdminPage (fst (fst x)) (snd (fst x)) (snd x)) (run_handler (with_admin tok admin_page) d) h
  | RqWsConnect ws => (d, connect ws h, Ok RespOk)
  | RqWsReceive ws ev => (d, ws_receive ws ev h, Ok RespOk)
  end.

(** The requests of a run, in order. *)
Definition serve_all (rqs : list request) (s : DB * hub_state) : DB * hub_state :=
  fold_left (fun s rq => let '(d, h, _) := serve rq (fst s) (snd s) in (d, h)) rqs s.
End Serve.


(** ** What a request may change *)

(** The committed history: orders, order lines and events only grow. *)
Definition history (d d' : DB) : Prop :=
  orders d `prefix_of` orders d' /\ order_items d `prefix_of` order_items d' /\
  events d `prefix_of` events d'.

(** A request that changes neither stock, carts, orders nor order lines
    (it may append events, create a cart, an account or a flag). *)
Definition quiet (d d' : DB) : Prop :=
  products d' = products d /\ cart_items d' = cart_items d /\ orders d' = orders d /\
  order_items d' = order_items d /\ events d `prefix_of` events d'.

(** Uploaded rows whose stock parses carry a non-negative stock. *)
Definition rows_safe `{NumParse} (rows : list csv_row) : Prop :=
  Forall (fun row => forall z, row_stock row = Ok z -> 0 <= z) rows.

Definition rq_safe `{NumParse} (rq : request) : Prop :=
  match rq with RqUploadCsv _ rows => rows_safe rows | _ => True end.

(** The [Authorization] header of a request whose endpoint depends on
    [get_current_user] or [get_current_admin]. *)
Definition rq_authorization (rq : request) : option (option string) :=
  match rq with
  | RqAddToCart a _ _ | RqGetCart a | RqCheckout a | RqToggleStock a _ | RqUploadCsv a _
  | RqSetFlag a _ _ | RqSummary a | RqAdminPage a => Some a
  | _ => None
  end.

Definition is_toggle (rq : request) : bool :=
  match rq with RqToggleStock _ _ => true | _ => false end.

(** ** Runs of requests *)

Section Steps.
Context `{PasswordHasher} `{NumParse} `{TfidfVectorizer} `{ArgSort} `{Notifier}.

(** One request, served at whatever time it arrives: [J] is the token
    functions in force then ([Tokens.jwt_at now]), so the requests of a
    run may be served at different times. *)
Definition sys_step (s s' : DB * hub_state) : Prop :=
  exists (J : Jwt) rq r, @serve _ J _ _ _ _ rq (fst s) (snd s) = (fst s', snd s', r).

(** A request whose CSV rows carry non-negative stocks. *)
Definition safe_step (s s' : DB * hub_state) : Prop :=
  exists (J : Jwt) rq r, rq_safe rq /\ @serve _ J _ _ _ _ rq (fst s) (snd s) = (fst s', snd s', r).

(** A request other than the admin's stock toggle. *)
Definition shop_step (s s' : DB * hub_state) : Prop :=
  exists (J : Jwt) rq r, is_toggle rq = false /\ @serve _ J _ _ _ _ rq (fst s) (snd s) = (fst s', snd s', r).
End Steps.

Lemma app_prefix {A} (l k : list A) : l `prefix_of` l ++ k.
Proof. by exists k. Qed.

Lemma quiet_refl d : quiet d d.
Proof. repeat split. reflexivity. Qed.

Lemma quiet_history d d' : quiet d d' -> history d d'.
Proof. intros (_ & _ & Ho & Hoi & He). unfold history. rewrite Ho, Hoi. done. Qed.

Lemma quiet_stock_nonneg d d' : quiet d d' -> stock_nonneg d -> stock_nonneg d'.
Proof. intros (Hp & _) Hs pid s. rewrite (stock_of_products _ _ Hp). apply Hs. Qed.

Lemma quiet_cart_wf d d' : quiet d d' -> cart_wf d -> cart_wf d'.
Proof. intros (_ & Hc & _) [Hu Hl]. unfold cart_wf, cart_lines_unique. by rewrite Hc. Qed.

Lemma quiet_balance d d' pid s :
  quiet d d' -> stock_of d pid = Some s ->
  exists s', stock_of d' pid = Some s' /\ s' + sold d' pid = s + sold d pid.
Proof.
  intros (Hp & _ & _ & Hoi & _) Hs. exists s. rewrite (stock_of_products _ _ Hp), Hs.
  unfold sold. by rewrite Hoi.
Qed.

#[export] Hint Resolve quiet_refl quiet_history quiet_stock_nonneg quiet_cart_wf : store.

Lemma goc_quiet d uid : quiet d (fst (goc_pure d uid)).
Proof.
  destruct (goc_pure_tables d uid) as (Hp & Hc & Ho & Hoi & He & _).
  repeat split; try done. by rewrite He.
Qed.

Lemma set_users_quiet f d : quiet d (set_users f d).
Proof. repeat split. reflexivity. Qed.

Lemma set_flags_quiet f d : quiet d (set_flags f d).
Proof. repeat split. reflexivity. Qed.

Lemma insert_event_quiet d e : quiet d (set_events (fun t => insert_row t (e t)) d).
Proof. repeat split. apply app_prefix. Qed.

#[export] Hint Resolve goc_quiet set_users_quiet set_flags_quiet insert_event_quiet : store.


(** ** The handlers that only read, or append events, accounts, flags *)

Section Quiet.
Context `{PasswordHasher} `{Jwt} `{NumParse} `{TfidfVectorizer} `{ArgSort}.

Lemma api_signup_quiet e p d d' r : run_handler (api_signup e p) d = (d', r) -> quiet d d'.
Proof. rewrite api_signup_run. destruct (user_by_email d e); intros Hr; invc Hr; auto with store. Qed.

Lemma api_login_quiet e p d d' r : run_handler (api_login e p) d = (d', r) -> quiet d d'.
Proof.
  unfold run_handler, api_login, bind, read, ret, bad_request, raise. cbn.
  destruct (user_by_email d e) as [u|]; [destruct (verify_password _ _)|]; intros Hr; invc Hr; auto with store.
Qed.

Lemma get_cart_quiet uid d d' r : run_handler (get_cart uid) d = (d', r) -> quiet d d'.
Proof.
  rewrite get_cart_run. pose proof (goc_quiet d uid) as Hq.
  destruct (goc_pure d uid) as [d1 c]. intros Hr. by invc Hr.
Qed.

Lemma product_page_quiet pid d d' r : run_handler (product_page pid) d = (d', r) -> quiet d d'.
Proof.
  unfold run_handler, product_page, bind, read, recommend_for_product, raise, ret. cbn.
  destruct (get _ _); [destruct (recommend _ _ _)|]; intros Hr; invc Hr; auto with store.
Qed.

Lemma admin_flags_quiet name en d d' r : run_handler (admin_flags name en) d = (d', r) -> quiet d d'.
Proof. rewrite admin_flags_run. destruct (flag_by_name d name); intros Hr; invc Hr; auto with store. Qed.

Lemma analytics_summary_quiet d d' r : run_handler analytics_summary d = (d', r) -> quiet d d'.
Proof. unfold run_handler, analytics_summary, read. intros Hr. invc Hr. auto with store. Qed.

Lemma track_quiet ty pid user d d' r : run_handler (track ty pid user) d = (d', r) -> quiet d d'.
Proof. unfold run_handler, track, add_event, bind, write, commit, ret. cbn. intros Hr. invc Hr. auto with store. Qed.

Lemma home_quiet d d' r : run_handler home d = (d', r) -> quiet d d'.
Proof. rewrite home_run. intros Hr. invc Hr. auto with store. Qed.

Lemma admin_page_quiet u d d' r : run_handler (admin_page u) d = (d', r) -> quiet d d'.
Proof. rewrite admin_page_run. intros Hr. invc Hr. auto with store. Qed.
End Quiet.

#[export] Hint Resolve api_signup_quiet api_login_quiet get_cart_quiet product_page_quiet
  admin_flags_quiet analytics_summary_quiet track_quiet home_quiet admin_page_quiet : store.

(** ** The handlers that change stock or carts *)

Lemma add_to_cart_effect uid pid qty d d' r :
  run_handler (add_to_cart uid pid qty) d = (d', r) ->
  products d' = products d /\ orders d' = orders d /\ order_items d' = order_items d /\
  events d `prefix_of` events d'.
Proof.
  rewrite add_to_cart_run. unfold add_to_cart_spec.
  destruct (get (products d) pid) as [p|]; [|intros Hr; invc Hr; repeat split; reflexivity].
  destruct (Product.stock p <? qty); [intros Hr; invc Hr; repeat split; reflexivity|].
  destruct (goc_quiet d uid) as (Hp & _ & Ho & Hoi & He).
  destruct (goc_pure d uid) as [d1 c]. cbn in *. intros Hr. invc Hr.
  unfold merge_line. destruct (find_item d1 _ _); cbn; (split; [done|]); (split; [done|]);
    (split; [done|]); by etrans; [exact He|apply app_prefix].
Qed.

Lemma add_to_cart_history uid pid qty d d' r :
  run_handler (add_to_cart uid pid qty) d = (d', r) -> history d d'.
Proof. intros (_ & Ho & Hoi & He)%add_to_cart_effect. unfold history. by rewrite Ho, Hoi. Qed.

Lemma add_to_cart_stock uid pid qty d d' r :
  run_handler (add_to_cart uid pid qty) d = (d', r) ->
  forall q s, stock_of d q = Some s ->
  exists s', stock_of d' q = Some s' /\ s' + sold d' q = s + sold d q.
Proof.
  intros (Hp & _ & Hoi & _)%add_to_cart_effect q s Hs. exists s.
  rewrite (stock_of_products _ _ Hp), Hs. unfold sold. by rewrite Hoi.
Qed.

Lemma checkout_history uid d d' r : run_handler (checkout uid) d = (d', r) -> history d d'.
Proof.
  intros Hc. pose proof (goc_quiet d uid) as (_ & _ & Ho1 & Hoi1 & He1).
  pose proof (checkout_cases _ _ _ _ Hc) as Hcase. destruct (goc_pure d uid) as [d1 c].
  cbn in Ho1, Hoi1, He1, Hcase. destruct Hcase as [(e & -> & ->)|(t & d3 & _ & _ & Ha & -> & ->)].
  - unfold history. by rewrite Ho1, Hoi1.
  - destruct (delete_lines_frame (items_of_cart d1 (Cart.id c)) d3) as (_ & _ & _ & _ & Ho & Hoi & He & _).
    destruct (apply_lines_frame _ _ _ _ _ Ha) as (_ & _ & _ & _ & Ho3 & _).
    destruct (apply_lines_order_items _ _ _ _ _ Ha) as (noi & Hoi3 & _).
    destruct (apply_lines_events _ _ _ _ _ Ha) as (nev & He3 & _).
    unfold history. rewrite Ho, Hoi, He, Ho3, Hoi3, He3. cbn. rewrite Ho1, Hoi1.
    split; [apply app_prefix|]. split; [apply app_prefix|]. etrans; [exact He1|apply app_prefix].
Qed.

Lemma checkout_cart_wf uid d d' r : cart_wf d -> run_handler (checkout uid) d = (d', r) -> cart_wf d'.
Proof.
  intros Hwf Hc. pose proof (quiet_cart_wf _ _ (goc_quiet d uid) Hwf) as Hwf1.
  pose proof (checkout_cases _ _ _ _ Hc) as Hcase. destruct (goc_pure d uid) as [d1 c].
  cbn in Hwf1, Hcase. destruct Hcase as [(e & -> & ->)|(t & d3 & _ & _ & Ha & -> & ->)]; [done|].
  destruct (apply_lines_frame _ _ _ _ _ Ha) as (_ & _ & _ & Hc3 & _). cbn in Hc3.
  destruct Hwf1 as [Hu Hl]. unfold cart_wf, cart_lines_unique, ids_unique in *.
  rewrite delete_lines_cart_items, Hc3. split; by apply NoDup_map_filter.
Qed.
Lemma toggle_effect `{Jwt} `{Notifier} tok pid d h d' h' r :
  toggle_stock_request tok pid d h = (d', h', r) ->
  d' = d \/ exists p, get (products d) pid = Some p /\
    d' = set_products (fun t => update_row t
           (Product.set_stock p (if Z.ltb 0 (Product.stock p) then 0 else 10))) d.
Proof.
  unfold toggle_stock_request.
  destruct (run_handler (with_admin tok _) d) as [d1 r1] eqn:Hr.
  apply with_admin_cases in Hr as [->|[u Hr]].
  - destruct r1; intros Hx; invc Hx; by left.
  - rewrite admin_toggle_stock_run in Hr. destruct (get (products d) pid) as [p|] eqn:Hp;
      invc Hr; intros Hx; invc Hx; [right; by exists p|by left].
Qed.

(** A toggle that answers [stock] broadcast [{product_id: pid, stock}]. *)
Lemma toggle_broadcast `{Jwt} `{Notifier} tok pid d h d' h' st :
  toggle_stock_request tok pid d h = (d', h', Ok st) -> h' = broadcast (mkStockUpdate pid st) h.
Proof.
  unfold toggle_stock_request. destruct (run_handler (with_admin tok _) d) as [d1 [msg|e]] eqn:Hr;
    intros Hx; invc Hx.
  apply with_admin_ok in Hr as [u Hr]. rewrite admin_toggle_stock_run in Hr.
  destruct (get (products d) pid) as [p|] eqn:Hp; invc Hr.
  apply get_Some in Hp as [Hid _]. unfold row_id, Product_id in Hid. by rewrite Hid.
Qed.

Lemma set_products_history f d : history d (set_products f d).
Proof. repeat split; reflexivity. Qed.

Lemma set_products_cart_wf f d : cart_wf d -> cart_wf (set_products f d).
Proof. done. Qed.

Lemma toggle_stock_nonneg d p pid :
  get (products d) pid = Some p -> stock_nonneg d ->
  stock_nonneg (set_products (fun t => update_row t
    (Product.set_stock p (if Z.ltb 0 (Product.stock p) then 0 else 10))) d).
Proof.
  intros Hp Hs q s. rewrite (stock_of_set_stock _ _ _ _ _ Hp).
  destruct (Z.eqb q pid); [|apply Hs]. intros Hx. invc Hx. destruct (Z.ltb _ _); lia.
Qed.

(** Appending rows keeps the stock every existing product reads. *)
Lemma stock_of_append d news q s :
  stock_of d q = Some s -> stock_of (set_products (fun _ => products d ++ news) d) q = Some s.
Proof.
  unfold stock_of. cbn. unfold get. rewrite find_app.
  by destruct (List.find _ (products d)).
Qed.

Lemma stock_nonneg_append d news :
  stock_nonneg d -> Forall (fun p => 0 <= Product.stock p) news ->
  stock_nonneg (set_products (fun _ => products d ++ news) d).
Proof.
  intros Hs Hn q s. unfold stock_of. cbn. unfold get. rewrite find_app.
  destruct (List.find _ (products d)) as [p|] eqn:Ef.
  - intros Hx. apply (Hs q). unfold stock_of, get. by rewrite Ef.
  - destruct (List.find _ news) as [p|] eqn:En; intros Hx; invc Hx.
    apply find_some in En as [Hin _]. eapply Forall_forall in Hn; [exact Hn|by apply list_elem_of_In].
Qed.

Lemma upload_pure_safe `{NumParse} rows t t' :
  rows_safe rows -> upload_pure rows t = Ok t' ->
  exists news, t' = t ++ news /\ Forall (fun p => 0 <= Product.stock p) news.
Proof.
  revert t. induction rows as [|row rows IH]; intros t Hs Ht; cbn in Ht.
  - invc Ht. exists []. by rewrite app_nil_r.
  - apply Forall_cons in Hs as [Hrow Hs].
    destruct (row_price row) as [price|], (row_stock row) as [stock|] eqn:Est; try done.
    destruct (IH _ Hs Ht) as (news & -> & Hn).
    exists (row_product (next_id t) row price stock :: news). unfold insert_row.
    rewrite <- app_assoc. split; [done|]. constructor; [cbn; by apply Hrow|exact Hn].
Qed.

Lemma upload_effect `{NumParse} rows d d' r :
  run_handler (admin_upload rows) d = (d', r) ->
  d' = d \/ exists t, upload_pure rows (products d) = Ok t /\ d' = set_products (fun _ => t) d.
Proof.
  rewrite admin_upload_run. destruct (upload_pure rows (products d)) as [t|];
    [destruct (existsb row_null rows)|]; intros Hr; invc Hr; [by left|right; by exists t|by left].
Qed.

(** ** Lifting through the dependencies *)

Section Lift.
Context `{Jwt} (P : DB -> DB -> Prop).

Lemma with_user_lift {A} tok (k : User -> M A) d d' r :
  P d d -> (forall u d'' r', run_handler (k u) d = (d'', r') -> P d d'') ->
  run_handler (with_user tok k) d = (d', r) -> P d d'.
Proof. intros Hd Hk Hr. apply with_user_cases in Hr as [->|[u Hr]]; eauto. Qed.

Lemma with_admin_lift {A} tok (k : User -> M A) d d' r :
  P d d -> (forall u d'' r', run_handler (k u) d = (d'', r') -> P d d'') ->
  run_handler (with_admin tok k) d = (d', r) -> P d d'.
Proof. intros Hd Hk Hr. apply with_admin_cases in Hr as [->|[u Hr]]; eauto. Qed.
End Lift.

Lemma history_refl d : history d d.
Proof. repeat split; reflexivity. Qed.

#[export] Hint Resolve history_refl set_products_history add_to_cart_history checkout_history : store.

(** Take apart the result of [serve]. *)
Ltac serve_case :=
  unfold serve, respond;
  match goal with
  | |- context [toggle_stock_request ?t ?p ?d ?h] =>
      destruct (toggle_stock_request t p d h) as [[?d1 ?h1] ?r1] eqn:?E
  | |- context [run_handler ?m ?d] => destruct (run_handler m d) as [?d1 ?r1] eqn:?E
  | |- _ => idtac
  end;
  let Hx := fresh "Hx" in intros Hx; invc Hx.

(** ** The dependencies at the front of every endpoint *)

Section Front.
Context `{PasswordHasher} `{Jwt} `{NumParse} `{TfidfVectorizer} `{ArgSort} `{Notifier}.

(** A request whose header the dependencies refuse changes neither the
    database nor the hub and answers the exception. *)
Lemma serve_auth_refused rq a d h e :
  rq_authorization rq = Some a -> auth_user a d = Err e -> serve rq d h = (d, h, Err e).
Proof.
  intros Hrq Ha. assert (Had : admin_user a d = Err e) by (unfold admin_user; by rewrite Ha).
  destruct rq; invc Hrq; unfold serve, respond;
    try unfold toggle_stock_request; rewrite ?with_user_run, ?with_admin_run, ?Ha, ?Had; done.
Qed.

(** The only tokens [serve] hands out are [create_access_token]'s. *)
Lemma serve_token rq d h d' h' tok :
  serve rq d h = (d', h', Ok (RespToken tok)) -> exists uid, tok = jwt_encode uid.
Proof.
  destruct rq; unfold serve, respond;
    try (destruct (run_handler _ d) as [? [?|?]]; intros Hx; invc Hx; done).
  - rewrite api_signup_run. destruct (user_by_email d email); intros Hx; invc Hx. eauto.
  - unfold run_handler, api_login, bind, read, ret, bad_request, raise. cbn.
    destruct (user_by_email d email) as [u|]; [destruct (verify_password _ _)|]; intros Hx; invc Hx. eauto.
  - unfold toggle_stock_request. destruct (run_handler _ d) as [? [?|?]]; intros Hx; invc Hx.
  - intros Hx; invc Hx.
  - intros Hx; invc Hx.
Qed.
End Front.

(** ** Invariants of every request *)

Section Invariants.
Context `{PasswordHasher} `{Jwt} `{NumParse} `{TfidfVectorizer} `{ArgSort} `{Notifier}.

(** One request appends to the history. *)
Lemma serve_history rq d h d' h' r :
  serve rq d h = (d', h', r) -> history d d'.
Proof.
  destruct rq; serve_case;
    try (eapply (with_user_lift history); [apply history_refl| |exact E]);
    try (eapply (with_admin_lift history); [apply history_refl| |exact E]);
    try (intros u d'' r' Hr);
    try (apply quiet_history; by eauto with store); eauto with store.
  - apply toggle_effect in E as [->|(p & _ & ->)]; auto with store.
  - apply upload_effect in Hr as [->|(t & _ & ->)]; auto with store.
Qed.
(** The store invariant: stocks non-negative, carts well formed. *)
Definition store_inv (d : DB) : Prop := stock_nonneg d /\ cart_wf d.

Lemma quiet_store_inv d d' : quiet d d' -> store_inv d -> store_inv d'.
Proof. intros Hq [Hs Hc]. split; eauto with store. Qed.

Lemma add_to_cart_store_inv uid pid qty d d' r :
  run_handler (add_to_cart uid pid qty) d = (d', r) -> store_inv d -> store_inv d'.
Proof.
  intros Hr [Hs Hc]. split; [|by eapply add_to_cart_cart_wf].
  destruct (add_to_cart_effect _ _ _ _ _ _ Hr) as (Hp & _). intros q s. rewrite (stock_of_products _ _ Hp). apply Hs.
Qed.

Lemma checkout_store_inv uid d d' r :
  run_handler (checkout uid) d = (d', r) -> store_inv d -> store_inv d'.
Proof.
  intros Hr [Hs Hc]. split; [|by eapply checkout_cart_wf].
  eapply checkout_stock_nonneg; [exact Hs|apply Hc|exact Hr].
Qed.

Lemma store_inv_refl d : store_inv d -> store_inv d.
Proof. done. Qed.

#[local] Hint Resolve quiet_store_inv add_to_cart_store_inv checkout_store_inv store_inv_refl : store.

(** One request keeps the store invariant. *)
Lemma serve_store_inv rq d h d' h' r :
  rq_safe rq -> store_inv d -> serve rq d h = (d', h', r) -> store_inv d'.
Proof.
  intros Hsafe Hinv. destruct rq; serve_case; revert Hinv;
    try (eapply (with_user_lift (fun d d' => store_inv d -> store_inv d')); [done| |exact E]);
    try (eapply (with_admin_lift (fun d d' => store_inv d -> store_inv d')); [done| |exact E]);
    try (intros u d'' r' Hr);
    try (apply quiet_store_inv; by eauto with store); eauto with store.
  - apply toggle_effect in E as [->|(p & Hp & ->)]; [done|].
    intros [Hs Hc]. split; [exact (toggle_stock_nonneg _ _ _ Hp Hs)|done].
  - apply upload_effect in Hr as [->|(t & Ht & ->)]; [done|]. intros [Hs Hc].
    destruct (upload_pure_safe _ _ _ Hsafe Ht) as (news & -> & Hn).
    split; [by apply stock_nonneg_append|done].
Qed.

(** Stock plus units sold, per product. *)
Definition balanced (d d' : DB) : Prop :=
  forall pid x, stock_of d pid = Some x ->
  exists x', stock_of d' pid = Some x' /\ x' + sold d' pid = x + sold d pid.

Lemma balanced_refl d : balanced d d.
Proof. intros pid x Hx. by exists x. Qed.

Lemma balanced_trans d1 d2 d3 : balanced d1 d2 -> balanced d2 d3 -> balanced d1 d3.
Proof.
  intros H12 H23 pid x Hx. destruct (H12 _ _ Hx) as (y & Hy & Hxy).
  destruct (H23 _ _ Hy) as (z & Hz & Hyz). exists z. split; [done|lia].
Qed.

Lemma serve_balanced rq d h d' h' r :
  is_toggle rq = false -> serve rq d h = (d', h', r) -> balanced d d'.
Proof.
  intros Ht. destruct rq; try discriminate; serve_case;
    try (eapply (with_user_lift balanced); [apply balanced_refl| |exact E]);
    try (eapply (with_admin_lift balanced); [apply balanced_refl| |exact E]);
    try (intros u d'' r' Hr); try (intros q x Hx; eapply quiet_balance; [by eauto with store|exact Hx]).
  - intros pid x. by eapply add_to_cart_stock.
  - intros pid x. by eapply checkout_stock_balance.
  - apply upload_effect in Hr as [->|(t & Ht' & ->)]; [apply balanced_refl|].
    destruct (upload_pure_Ok _ _ _ Ht') as (news & -> & _). intros pid x Hx.
    exists x. split; [by apply stock_of_append|done].
Qed.

End Invariants.

(** C33: along any run of requests, the orders, order lines and events
    of the first database are a prefix of those of the last: no request
    rewrites a committed order, its total or an event. *)
Theorem reachable_history `{PasswordHasher} `{NumParse} `{TfidfVectorizer} `{ArgSort} `{Notifier} s s' : star sys_step s s' -> history (fst s) (fst s').
Proof.
  induction 1 as [s|s1 s2 s3 (J & rq & r & Hs) _ IH]; [apply history_refl|].
  destruct s1, s2. cbn in *. pose proof (serve_history _ _ _ _ _ _ Hs) as (Ho & Hoi & He).
  destruct IH as (Ho' & Hoi' & He'). split; [|split]; etrans; eauto.
Qed.

(** C34: along any run of requests whose CSV uploads carry non-negative
    stocks, stocks stay non-negative and carts well formed (unique
    cart-line rowids, at most one line per product in a cart). *)
Theorem reachable_store_inv `{PasswordHasher} `{NumParse} `{TfidfVectorizer} `{ArgSort} `{Notifier} s s' : star safe_step s s' -> store_inv (fst s) -> store_inv (fst s').
Proof.
  apply (star_invariant safe_step (fun s => store_inv (fst s))).
  intros [d h] [d' h'] Hinv (J & rq & r & Hsafe & Hs). exact (serve_store_inv _ _ _ _ _ _ Hsafe Hinv Hs).
Qed.

(** C35: along any run of requests without the admin's stock toggle,
    every product's stock plus the units sold in order lines stays the
    same (uploads add products but change no existing one). *)
Theorem reachable_conserves_stock `{PasswordHasher} `{NumParse} `{TfidfVectorizer} `{ArgSort} `{Notifier} s s' : star shop_step s s' -> balanced (fst s) (fst s').
Proof.
  induction 1 as [s|s1 s2 s3 (J & rq & r & Ht & Hs) _ IH]; [apply balanced_refl|].
  eapply balanced_trans; [|exact IH]. exact (serve_balanced _ _ _ _ _ _ Ht Hs).
Qed.

(** ** Runs *)

Section Runs.
Context `{PasswordHasher} `{Jwt} `{NumParse} `{TfidfVectorizer} `{ArgSort} `{Notifier}.

Lemma serve_all_star (R : relation (DB * hub_state)) (P : request -> Prop) rqs s :
  (forall rq s, P rq -> R s (serve_all [rq] s)) -> Forall P rqs -> star R s (serve_all rqs s).
Proof.
  intros HR Hall. revert s. induction Hall as [|rq rqs Hrq _ IH]; intros s; [constructor|].
  eapply star_step; [exact (HR rq s Hrq)|]. cbn. apply IH.
Qed.

Lemma serve_one_step rq s :
  exists r, serve rq (fst s) (snd s) = (fst (serve_all [rq] s), snd (serve_all [rq] s), r).
Proof. cbn. destruct (serve rq (fst s) (snd s)) as [[d h] r]. by exists r. Qed.

Lemma sys_step_serve rq s : sys_step s (serve_all [rq] s).
Proof. destruct (serve_one_step rq s) as [r Hr]. by exists _, rq, r. Qed.

Lemma safe_step_serve rq s : rq_safe rq -> safe_step s (serve_all [rq] s).
Proof. intros Hs. destruct (serve_one_step rq s) as [r Hr]. by exists _, rq, r. Qed.

Lemma shop_step_serve rq s : is_toggle rq = false -> shop_step s (serve_all [rq] s).
Proof. intros Hs. destruct (serve_one_step rq s) as [r Hr]. by exists _, rq, r. Qed.
End Runs.

(** ** The inventory socket among the other requests *)

Section Socket.
Context `{PasswordHasher} `{NumParse} `{TfidfVectorizer} `{ArgSort}.

(** A request changes the hub only by a broadcast, or as the socket
    endpoint connecting or dropping a socket. *)
Lemma serve_hub `{Jwt} `{Notifier} rq d h d' h' r :
  serve rq d h = (d', h', r) ->
  h' = h \/ (exists msg, is_toggle rq = true /\ h' = broadcast msg h) \/
  (exists w, rq = RqWsConnect w /\ h' = connect w h) \/
  (exists w, rq = RqWsReceive w WsClosed /\ h' = disconnect w h).
Proof.
  destruct rq; unfold serve, respond;
    try (destruct (run_handler _ d); intros Hx; invc Hx; by left).
  - unfold toggle_stock_request. destruct (run_handler _ d) as [d1 [msg|e]]; intros Hx; invc Hx;
      [right; left; by exists msg|by left].
  - intros Hx. invc Hx. right; right; left. eauto.
  - intros Hx. invc Hx. destruct ev; [by left|]. right; right; right. eauto.
Qed.

(** Steps of the application that do not close the socket [ws]. *)
Definition ws_step (ws : Z) (s s' : DB * Hub) : Prop :=
  exists (J : Jwt) rq r, rq <> RqWsReceive ws WsClosed /\
    @serve _ J _ _ _ hub_Notifier rq (fst s) (snd s) = (fst s', snd s', r).

Lemma ws_step_live ws s s' : hub_live (snd s) ws -> ws_step ws s s' -> hub_live (snd s') ws.
Proof.
  intros Hl (J & rq & r & Hne & Hs). destruct (serve_hub _ _ _ _ _ _ Hs) as [->|[(msg & _ & ->)|[(w & _ & ->)|(w & -> & ->)]]].
  - done.
  - by apply hub_broadcast_keeps.
  - by apply hub_connect_keeps.
  - apply hub_disconnect_keeps; [|done]. intros ->. by apply Hne.
Qed.

Lemma ws_step_serve `{Jwt} ws rq s : rq <> RqWsReceive ws WsClosed -> ws_step ws s (serve_all [rq] s).
Proof. intros Hne. destruct (serve_one_step rq (s : DB * @hub_state hub_Notifier)) as [r Hr]. by exists _, rq, r. Qed.

(** C36: only the admin's stock toggle sends anything on the hub:
    every other request, a checkout that lowers stock included, leaves
    what each socket has received unchanged; clients are never told of
    stock that checkouts or uploads change. *)
Theorem only_toggle_notifies `{Jwt} `{NotifierLaws} rq d h d' h' r :
  is_toggle rq = false -> serve rq d h = (d', h', r) -> forall ws, inbox h' ws = inbox h ws.
Proof.
  intros Ht Hs ws. destruct (serve_hub _ _ _ _ _ _ Hs) as [->|[(msg & Ht' & _)|[(w & _ & ->)|(w & _ & ->)]]].
  - done.
  - by rewrite Ht in Ht'.
  - apply connect_inbox.
  - apply disconnect_inbox.
Qed.

(** C29: a client of [/ws/inventory] receives every stock toggle while
    its socket is open: after [hub.connect(ws)], along any run of
    requests (other clients connecting or leaving, checkouts, uploads,
    toggles, ...) that does not close [ws], an admin toggle answering
    [stock] delivers [{product_id, stock}] to [ws], at least once. *)
Theorem inventory_ws_delivers `{Jwt} ws s1 s2 tok pid d3 h3 st :
  star (ws_step ws) (fst s1, hub_connect ws (snd s1)) s2 ->
  serve (RqToggleStock tok pid) (fst s2) (snd s2) = (d3, h3, Ok (RespStock st)) ->
  exists n, (0 < n)%nat /\ hub_inbox h3 ws = hub_inbox (snd s2) ws ++ repeat (mkStockUpdate pid st) n.
Proof.
  intros Hrun Hs. apply (star_invariant _ (fun s => hub_live (snd s) ws)) in Hrun;
    [|apply ws_step_live|apply hub_connect_live].
  revert Hs. unfold serve.
  match goal with |- context [?T] => lazymatch T with toggle_stock_request _ _ _ _ =>
    destruct T as [[d' h'] [x|e]] eqn:Ht end end; intros Hx; invc Hx.
  apply toggle_broadcast in Ht as ->.
  apply (broadcast_delivers (H := hub_Notifier)). by apply hub_broadcast_keeps.
Qed.
End Socket.

Import Fixtures AuthFixtures AdminFixtures.

(** Users 7 and 8 each hold 3 of product A (stock 5) in their carts;
    user 1 is the administrator. *)
Definition race_db : DB :=
  set_users (fun _ => [seed_admin; User.mkUser 7 "u7@demo.dev" (hash_password "pw7") false;
                       User.mkUser 8 "u8@demo.dev" (hash_password "pw8") false]) scenario_race.

Definition demo_state : DB * @hub_state hub_Notifier := (race_db, demo_hub).

Definition tok (uid : Z) : option string := Some (bearer (jwt_encode uid)).

Definition demo_run : list request :=
  [RqAddToCart (tok 7) 1 0; RqCheckout (tok 7); RqToggleStock (tok 1) 1; RqCheckout (tok 8);
   RqTrack "view" (Some 1) None; RqUploadCsv (tok 1) [lamp_row]].

Definition shop_run : list request :=
  [RqCheckout (tok 7); RqCheckout (tok 8); RqSignup "ann@demo.dev" "secret"; RqUploadCsv (tok 1) [lamp_row]].

Lemma reachable_history_witness :
  history race_db (fst (serve_all demo_run demo_state)).
Proof.
  apply (reachable_history demo_state).
  apply (serve_all_star _ (fun _ => True)); [intros; apply sys_step_serve|repeat constructor].
Defined.

Lemma reachable_store_inv_witness :
  store_inv (fst (serve_all demo_run demo_state)).
Proof.
  apply (reachable_store_inv demo_state).
  - apply (serve_all_star _ rq_safe); [intros; by apply safe_step_serve|].
    repeat constructor; cbn. intros z Hz. vm_compute in Hz. invc Hz. lia.
  - split; [apply stock_nonneg_rows; vm_compute; reflexivity|].
    split; apply (bool_decide_unpack _); vm_compute; reflexivity.
Defined.

Lemma reachable_conserves_stock_witness :
  balanced race_db (fst (serve_all shop_run demo_state)).
Proof.
  apply (reachable_conserves_stock demo_state).
  apply (serve_all_star _ (fun rq => is_toggle rq = false)); [intros; by apply shop_step_serve|].
  repeat constructor.
Defined.

(** Serialised, the specification's race scenario holds: of two
    checkouts of 3 against a stock of 5, the first succeeds and the
    second fails naming the product, leaving a stock of 2. *)
Example serial_checkouts_scenario :
  let '(d1, h1, r1) := serve (RqCheckout (tok 7)) race_db demo_hub in
  let '(d2, h2, r2) := serve (RqCheckout (tok 8)) d1 h1 in
  r1 = Ok (RespOrder 1 (5997 # 100)) /\
  r2 = Err (HTTPException 400 "Insufficient stock for A") /\
  stock_of d2 1 = Some 2.
Proof. vm_compute. split_and!; reflexivity. Qed.

(** After a successful checkout lowers product A from 5 to 2, the
    connected listener 1 has received nothing, while an admin toggle of
    the same product is delivered to it. *)
Example checkout_does_not_broadcast :
  let '(d1, h1, _) := serve (RqCheckout (tok 7)) race_db demo_hub in
  let '(_, h2, _) := serve (RqToggleStock (tok 1) 1) d1 h1 in
  stock_of race_db 1 = Some 5 /\ stock_of d1 1 = Some 2 /\
  hub_inbox h1 1 = [] /\ hub_inbox h2 1 = [mkStockUpdate 1 0].
Proof. vm_compute. split_and!; reflexivity. Qed.

(** Client 3 connects; client 4 connects and leaves; user 7 checks out;
    then the admin toggles product A. *)
Definition ws_run : list request :=
  [RqWsConnect 4; RqWsReceive 3 (WsText "ping"); RqCheckout (tok 7); RqWsReceive 4 WsClosed].

Definition ws_state : DB * Hub := serve_all ws_run (race_db, hub_connect 3 demo_hub).

Definition ws_toggle : DB * Hub * result response :=
  serve (RqToggleStock (tok 1) 1) (fst ws_state) (snd ws_state).

Lemma inventory_ws_delivers_witness :
  exists n, (0 < n)%nat /\
    hub_inbox (snd (fst ws_toggle)) 3 = hub_inbox (snd ws_state) 3 ++ repeat (mkStockUpdate 1 0) n.
Proof.
  apply (inventory_ws_delivers 3 (race_db, demo_hub) ws_state (tok 1) 1 (fst (fst ws_toggle))).
  - change (star (ws_step 3) (race_db, hub_connect 3 demo_hub) (serve_all ws_run (race_db, hub_connect 3 demo_hub))).
    apply (@serve_all_star _ _ _ _ _ hub_Notifier _ (fun rq => rq <> RqWsReceive 3 WsClosed));
      [intros; by apply ws_step_serve|].
    repeat constructor; discriminate.
  - vm_compute. reflexivity.
Defined.

Lemma only_toggle_notifies_witness :
  hub_inbox (snd (fst (serve (RqCheckout (tok 7)) race_db demo_hub))) 1 = hub_inbox demo_hub 1.
Proof.
  apply (@only_toggle_notifies _ _ _ _ _ hub_Notifier _ (RqCheckout (tok 7)) race_db demo_hub
           (fst (fst (@serve _ _ _ _ _ hub_Notifier (RqCheckout (tok 7)) race_db demo_hub))) _
           (snd (@serve _ _ _ _ _ hub_Notifier (RqCheckout (tok 7)) race_db demo_hub))); reflexivity.
Defined.
