(* ===== verification/Tokens.v ===== *)
(** * Tokens: [create_access_token] and the expiry of [jwt.decode] ([src/auth.py] 13-15, 27-40)

    [create_access_token] adds to the claims an ["exp"] of
    [utcnow() + ACCESS_TOKEN_EXPIRE_MINUTES] (60 by default) and signs
    them with [SECRET_KEY] under [HS256]; python-jose's [jwt.decode]
    checks the signature, then raises [ExpiredSignatureError] (a
    [JWTError]) when ["exp"] is before the current time.  Times are
    seconds since the epoch ([Z]): python-jose stores ["exp"] as the
    integer timestamp of the datetime.  The signature scheme is the
    class [TokenCodec]: [verify] returns the claims of a token it
    signed and nothing for any other string.  The [Jwt] interface the
    handlers use is the codec read at the time a request is served,
    [jwt_at now], and [serve_at now] is [System.serve] at that time:
    the file ends with what a token is worth across requests. *)

From S2P Require Import Prelude Models Session Auth Cart Checkout Recs Admin Analytics Pages System.

(** auth.py line 15, with its default. *)
Definition ACCESS_TOKEN_EXPIRE_MINUTES : Z := 60.

(** The claims of a token: ["sub"] (already read by [int(..)]: [None]
    when it is not an integer) and ["exp"]. *)
Record Claims := mkClaims { claim_sub : option Z; claim_exp : Z }.

Class TokenCodec := {
  sign : Claims -> string;
  verify : string -> option Claims
}.

Class TokenCodecLaws `{TokenCodec} := {
  verify_sign c : verify (sign c) = Some c;
  (** [header.payload.signature] *)
  sign_nonempty c : sign c <> EmptyString
}.

Section Tokens.
Context `{TokenCodec}.

(** [expires_delta or timedelta(minutes=ACCESS_TOKEN_EXPIRE_MINUTES)]
    in seconds: [None] and a zero [timedelta] (which is false) give
    the default. *)
Definition token_lifetime_of (expires_delta : option Z) : Z :=
  match expires_delta with
  | Some delta => if Z.eqb delta 0 then ACCESS_TOKEN_EXPIRE_MINUTES * 60 else delta
  | None => ACCESS_TOKEN_EXPIRE_MINUTES * 60
  end.

(** [create_access_token({"sub": str(uid)}, expires_delta)] at time [now]. *)
Definition create_access_token (now : Z) (uid : Z) (expires_delta : option Z) : string :=
  sign (mkClaims (Some uid) (now + token_lifetime_of expires_delta)).

(** [jwt.decode(token, ...)] and [int(payload.get("sub"))] at time [now]:
    [None] when it raises [JWTError] (bad signature, or expired). *)
Definition decode_at (now : Z) (tok : string) : option (option Z) :=
  match verify tok with
  | None => None
  | Some c => if claim_exp c <? now then None else Some (claim_sub c)
  end.

(** The token functions a request served at [now] uses. *)
Definition jwt_at (now : Z) : Jwt := {|
  jwt_encode uid := create_access_token now uid None;
  jwt_decode := decode_at now
|}.
End Tokens.

(** ** Lemmas *)

Section TokenLemmas.
Context `{TokenCodecLaws}.

Lemma decode_at_create t0 t uid delta :
  decode_at t (create_access_token t0 uid delta) =
  if t0 + token_lifetime_of delta <? t then None else Some (Some uid).
Proof. unfold decode_at, create_access_token. by rewrite verify_sign. Qed.

(** Within one request, a token the server issues decodes to its
    subject: the law every theorem on the handlers assumes. *)
#[export] Instance jwt_at_laws now : @JwtLaws (jwt_at now).
Proof.
  split; intros uid; cbn; unfold decode_at, create_access_token; [|apply sign_nonempty].
  rewrite verify_sign. cbn [claim_exp claim_sub token_lifetime_of].
  match goal with |- context [if ?b then _ else _] => destruct b eqn:E end; [|done].
  exfalso. first [apply Z.ltb_lt in E | apply Z.leb_le in E]; unfold ACCESS_TOKEN_EXPIRE_MINUTES in E; lia.
Qed.
End TokenLemmas.

(** Within one request: a token issued at [t0], presented at [t] with
    the header [Bearer <token>], gives the account until [t0 + 3600]
    inclusive and 401 "Invalid token" from then on. *)
Lemma token_lifetime `{TokenCodecLaws} t0 t uid d :
  run_handler (@current_user (jwt_at t) (Some (bearer (@jwt_encode (jwt_at t0) uid)))) d =
  (d, if t0 + ACCESS_TOKEN_EXPIRE_MINUTES * 60 <? t then Err (HTTPException 401 "Invalid token")
      else match get (users d) uid with
           | Some u => Ok u
           | None => Err (HTTPException 404 "User not found")
           end).
Proof.
  rewrite current_user_run, auth_user_bearer by apply sign_nonempty.
  change (@jwt_decode (jwt_at t)) with (decode_at t). cbn [jwt_encode jwt_at].
  rewrite decode_at_create. cbn [token_lifetime_of].
  by destruct (_ <? t).
Qed.

(** ** Tokens across requests *)

Section Sessions.
Context `{PasswordHasher} `{TokenCodecLaws} `{NumParse} `{TfidfVectorizer} `{ArgSort} `{Notifier}.

(** A request served at time [now]. *)
Definition serve_at (now : Z) (rq : request) (d : DB) (h : hub_state) : DB * hub_state * result response :=
  @serve _ (jwt_at now) _ _ _ _ rq d h.

(** C13: a token the store hands out at [t0] (from signup or login)
    works for 60 minutes.  Presented as [Bearer <token>] at any later
    time [t <= t0 + 3600], the dependencies of [get_current_user] accept
    it as the account it was issued for, on whatever database the store
    then has (404 once that account is gone).  From [t0 + 3600 + 1]
    on, every endpoint behind [get_current_user] or [get_current_admin]
    answers 401 "Invalid token" and changes neither the database nor
    the hub. *)
Theorem token_session_lifetime t0 t rq0 d h d1 h1 tok :
  serve_at t0 rq0 d h = (d1, h1, Ok (RespToken tok)) ->
  (exists uid, @jwt_decode (jwt_at t0) tok = Some (Some uid) /\
     (t <= t0 + ACCESS_TOKEN_EXPIRE_MINUTES * 60 -> forall d2,
      run_handler (@current_user (jwt_at t) (Some (bearer tok))) d2 =
      (d2, match get (users d2) uid with Some u => Ok u | None => Err (HTTPException 404 "User not found") end))) /\
  (t0 + ACCESS_TOKEN_EXPIRE_MINUTES * 60 < t -> forall rq d2 h2,
     rq_authorization rq = Some (Some (bearer tok)) ->
     serve_at t rq d2 h2 = (d2, h2, Err (HTTPException 401 "Invalid token"))).
Proof.
  intros Hs. apply serve_token in Hs as [uid ->]. split.
  - exists uid. split; [apply jwt_roundtrip|].
    intros Ht d2. rewrite token_lifetime. by replace (_ <? t) with false by lia.
  - intros Ht rq d2 h2 Hrq. apply (serve_auth_refused (H0 := jwt_at t) _ _ _ _ _ Hrq).
    pose proof (token_lifetime t0 t uid d2) as Hl. rewrite current_user_run in Hl.
    replace (_ <? t) with true in Hl by lia. by injection Hl.
Qed.
End Sessions.

(** ** Accounts across requests *)

Section Accounts.
Context `{PasswordLaws} `{TokenCodecLaws}.

(** C28: signing up at [t0] with a new email commits one non-admin
    account holding the hash of the password and returns the token
    [create_access_token] issues for it at [t0]; sent as
    [Bearer <token>], that token authenticates as the new account at
    every time up to [t0 + 3600].  Logging in at any time [t1] with the
    same email and password returns the token issued at [t1] for the
    same account, which is the signup's token exactly when [t1 = t0]
    (the tokens carry their expiry). *)
Theorem signup_login_roundtrip d email password t0 :
  user_by_email d email = None ->
  let d' := set_users (fun t => insert_row t (new_account d email password)) d in
  let uid := next_id (users d) in
  run_handler (@api_signup _ (jwt_at t0) email password) d = (d', Ok (create_access_token t0 uid None)) /\
  (forall t, t <= t0 + ACCESS_TOKEN_EXPIRE_MINUTES * 60 ->
     run_handler (@current_user (jwt_at t) (Some (bearer (create_access_token t0 uid None)))) d' =
     (d', Ok (new_account d email password))) /\
  (forall t1, snd (run_handler (@api_login _ (jwt_at t1) email password) d') = Ok (create_access_token t1 uid None) /\
     (create_access_token t1 uid None = create_access_token t0 uid None <-> t1 = t0)).
Proof.
  intros Hnone d' uid. split; [by rewrite api_signup_run, Hnone|]. split.
  - intros t Ht. change (create_access_token t0 uid None) with (@jwt_encode (jwt_at t0) uid).
    rewrite (token_lifetime t0 t uid d'). replace (_ <? t) with false by lia.
    unfold d', uid. cbn -[get next_id]. rewrite get_insert_row, get_next_id.
    cbn -[next_id]. by rewrite Z.eqb_refl.
  - intros t1. split.
    + unfold run_handler, api_login, bind, read, ret. unfold d'. cbn -[user_by_email set_users].
      rewrite user_by_email_insert, Hnone. cbn. rewrite String.eqb_refl. cbn. by rewrite verify_hash.
    + split; [|by intros ->]. intros Heq. apply (f_equal verify) in Heq.
      unfold create_access_token in Heq. rewrite !verify_sign in Heq. injection Heq. lia.
Qed.
End Accounts.

(** ** A codec satisfying the laws *)

Module TokenFixtures.
Import AuthFixtures.

(** The claims as text: the subject, a dot, the expiry. *)
Definition dot : Ascii.ascii := Ascii.Ascii false true true true false true false false.

Definition sub_text (s : option Z) : string :=
  match s with Some z => encode_sub z | None => "x" end.

Fixpoint split_dot (s : string) : string * string :=
  match s with
  | EmptyString => (EmptyString, EmptyString)
  | String c r => if Ascii.eqb c dot then (EmptyString, r) else let '(a, b) := split_dot r in (String c a, b)
  end.

Definition text_sign (c : Claims) : string := String.append (sub_text (claim_sub c)) (String dot (encode_sub (claim_exp c))).

Definition text_verify (s : string) : option Claims :=
  let '(a, b) := split_dot s in
  match decode_sub b with
  | Some (Some e) =>
      if String.eqb a "x" then Some (mkClaims None e)
      else match decode_sub a with Some (Some z) => Some (mkClaims (Some z) e) | _ => None end
  | _ => None
  end.

#[export] Instance text_codec : TokenCodec := {| sign := text_sign; verify := text_verify |}.

Lemma split_dot_pos_bits p r : split_dot (String.append (pos_bits p) (String dot r)) = (pos_bits p, r).
Proof. induction p as [p IH|p IH|]; simpl; [rewrite IH|rewrite IH|]; done. Qed.

Lemma split_dot_sub s r : split_dot (String.append (sub_text s) (String dot r)) = (sub_text s, r).
Proof. destruct s as [[|p|p]|]; simpl; try done; by rewrite split_dot_pos_bits. Qed.

Lemma decode_encode_sub z : decode_sub (encode_sub z) = Some (Some z).
Proof. exact (jwt_roundtrip (H := test_jwt) z). Qed.

#[export] Instance text_codec_laws : TokenCodecLaws.
Proof.
  split; intros [s e]; [|by destruct s as [[]|]]. cbn. unfold text_verify, text_sign. cbn [claim_sub claim_exp].
  rewrite split_dot_sub, decode_encode_sub.
  destruct s as [z|]; [|done]. cbn [sub_text]. rewrite decode_encode_sub.
  by destruct z.
Qed.
End TokenFixtures.

Import AuthFixtures TokenFixtures.


Import AdminFixtures.

(** The administrator logs in at time 0; the token still authenticates
    at 3600 s, and at 4000 s the same token is refused on the cart
    endpoint, with nothing changed. *)
Definition admin_login_at_0 : DB * @hub_state hub_Notifier * result response :=
  serve_at 0 (RqLogin "admin@demo.dev" "admin123") accounts_db demo_hub.

Lemma admin_login_at_0_eq :
  serve_at 0 (RqLogin "admin@demo.dev" "admin123") accounts_db demo_hub =
  (fst (fst admin_login_at_0), snd (fst admin_login_at_0), Ok (RespToken (create_access_token 0 1 None))).
Proof. vm_compute. reflexivity. Qed.

Lemma token_session_lifetime_witness :
  run_handler (@current_user (jwt_at 3600) (Some (bearer (create_access_token 0 1 None)))) accounts_db =
    (accounts_db, Ok seed_admin) /\
  serve_at 4000 (RqGetCart (Some (bearer (create_access_token 0 1 None)))) accounts_db demo_hub =
    (accounts_db, demo_hub, Err (HTTPException 401 "Invalid token")).
Proof.
  split.
  - destruct (proj1 (token_session_lifetime 0 3600 _ _ _ _ _ _ admin_login_at_0_eq)) as (uid & Hdec & Hlive).
    vm_compute in Hdec. injection Hdec as <-. rewrite (Hlive ltac:(vm_compute; discriminate)). reflexivity.
  - apply (proj2 (token_session_lifetime 0 4000 _ _ _ _ _ _ admin_login_at_0_eq)); [vm_compute; reflexivity|reflexivity].
Defined.

(** Ann signs up at time 0; her token still works at 3600 s, and a
    login at 60 s returns another token for the same account. *)
Lemma signup_login_roundtrip_witness :
  let d' := set_users (fun t => insert_row t (new_account accounts_db "ann@demo.dev" "secret")) accounts_db in
  let uid := next_id (users accounts_db) in
  run_handler (@api_signup _ (jwt_at 0) "ann@demo.dev" "secret") accounts_db = (d', Ok (create_access_token 0 uid None)) /\
  (forall t, t <= 0 + ACCESS_TOKEN_EXPIRE_MINUTES * 60 ->
     run_handler (@current_user (jwt_at t) (Some (bearer (create_access_token 0 uid None)))) d' =
     (d', Ok (new_account accounts_db "ann@demo.dev" "secret"))) /\
  (forall t1, snd (run_handler (@api_login _ (jwt_at t1) "ann@demo.dev" "secret") d') = Ok (create_access_token t1 uid None) /\
     (create_access_token t1 uid None = create_access_token 0 uid None <-> t1 = 0)).
Proof. apply signup_login_roundtrip. vm_compute. reflexivity. Defined.

