(* ===== verification/Seed.v ===== *)
(** * Seed: [on_startup] ([src/main.py] 19-43)

    At startup the application creates the tables and, in one session,
    adds the administrator account if [admin@demo.dev] is missing, the
    category [Gadgets] with four demo products (each with its two
    variant titles) if there is no category at all, and the feature
    flag [experiments] if it is missing; then commits.  [init_db]'s
    [create_all] is the shape of [DB] itself. *)

From S2P Require Import Prelude Models Session Auth Cart Checkout Admin System.

Section Seed.
Context `{PasswordHasher}.

(** The [Product(...)] of lines 32-35 before [category_id] is known. *)
Record DemoProduct := mkDemo {
  demo_title : string; demo_description : string; demo_price : Q; demo_stock : Z; demo_image : string }.

Definition demo_products : list DemoProduct := [
  mkDemo "Pocket Drone" "Mini foldable drone with HD camera and gesture control." (12999 # 100) 12
    "https://images.unsplash.com/photo-1518770660439-4636190af475";
  mkDemo "Smart Mug" "Self-heating mug keeps your coffee at the perfect temperature." 89 30
    "https://images.unsplash.com/photo-1511920170033-f8396924c348";
  mkDemo "Sleep Headband" "Bluetooth sleep mask with ultra‑thin speakers for side sleepers." (395 # 10) 50
    "https://images.unsplash.com/photo-1522335789203-aabd1fc54bc9";
  mkDemo "Air Quality Clip" "Wearable sensor that tracks VOCs, PM2.5, and CO2 with alerts." (599 # 10) 22
    "https://images.unsplash.com/photo-1520607162513-77705c0f0d4a"].

(** Lines 37-40: the variant titles, then [s.add(p)] with the next rowid. *)
Definition add_demo (cat_id : Z) (p : DemoProduct) : M unit :=
  write (set_products (fun t => insert_row t
    (Product.mkProduct (next_id t) (demo_title p) (demo_description p) (demo_price p)
       (Some (demo_image p)) (demo_stock p) (Some cat_id)
       (Some (String.append "🔥 " (demo_title p)))
       (Some (String.append (demo_title p) " — Pro Edition")) None None))).

Fixpoint add_demos (cat_id : Z) (ps : list DemoProduct) : M unit :=
  match ps with
  | [] => ret tt
  | p :: rest => add_demo cat_id p ;; add_demos cat_id rest
  end.

(** Lines 24-26. *)
Definition seed_admin_step : M unit :=
  admin <- read (fun d => user_by_email d "admin@demo.dev") ;;
  match admin with
  | Some _ => ret tt
  | None => write (set_users (fun t => insert_row t
              (User.mkUser (next_id t) "admin@demo.dev" (hash_password "admin123") true)))
  end.

(** Lines 27-40: [s.flush()] gives the category its rowid. *)
Definition seed_catalog_step : M unit :=
  cats <- read categories ;;
  match cats with
  | _ :: _ => ret tt
  | [] =>
      cat_id <- read (fun d => next_id (categories d)) ;;
      write (set_categories (fun t => insert_row t (Category.mkCategory cat_id "Gadgets" "gadgets"))) ;;
      add_demos cat_id demo_products
  end.

(** Lines 41-42. *)
Definition seed_flag_step : M unit :=
  flag <- read (fun d => flag_by_name d "experiments") ;;
  match flag with
  | Some _ => ret tt
  | None => write (set_flags (fun t => insert_row t (FeatureFlag.mkFeatureFlag (next_id t) "experiments" true)))
  end.

(** [on_startup] after [init_db()]. *)
Definition on_startup : M unit :=
  seed_admin_step ;; seed_catalog_step ;; seed_flag_step ;; commit.
End Seed.

(** ** The seed as a function of the database *)

Section SeedPure.
Context `{PasswordHasher}.

Definition seed_admin_row (t : list User) : User :=
  User.mkUser (next_id t) "admin@demo.dev" (hash_password "admin123") true.

Definition demo_row (cat_id : Z) (t : list Product) (p : DemoProduct) : Product :=
  Product.mkProduct (next_id t) (demo_title p) (demo_description p) (demo_price p)
    (Some (demo_image p)) (demo_stock p) (Some cat_id)
    (Some (String.append "🔥 " (demo_title p)))
    (Some (String.append (demo_title p) " — Pro Edition")) None None.

Definition add_demos_pure (cat_id : Z) (ps : list DemoProduct) (d : DB) : DB :=
  fold_left (fun d p => set_products (fun t => insert_row t (demo_row cat_id t p)) d) ps d.

Definition seed_admin_pure (d : DB) : DB :=
  match user_by_email d "admin@demo.dev" with
  | Some _ => d
  | None => set_users (fun t => insert_row t (seed_admin_row t)) d
  end.

Definition seed_catalog_pure (d : DB) : DB :=
  match categories d with
  | _ :: _ => d
  | [] => let cid := next_id (categories d) in
          add_demos_pure cid demo_products
            (set_categories (fun t => insert_row t (Category.mkCategory cid "Gadgets" "gadgets")) d)
  end.

Definition seed_flag_pure (d : DB) : DB :=
  match flag_by_name d "experiments" with
  | Some _ => d
  | None => set_flags (fun t => insert_row t (FeatureFlag.mkFeatureFlag (next_id t) "experiments" true)) d
  end.

Definition seed_pure (d : DB) : DB := seed_flag_pure (seed_catalog_pure (seed_admin_pure d)).

Lemma add_demos_run cid ps s :
  add_demos cid ps s = (mkSession (committed s) (add_demos_pure cid ps (working s)), Ok tt).
Proof.
  revert s. induction ps as [|p ps IH]; intros s; cbn; [by destruct s|].
  unfold bind, add_demo, write. cbn. by rewrite IH.
Qed.

(** A step that only changes the working database by [f]. *)
Definition works (m : M unit) (f : DB -> DB) : Prop :=
  forall s, m s = (mkSession (committed s) (f (working s)), Ok tt).

Lemma works_seq m1 m2 f1 f2 : works m1 f1 -> works m2 f2 -> works (m1 ;; m2) (fun d => f2 (f1 d)).
Proof. intros H1 H2 s. unfold bind. rewrite H1, H2. done. Qed.

Lemma seed_admin_works : works seed_admin_step seed_admin_pure.
Proof. intros [c w]. unfold seed_admin_step, seed_admin_pure, bind, read. cbn. by destruct (user_by_email w _). Qed.

Lemma seed_catalog_works : works seed_catalog_step seed_catalog_pure.
Proof.
  intros [c w]. unfold seed_catalog_step, seed_catalog_pure, bind, read, write. cbn -[add_demos].
  destruct (categories w) eqn:E; [|done]. rewrite add_demos_run. cbn -[add_demos_pure]. by rewrite E.
Qed.

Lemma seed_flag_works : works seed_flag_step seed_flag_pure.
Proof. intros [c w]. unfold seed_flag_step, seed_flag_pure, bind, read. cbn. by destruct (flag_by_name w _). Qed.

Lemma on_startup_run d : run_handler on_startup d = (seed_pure d, Ok tt).
Proof.
  unfold run_handler, on_startup, bind at 1. rewrite seed_admin_works.
  unfold bind at 1. rewrite seed_catalog_works. unfold bind at 1. rewrite seed_flag_works. done.
Qed.
End SeedPure.


(** ** Idempotence and the store invariant *)

Section SeedTheorems.
Context `{PasswordHasher}.

Lemma add_demos_pure_shape cid ps d :
  exists news, add_demos_pure cid ps d = set_products (fun _ => products d ++ news) d /\
    map Product.stock news = map demo_stock ps.
Proof.
  unfold add_demos_pure. revert d. induction ps as [|p ps IH]; intros d; cbn [fold_left].
  - exists []. rewrite app_nil_r. by destruct d.
  - destruct (IH (set_products (fun t => insert_row t (demo_row cid t p)) d)) as (news & -> & Hs).
    exists (demo_row cid (products d) p :: news). cbn. split; [|by rewrite Hs].
    unfold insert_row. by rewrite <- app_assoc.
Qed.

Lemma seed_admin_found d : exists u, user_by_email (seed_admin_pure d) "admin@demo.dev" = Some u.
Proof.
  unfold seed_admin_pure. destruct (user_by_email d _) as [u|] eqn:E; [by exists u|].
  change (set_users (fun t => insert_row t (seed_admin_row t)) d)
    with (set_users (fun t => insert_row t (seed_admin_row (users d))) d).
  rewrite user_by_email_insert, E. cbn. eauto.
Qed.

Lemma add_demos_pure_frame cid ps d :
  let d' := add_demos_pure cid ps d in
  users d' = users d /\ categories d' = categories d /\ cart_items d' = cart_items d /\ flags d' = flags d.
Proof. destruct (add_demos_pure_shape cid ps d) as (news & -> & _). done. Qed.

Lemma seed_catalog_users d : users (seed_catalog_pure d) = users d.
Proof.
  unfold seed_catalog_pure. destruct (categories d); [|done]. cbn zeta.
  by rewrite (proj1 (add_demos_pure_frame _ _ _)).
Qed.

Lemma seed_catalog_nonempty d : categories (seed_catalog_pure d) <> [].
Proof.
  unfold seed_catalog_pure. destruct (categories d) eqn:E; [|by rewrite E]. cbn zeta.
  rewrite (proj1 (proj2 (add_demos_pure_frame _ _ _))). cbn. rewrite E. done.
Qed.

Lemma seed_flag_found d : exists f, flag_by_name (seed_flag_pure d) "experiments" = Some f.
Proof.
  unfold seed_flag_pure. destruct (flag_by_name d _) as [f|] eqn:E; [by exists f|].
  unfold flag_by_name in *. cbn. unfold insert_row. rewrite find_app, E. cbn. eauto.
Qed.

Lemma seed_flag_frame d : users (seed_flag_pure d) = users d /\ categories (seed_flag_pure d) = categories d.
Proof. unfold seed_flag_pure. by destruct (flag_by_name d _). Qed.

Lemma user_by_email_users d d' e : users d' = users d -> user_by_email d' e = user_by_email d e.
Proof. unfold user_by_email. by intros ->. Qed.

Lemma seed_pure_fixed d : seed_pure (seed_pure d) = seed_pure d.
Proof.
  set (e := seed_pure d).
  assert (Ha : seed_admin_pure e = e).
  { destruct (seed_admin_found d) as [u Hu]. unfold seed_admin_pure.
    rewrite (user_by_email_users (seed_admin_pure d)), Hu; [done|].
    unfold e, seed_pure. rewrite (proj1 (seed_flag_frame _)). apply seed_catalog_users. }
  assert (Hc : seed_catalog_pure e = e).
  { unfold seed_catalog_pure. pose proof (seed_catalog_nonempty (seed_admin_pure d)) as Hn.
    unfold e, seed_pure. rewrite (proj2 (seed_flag_frame _)). by destruct (categories _). }
  unfold seed_pure at 1. rewrite Ha, Hc. unfold e, seed_pure, seed_flag_pure at 1.
  by destruct (seed_flag_found (seed_catalog_pure (seed_admin_pure d))) as [f ->].
Qed.

Lemma seed_pure_store_inv d : store_inv d -> store_inv (seed_pure d).
Proof.
  intros [Hs Hc]. unfold seed_pure, seed_flag_pure, seed_catalog_pure, seed_admin_pure.
  assert (Hq : forall d', products d' = products d -> cart_items d' = cart_items d -> store_inv d').
  { intros d' Hp Hci. split; [intros q x; rewrite (stock_of_products _ _ Hp); apply Hs|].
    unfold cart_wf, cart_lines_unique. rewrite Hci. exact Hc. }
  destruct (user_by_email d _), (categories _) eqn:E; try (destruct (flag_by_name _ _); by apply Hq).
  all: match goal with |- context [add_demos_pure ?c ?ps ?d0] =>
         destruct (add_demos_pure_shape c ps d0) as (news & -> & Hn) end.
  all: assert (Hnn : Forall (fun p => 0 <= Product.stock p) news)
         by (apply Forall_forall; intros p Hp; apply list_elem_of_In, (in_map Product.stock) in Hp;
             rewrite Hn in Hp; cbn in Hp; intuition lia).
  all: destruct (flag_by_name _ _); (split; [|exact Hc]);
    intros q x Hx; exact (stock_nonneg_append _ news Hs Hnn q x Hx).
Qed.

(** C32: [on_startup] is idempotent: running it on the database it
    produced changes nothing, so restarting the application never
    duplicates the administrator, the demo catalog or the flag; and it
    keeps stocks non-negative and carts well formed. *)
Theorem on_startup_idempotent d :
  run_handler on_startup (fst (run_handler on_startup d)) = run_handler on_startup d /\
  (store_inv d -> store_inv (fst (run_handler on_startup d))).
Proof. rewrite !on_startup_run. cbn. rewrite seed_pure_fixed. split; [done|apply seed_pure_store_inv]. Qed.
End SeedTheorems.

(** The database [init_db] creates: every table empty. *)
Definition empty_db : DB := mkDB [] [] [] [] [] [] [] [] [].

Import AuthFixtures.

Lemma on_startup_idempotent_witness :
  run_handler on_startup (fst (run_handler on_startup empty_db)) = run_handler on_startup empty_db /\
  store_inv (fst (run_handler on_startup empty_db)).
Proof.
  destruct (on_startup_idempotent empty_db) as [H1 H2]. split; [exact H1|apply H2].
  split; [apply stock_nonneg_rows; reflexivity|split; constructor].
Defined.
