(* ===== verification/Keys.v ===== *)
(** * Keys: the well-formedness of the database

    The schema of [src/models.py] declares a primary key on every table
    and unique indexes on [User.email] and [FeatureFlag.name];
    [Category.slug] is declared unique too.  The handlers also keep one
    cart per user ([get_or_create_cart] creates one only when the user
    has none) and one line per product in a cart ([add_to_cart] merges);
    the schema declares neither ([Cart.user_id] and the pair
    [CartItem.cart_id, product_id] carry no UNIQUE), so these hold
    because requests are served one at a time.
    [db_wf] gathers these; every request preserves it, [on_startup]
    preserves it, and so every database the application reaches from
    the empty one satisfies it. *)

From S2P Require Import Prelude Models Session Auth Cart Checkout Recs Admin Analytics Pages System Seed.

Definition db_wf (d : DB) : Prop :=
  ids_unique (users d) /\ emails_unique d /\
  ids_unique (categories d) /\ NoDup (map Category.slug (categories d)) /\
  ids_unique (products d) /\
  ids_unique (carts d) /\ NoDup (map Cart.user_id (carts d)) /\
  cart_wf d /\
  ids_unique (orders d) /\ ids_unique (order_items d) /\ ids_unique (events d) /\
  flags_wf d.

(** ** One table at a time *)

Section Setters.
Implicit Types (d : DB).

Lemma wf_set_users f d :
  db_wf d -> ids_unique (f (users d)) -> NoDup (map User.email (f (users d))) -> db_wf (set_users f d).
Proof. unfold db_wf, emails_unique. cbn. tauto. Qed.

Lemma wf_set_categories f d :
  db_wf d -> ids_unique (f (categories d)) -> NoDup (map Category.slug (f (categories d))) ->
  db_wf (set_categories f d).
Proof. unfold db_wf, emails_unique. cbn. tauto. Qed.

Lemma wf_set_products f d : db_wf d -> ids_unique (f (products d)) -> db_wf (set_products f d).
Proof. unfold db_wf. cbn. tauto. Qed.

Lemma wf_set_carts f d :
  db_wf d -> ids_unique (f (carts d)) -> NoDup (map Cart.user_id (f (carts d))) -> db_wf (set_carts f d).
Proof. unfold db_wf. cbn. tauto. Qed.

Lemma wf_set_orders f d : db_wf d -> ids_unique (f (orders d)) -> db_wf (set_orders f d).
Proof. unfold db_wf. cbn. tauto. Qed.

Lemma wf_set_order_items f d : db_wf d -> ids_unique (f (order_items d)) -> db_wf (set_order_items f d).
Proof. unfold db_wf. cbn. tauto. Qed.

Lemma wf_set_events f d : db_wf d -> ids_unique (f (events d)) -> db_wf (set_events f d).
Proof. unfold db_wf. cbn. tauto. Qed.

Lemma wf_cart_wf d d' :
  db_wf d -> cart_wf d' -> users d' = users d -> categories d' = categories d ->
  products d' = products d -> carts d' = carts d -> orders d' = orders d ->
  order_items d' = order_items d -> events d' = events d -> flags d' = flags d -> db_wf d'.
Proof.
  unfold db_wf, emails_unique, flags_wf. intros Hw Hc -> -> -> -> -> -> -> ->. tauto.
Qed.

Lemma wf_flags d d' :
  db_wf d -> flags_wf d' -> users d' = users d -> categories d' = categories d ->
  products d' = products d -> carts d' = carts d -> cart_items d' = cart_items d -> orders d' = orders d ->
  order_items d' = order_items d -> events d' = events d -> db_wf d'.
Proof.
  unfold db_wf, emails_unique, cart_wf, cart_lines_unique. intros Hw Hc -> -> -> -> -> -> -> ->. tauto.
Qed.

(** A new row with the next rowid. *)
Lemma ids_unique_insert_next_fun {A} `{HasId A} (t : list A) (mk : Z -> A) :
  ids_unique t -> row_id (mk (next_id t)) = next_id t -> ids_unique (insert_row t (mk (next_id t))).
Proof. intros Hu Hr. by apply ids_unique_insert_next. Qed.

Lemma update_row_ids_unique {A} `{HasId A} (t : list A) r : ids_unique t -> ids_unique (update_row t r).
Proof. unfold ids_unique. by rewrite update_row_ids. Qed.
End Setters.

#[export] Hint Resolve update_row_ids_unique : store.

Ltac wf_parts Hw :=
  let Hu := fresh "Hu" in let He := fresh "He" in let Hc := fresh "Hc" in let Hs := fresh "Hs" in
  let Hp := fresh "Hp" in let Hca := fresh "Hca" in let Hcu := fresh "Hcu" in let Hci := fresh "Hci" in
  let Ho := fresh "Ho" in let Hoi := fresh "Hoi" in let Hev := fresh "Hev" in let Hf := fresh "Hf" in
  pose proof Hw as (Hu & He & Hc & Hs & Hp & Hca & Hcu & Hci & Ho & Hoi & Hev & Hf).

(** ** The cart and checkout handlers *)

Lemma goc_wf d u : db_wf d -> db_wf (fst (goc_pure d u)).
Proof.
  intros Hw. wf_parts Hw. unfold goc_pure. destruct (cart_of_user d u) eqn:E; [done|]. cbn.
  apply wf_set_carts; [done|by apply ids_unique_insert_next|].
  apply NoDup_snoc_map; [done|]. exact (find_zkey_None Cart.user_id _ _ E).
Qed.

Lemma apply_line_wf u oid it p d : db_wf d -> db_wf (apply_line u oid it p d).
Proof.
  intros Hw. unfold apply_line. apply wf_set_events; [apply wf_set_order_items; [apply wf_set_products|]|].
  - done.
  - wf_parts Hw. by apply update_row_ids_unique.
  - wf_parts Hw. by apply ids_unique_insert_next.
  - wf_parts Hw. by apply ids_unique_insert_next.
Qed.

Lemma apply_lines_wf u oid items d d' : db_wf d -> apply_lines u oid items d = Some d' -> db_wf d'.
Proof.
  revert d. induction items as [|it items IH]; intros d Hw Ha; cbn in Ha; [by invc Ha|].
  destruct (get (products d) (CartItem.product_id it)); [|done]. eapply IH; [|exact Ha].
  by apply apply_line_wf.
Qed.

Lemma delete_lines_wf items d : db_wf d -> db_wf (delete_lines items d).
Proof.
  intros Hw. pose proof (delete_lines_frame items d) as (Hu & Hc & Hp & Hca & Ho & Hoi & He & Hf).
  wf_parts Hw. eapply wf_cart_wf; [exact Hw| | done..].
  destruct Hci as [Hid Hl]. unfold cart_wf, cart_lines_unique, ids_unique in *.
  rewrite delete_lines_cart_items. split; by apply NoDup_map_filter.
Qed.

Lemma checkout_wf u d d' r : db_wf d -> run_handler (checkout u) d = (d', r) -> db_wf d'.
Proof.
  intros Hw Hc. pose proof (goc_wf d u Hw) as Hw1.
  pose proof (checkout_cases _ _ _ _ Hc) as Hcase. destruct (goc_pure d u) as [d1 c].
  cbn in Hw1, Hcase. destruct Hcase as [(e & -> & ->)|(t & d3 & _ & _ & Ha & -> & ->)]; [done|].
  apply delete_lines_wf. eapply apply_lines_wf; [|exact Ha].
  apply wf_set_orders; [done|]. wf_parts Hw1. by apply ids_unique_insert_next.
Qed.

Lemma merge_line_frame_wf d cid pid qty : db_wf d -> db_wf (merge_line d cid pid qty).
Proof.
  intros Hw. wf_parts Hw. eapply wf_cart_wf; [exact Hw|by apply merge_line_wf|..];
    unfold merge_line; by destruct (find_item d cid pid).
Qed.

Lemma add_to_cart_wf u pid qty d d' r : db_wf d -> run_handler (add_to_cart u pid qty) d = (d', r) -> db_wf d'.
Proof.
  intros Hw. rewrite add_to_cart_run. unfold add_to_cart_spec.
  destruct (get (products d) pid); [|intros H; by invc H].
  destruct (Product.stock _ <? qty); [intros H; by invc H|].
  pose proof (goc_wf d u Hw) as Hw1. destruct (goc_pure d u) as [d1 c]. intros H. invc H.
  pose proof (merge_line_frame_wf d1 (Cart.id c) pid qty Hw1) as Hw2.
  apply wf_set_events; [done|]. wf_parts Hw2. by apply ids_unique_insert_next.
Qed.

Lemma get_cart_wf u d d' r : db_wf d -> run_handler (get_cart u) d = (d', r) -> db_wf d'.
Proof.
  intros Hw. rewrite get_cart_run. pose proof (goc_wf d u Hw) as Hw1.
  destruct (goc_pure d u) as [d1 c]. intros H. by invc H.
Qed.

(** ** The other handlers *)

Section Handlers.
Context `{PasswordHasher} `{Jwt} `{NumParse} `{TfidfVectorizer} `{ArgSort} `{Notifier}.

Lemma api_signup_wf e p d d' r : db_wf d -> run_handler (api_signup e p) d = (d', r) -> db_wf d'.
Proof.
  intros Hw Hr. wf_parts Hw. pose proof (api_signup_preserves_accounts _ _ _ _ _ Hu He Hr) as [Hu' He'].
  revert Hr. rewrite api_signup_run. destruct (user_by_email d e); intros Hr; invc Hr; [done|].
  by apply wf_set_users.
Qed.

Lemma api_login_same e p d d' r : run_handler (api_login e p) d = (d', r) -> d' = d.
Proof.
  unfold run_handler, api_login, bind, read, ret, bad_request, raise. cbn.
  destruct (user_by_email d e) as [u|]; [destruct (verify_password _ _)|]; intros Hr; by invc Hr.
Qed.

Lemma product_page_same pid d d' r : run_handler (product_page pid) d = (d', r) -> d' = d.
Proof.
  unfold run_handler, product_page, bind, read, recommend_for_product, raise, ret. cbn.
  destruct (get _ _); [destruct (recommend _ _ _)|]; intros Hr; by invc Hr.
Qed.

Lemma analytics_summary_same d d' r : run_handler analytics_summary d = (d', r) -> d' = d.
Proof. unfold run_handler, analytics_summary, read. intros Hr. by invc Hr. Qed.

Lemma track_wf ty pid user d d' r : db_wf d -> run_handler (track ty pid user) d = (d', r) -> db_wf d'.
Proof.
  unfold run_handler, track, add_event, bind, write, commit, ret. cbn. intros Hw Hr. invc Hr.
  apply wf_set_events; [done|]. wf_parts Hw. by apply ids_unique_insert_next.
Qed.

Lemma admin_flags_wf name en d d' r : db_wf d -> run_handler (admin_flags name en) d = (d', r) -> db_wf d'.
Proof.
  intros Hw Hr. wf_parts Hw. pose proof (admin_flags_effect _ _ _ _ _ Hf Hr) as (_ & Hf' & _).
  revert Hr. rewrite admin_flags_run. intros Hr. invc Hr.
  eapply wf_flags; [exact Hw|exact Hf'|..]; by destruct (flag_by_name d name).
Qed.

Lemma admin_upload_wf rows d d' r : db_wf d -> run_handler (admin_upload rows) d = (d', r) -> db_wf d'.
Proof.
  intros Hw Hr. apply upload_effect in Hr as [->|(t & Ht & ->)]; [done|].
  apply wf_set_products; [done|]. wf_parts Hw. destruct (upload_pure_Ok _ _ _ Ht) as (news & _ & _ & Hi). by apply Hi.
Qed.

Lemma toggle_wf tok pid d h d' h' r : db_wf d -> toggle_stock_request tok pid d h = (d', h', r) -> db_wf d'.
Proof.
  intros Hw Hr. apply toggle_effect in Hr as [->|(p & _ & ->)]; [done|].
  apply wf_set_products; [done|]. wf_parts Hw. by apply update_row_ids_unique.
Qed.

Lemma same_wf d d' : d' = d -> db_wf d -> db_wf d'.
Proof. by intros ->. Qed.

#[local] Hint Resolve api_signup_wf add_to_cart_wf get_cart_wf checkout_wf track_wf
  admin_flags_wf admin_upload_wf : store.

(** One request keeps the database well formed. *)
Lemma serve_db_wf rq d h d' h' r : db_wf d -> serve rq d h = (d', h', r) -> db_wf d'.
Proof.
  intros Hw. destruct rq; serve_case; revert Hw;
    try (eapply (with_user_lift (fun d d' => db_wf d -> db_wf d')); [done| |exact E]);
    try (eapply (with_admin_lift (fun d d' => db_wf d -> db_wf d')); [done| |exact E]);
    try (intros u d'' r' Hr); eauto with store.
  all: first [ by intros; eapply toggle_wf
             | apply api_login_same in E as ->; done
             | apply product_page_same in E as ->; done
             | apply analytics_summary_same in Hr as ->; done
             | rewrite home_run in E; by invc E
             | rewrite admin_page_run in Hr; by invc Hr ].
Qed.
End Handlers.

(** ** Startup *)

Section Startup.
Context `{PasswordHasher}.

Lemma add_demos_wf cid ps d : db_wf d -> db_wf (add_demos_pure cid ps d).
Proof.
  unfold add_demos_pure. revert d. induction ps as [|p ps IH]; intros d Hw; cbn [fold_left]; [done|].
  apply IH. apply wf_set_products; [done|]. wf_parts Hw. by apply ids_unique_insert_next.
Qed.

Lemma seed_admin_wf d : db_wf d -> db_wf (seed_admin_pure d).
Proof.
  intros Hw. wf_parts Hw. unfold seed_admin_pure. destruct (user_by_email d _) eqn:E; [done|].
  apply wf_set_users; [done|by apply ids_unique_insert_next|].
  apply NoDup_snoc_map; [done|]. exact (user_by_email_None _ _ E).
Qed.

Lemma seed_catalog_wf d : db_wf d -> db_wf (seed_catalog_pure d).
Proof.
  intros Hw. unfold seed_catalog_pure. destruct (categories d) eqn:E; [|done]. cbn zeta.
  apply add_demos_wf. apply wf_set_categories; [done| |]; rewrite E; cbn;
    repeat constructor; set_solver.
Qed.

Lemma seed_flag_wf d : db_wf d -> db_wf (seed_flag_pure d).
Proof.
  intros Hw. wf_parts Hw. destruct Hf as [Hfi Hfn]. unfold seed_flag_pure.
  destruct (flag_by_name d _) eqn:E; [done|].
  eapply wf_flags; [exact Hw| |done..]. split; [by apply ids_unique_insert_next|].
  apply NoDup_snoc_map; [done|]. exact (find_key_None FeatureFlag.name _ _ E).
Qed.

Lemma on_startup_wf d : db_wf d -> db_wf (fst (run_handler on_startup d)).
Proof.
  intros Hw. rewrite on_startup_run. cbn. unfold seed_pure.
  by apply seed_flag_wf, seed_catalog_wf, seed_admin_wf.
Qed.
End Startup.

Lemma empty_db_wf : db_wf empty_db.
Proof. repeat split; cbn; constructor. Qed.

(** ** The database stays well formed *)

Section Reachable.
Context `{PasswordHasher} `{NumParse} `{TfidfVectorizer} `{ArgSort} `{Notifier}.

(** C22: the database is well formed in every state the application
    reaches: start from a well-formed database (the empty one [init_db]
    creates, say), run [on_startup], then serve any sequence of
    requests; every table keeps unique rowids, emails, category slugs,
    the one-cart-per-user key, cart lines unique per product and flag
    names stay unique. *)
Theorem reachable_db_wf d0 h s :
  db_wf d0 -> star sys_step (fst (run_handler on_startup d0), h) s -> db_wf (fst s).
Proof.
  intros Hw Hs. apply (star_invariant sys_step (fun s => db_wf (fst s))) in Hs; [done| |by apply on_startup_wf].
  intros [d h1] [d' h'] Hd (J & rq & r & Hr). exact (serve_db_wf _ _ _ _ _ _ Hd Hr).
Qed.
End Reachable.

Import Fixtures AuthFixtures AdminFixtures.

Definition startup_run : list request :=
  [RqSignup "ann@demo.dev" "secret"; RqAddToCart (tok 2) 1 2; RqAddToCart (tok 2) 1 1;
   RqCheckout (tok 2); RqUploadCsv (tok 1) [lamp_row]; RqSetFlag (tok 1) "experiments" false;
   RqSignup "ann@demo.dev" "again"; RqToggleStock (tok 1) 1].

Definition startup_state : DB * @hub_state hub_Notifier :=
  (fst (run_handler on_startup empty_db), demo_hub).

Lemma reachable_db_wf_witness :
  db_wf empty_db /\
  db_wf (fst (serve_all startup_run startup_state)).
Proof.
  split; [exact empty_db_wf|].
  apply (reachable_db_wf empty_db (snd startup_state)); [exact empty_db_wf|].
  apply (serve_all_star _ (fun _ => True)); [intros; apply sys_step_serve|repeat constructor].
Defined.
