(* ===== verification/CartRace.v ===== *)
(** * CartRace: concurrent [add_to_cart] requests ([src/main.py] 79-102)

    [add_to_cart] talks to the shared database at five points: it reads
    the product and checks the stock; [get_or_create_cart] selects the
    user's cart and, when there is none, inserts one and commits; it
    selects the cart's line for the product (loading it into the
    session); and it writes the line ([item.qty += qty] on the loaded
    value, or a new [CartItem]) with the event in one commit.  Requests
    interleave between these points.  The schema has no UNIQUE on
    [Cart.user_id] nor on [(CartItem.cart_id, product_id)], so nothing
    stops two requests that both saw no cart, or no line, from both
    inserting one.  The steps are those of the handler [add_to_cart]
    of [Cart], cut at the points where it reads or commits. *)

From S2P Require Import Prelude Models Session Cart Checkout Keys.

(** Where an [add_to_cart] request is. *)
Inductive aphase :=
  | AStart                                  (* before [session.get(Product, ..)] *)
  | AChecked                                (* the stock check passed *)
  | ACreate                                 (* no cart was found: [Cart(user_id=..)] *)
  | ACart (cid : Z)                         (* [get_or_create_cart] returned *)
  | AItem (cid : Z) (item : option CartItem) (* the line, as loaded *)
  | ADone (r : result unit).

Record athread := mkAThread { a_uid : Z; a_pid : Z; a_qty : Z; a_phase : aphase }.

Definition aset (t : athread) (ph : aphase) : athread := mkAThread (a_uid t) (a_pid t) (a_qty t) ph.

(** The write and commit at the end of [add_to_cart] (95-101). *)
Definition add_write (d : DB) (t : athread) (cid : Z) (item : option CartItem) : DB :=
  set_events (fun e => insert_row e (Event.mkEvent (next_id e) (Some (a_uid t)) "add_to_cart" (Some (a_pid t)) None))
    (match item with
     | Some it => set_cart_items (fun c => update_row c (CartItem.set_qty it (CartItem.qty it + a_qty t))) d
     | None => set_cart_items (fun c => insert_row c (CartItem.mkCartItem (next_id c) cid (a_pid t) (a_qty t))) d
     end).

(** One step of a request against the shared database. *)
Definition step_add (d : DB) (t : athread) : option (DB * athread) :=
  match a_phase t with
  | AStart =>
      match get (products d) (a_pid t) with
      | Some p => if Product.stock p <? a_qty t
                  then Some (d, aset t (ADone (Err (HTTPException 400 "Insufficient stock"))))
                  else Some (d, aset t AChecked)
      | None => Some (d, aset t (ADone (Err (HTTPException 400 "Insufficient stock"))))
      end
  | AChecked =>
      match cart_of_user d (a_uid t) with
      | Some c => Some (d, aset t (ACart (Cart.id c)))
      | None => Some (d, aset t ACreate)
      end
  | ACreate =>
      let c := Cart.mkCart (next_id (carts d)) (a_uid t) in
      Some (set_carts (fun cs => insert_row cs c) d, aset t (ACart (Cart.id c)))
  | ACart cid => Some (d, aset t (AItem cid (find_item d cid (a_pid t))))
  | AItem cid item => Some (add_write d t cid item, aset t (ADone (Ok tt)))
  | ADone _ => None
  end.

(** Concurrent [add_to_cart] requests on the shared database. *)
Definition aworld : Type := pool DB athread.
Definition astep : aworld -> aworld -> Prop := pstep step_add.
Definition run_aschedule : list nat -> aworld -> aworld := run_pool step_add.

(** ** Races *)

Import Fixtures.

(** An [add_to_cart] request that has not started. *)
Definition adder (uid pid qty : Z) : athread := mkAThread uid pid qty AStart.

(** Products A (stock 5) and B; nobody has a cart yet. *)
Definition no_cart_db : DB := mkDB [] [] [prodA; prodB] [] [] [] [] [] [].

Definition two_carts_run : aworld :=
  run_aschedule [0; 1; 0; 1; 0; 1; 0; 0; 1; 1]%nat (mkPool no_cart_db [adder 7 1 3; adder 7 1 3]).

Definition two_lines_run : aworld :=
  run_aschedule [0; 1; 0; 1; 0; 1; 0; 1]%nat (mkPool scenario_empty [adder 7 1 3; adder 7 1 3]).

Definition lost_add_run : aworld :=
  run_aschedule [0; 1; 0; 1; 0; 1; 0; 1]%nat (mkPool scenario_ok [adder 7 1 2; adder 7 1 2]).

(** C12: interleaved [add_to_cart] requests break the keys the
    handlers keep.  Two requests of a user without a cart both see no
    cart and both create one: both succeed and the user has two carts,
    so [db_wf] fails.  Two requests adding A x 3 to an empty cart both
    see no line and both insert one: the cart holds A on two lines, and
    the checkout that follows sells 6 of a stock of 5, leaving -1.  Two
    requests adding A x 2 to a line of A x 2 both load the line with
    quantity 2 and both write 4: one increment is lost. *)
Theorem concurrent_add_to_cart_races :
  (exists w, star astep (mkPool no_cart_db [adder 7 1 3; adder 7 1 3]) w /\
     map a_phase (threads_of w) = [ADone (Ok tt); ADone (Ok tt)] /\
     map Cart.user_id (carts (shared_of w)) = [7; 7] /\ ~ db_wf (shared_of w)) /\
  (exists w, star astep (mkPool scenario_empty [adder 7 1 3; adder 7 1 3]) w /\
     map a_phase (threads_of w) = [ADone (Ok tt); ADone (Ok tt)] /\ ~ cart_wf (shared_of w) /\
     exists d', run_handler (checkout 7) (shared_of w) = (d', Ok (1, 11994 # 100)) /\ stock_of d' 1 = Some (-1)) /\
  (exists w, star astep (mkPool scenario_ok [adder 7 1 2; adder 7 1 2]) w /\
     map a_phase (threads_of w) = [ADone (Ok tt); ADone (Ok tt)] /\ cart_qty (shared_of w) 1 1 = 4).
Proof.
  split_and!.
  - exists two_carts_run. split; [apply run_pool_star|].
    assert (Hc : map Cart.user_id (carts (shared_of two_carts_run)) = [7; 7]) by (vm_compute; reflexivity).
    split_and!; [vm_compute; reflexivity|exact Hc|].
    intros (_ & _ & _ & _ & _ & _ & Hcu & _). rewrite Hc in Hcu.
    apply NoDup_cons in Hcu as [Hn _]. set_solver.
  - exists two_lines_run. split; [apply run_pool_star|].
    split_and!; [vm_compute; reflexivity| |eexists; split; vm_compute; reflexivity].
    intros [_ Hl]. vm_compute in Hl. apply NoDup_cons in Hl as [Hn _]. set_solver.
  - exists lost_add_run. split; [apply run_pool_star|]. split; vm_compute; reflexivity.
Qed.
