(* ===== verification/MixedRace.v ===== *)
(** * MixedRace: [add_to_cart] and [checkout] requests interleaved ([src/main.py] 88-142)

    The request threads of [Interleave] (checkout) and of [CartRace]
    ([add_to_cart]) in one pool over the shared database.  [checkout]
    validates the cart lines it selected and charges their total in
    the [Order] of its first commit; that commit expires the lines, and
    the commit loop reloads each one, with the quantity it has then,
    to decrement stock and write the [OrderItem]; the second commit
    deletes the lines by rowid.  An [add_to_cart] to the same line that
    commits between the validation and the reload is ordered without
    being validated or charged; one that commits between the reload
    and the second commit is deleted with the line. *)

From S2P Require Import Prelude Models Session Cart Checkout Interleave CartRace.

(** A request thread of either kind. *)
Inductive rthread := RCheckout (t : thread) | RAdd (t : athread).

Definition step_req (d : DB) (r : rthread) : option (DB * rthread) :=
  match r with
  | RCheckout t => match step_thread d t with Some (d', t') => Some (d', RCheckout t') | None => None end
  | RAdd t => match step_add d t with Some (d', t') => Some (d', RAdd t') | None => None end
  end.

Definition rstep : pool DB rthread -> pool DB rthread -> Prop := pstep step_req.

(** ** A checkout that swallows a concurrent add *)

Import Fixtures.

(** User 7's cart holds A x 2 (stock 5): a checkout and an
    [add_to_cart] of A x [q] by the same user. *)
Definition checkout_and_add (q : Z) : pool DB rthread :=
  mkPool scenario_ok [RCheckout (mkThread 7 Start); RAdd (adder 7 1 q)].

(** The checkout validates; the add runs to its end; the checkout
    commits its order and reloads the line. *)
Definition unvalidated_run : pool DB rthread :=
  run_pool step_req [0; 1; 1; 1; 1; 1; 0; 0; 0]%nat (checkout_and_add 4).

(** The checkout commits its order and reloads the line; the add runs
    to its end; the checkout makes its second commit. *)
Definition swallowed_run : pool DB rthread :=
  run_pool step_req [0; 0; 0; 1; 1; 1; 1; 1; 0]%nat (checkout_and_add 3).

(** C11: an [add_to_cart] that runs while a checkout of the same cart
    is in progress corrupts the order.  When the add (A x 4) commits
    after the checkout validated A x 2 and before the checkout reloads
    the line, both requests succeed: the order's total charges 2 units
    (39.98) while its order line records 6, the stock of 5 ends at -1
    and the cart is empty; run one after the other, either request is
    refused for stock instead.  When the add (A x 3) commits after the
    reload and before the second commit, both succeed, the order holds
    the 2 units and the cart ends empty: the 3 units added are neither
    ordered nor in the cart, where add then checkout orders 5 and
    checkout then add leaves 3 in the cart. *)
Theorem add_during_checkout_lost :
  (exists w, star rstep (checkout_and_add 4) w /\
    threads_of w = [RCheckout (mkThread 7 (Finished (Ok (1, 3998 # 100))));
                    RAdd (mkAThread 7 1 4 (ADone (Ok tt)))] /\
    map Order.total (orders (shared_of w)) = [3998 # 100] /\
    map OrderItem.qty (order_items (shared_of w)) = [6] /\
    stock_of (shared_of w) 1 = Some (-1) /\ cart_items (shared_of w) = [] /\
    snd (run_handler (checkout 7) (fst (run_handler (add_to_cart 7 1 4) scenario_ok))) =
      Err (HTTPException 400 "Insufficient stock for A") /\
    snd (run_handler (add_to_cart 7 1 4) (fst (run_handler (checkout 7) scenario_ok))) =
      Err (HTTPException 400 "Insufficient stock")) /\
  (exists w, star rstep (checkout_and_add 3) w /\
    threads_of w = [RCheckout (mkThread 7 (Finished (Ok (1, 3998 # 100))));
                    RAdd (mkAThread 7 1 3 (ADone (Ok tt)))] /\
    cart_items (shared_of w) = [] /\ map OrderItem.qty (order_items (shared_of w)) = [2] /\
    map OrderItem.qty (order_items (fst (run_handler (checkout 7) (fst (run_handler (add_to_cart 7 1 3) scenario_ok))))) = [5] /\
    map CartItem.qty (cart_items (fst (run_handler (add_to_cart 7 1 3) (fst (run_handler (checkout 7) scenario_ok))))) = [3]).
Proof.
  split.
  - exists unvalidated_run. split; [apply run_pool_star|]. split_and!; vm_compute; reflexivity.
  - exists swallowed_run. split; [apply run_pool_star|]. split_and!; vm_compute; reflexivity.
Qed.
