(* ===== verification/Money.v ===== *)
(** * Money: prices as Python floats ([src/main.py] 109-113, 127-129)

    The rest of the development computes money in [Q]: a price is the
    decimal the catalog holds, [p.price * it.qty] is [qmul], and
    [round(x, 2)] is [round2].  The code computes in IEEE 754 binary64:
    the price read from SQLite is the double nearest the decimal, the
    product is a rounded multiplication, and [round(x, 2)] (CPython's
    correctly rounded [float.__round__]) rounds the exact value of the
    double half-to-even at two decimals and returns the double nearest
    that decimal.  Rocq's primitive [float] is binary64 with rounding to
    nearest, ties to even, as CPython's floats are.

    This file models the line subtotal of [get_cart] in binary64 and
    shows where the rational model computes the same cents: for every
    price with whole cents below 100.00 and every quantity from 1 to 10
    (a check over all 10^5 cases by evaluation).  At a price with a
    third decimal the two differ: 1.015 is stored as a double just
    below 1.015 and rounds to 1.01. *)

From S2P Require Import Prelude Models Cart.
From Stdlib Require Import Floats.PrimFloat Floats.FloatOps Floats.SpecFloat Numbers.Cyclic.Int63.Uint63.

(** [float(n)] of a Python int: exact below [2^53]. *)
Definition float_of_Z (z : Z) : float :=
  if Z.ltb z 0 then PrimFloat.opp (PrimFloat.of_uint63 (Uint63.of_Z (- z)))
  else PrimFloat.of_uint63 (Uint63.of_Z z).

(** The double nearest a decimal [n / d] ([float("19.99")], or the
    [REAL] SQLite stores): one correctly rounded division of two exact
    doubles. *)
Definition to_float (q : Q) : float := PrimFloat.div (float_of_Z (Qnum q)) (float_of_Z (Zpos (Qden q))).

(** The exact value of a finite double. *)
Definition sf_value (f : spec_float) : Q :=
  match f with
  | S754_finite s m e =>
      let z := if s then Z.neg m else Z.pos m in
      if Z.leb 0 e then inject_Z (z * 2 ^ e) else z # Z.to_pos (2 ^ (- e))
  | _ => 0
  end.

Definition float_value (f : float) : Q := sf_value (Prim2SF f).

(** [x * n] for a float [x] and a Python int [n]. *)
Definition py_mul_int (x : float) (n : Z) : float := PrimFloat.mul x (float_of_Z n).

(** [round(x, 2)]: the exact value rounded half to even at two
    decimals, then the nearest double. *)
Definition py_round2 (x : float) : float := to_float (round2 (float_value x)).

(** The ["subtotal"] of a line of [get_cart] (line 112), in binary64. *)
Definition float_subtotal (p : Product) (it : CartItem) : float :=
  py_round2 (py_mul_int (to_float (Product.price p)) (CartItem.qty it)).

(** The cents [round(price * qty, 2)] computes, for [c] cents and [q]. *)
Definition float_cents (c q : Z) (p : float) : Z := round_half_even (float_value (py_mul_int p q) * 100).

(** All quantities [1..10] at [c] cents agree. *)
Definition cents_agree (c : Z) : bool :=
  let p := to_float (c # 100) in
  forallb (fun q => Z.eqb (float_cents c q p) (round_half_even (qmul (c # 100) q * 100))) (seqZ 1 10).

(** ** The bounded agreement *)

Lemma cents_agree_all : forallb cents_agree (seqZ 0 10000) = true.
Proof. vm_compute. reflexivity. Qed.

Lemma forallb_seqZ (f : Z -> bool) lo n x :
  forallb f (seqZ lo n) = true -> lo <= x < lo + n -> f x = true.
Proof.
  intros Hall Hx. apply forallb_forall with (x := x) in Hall; [done|].
  apply list_elem_of_In, elem_of_seqZ. lia.
Qed.

(** The subtotal of one line, in binary64, at whole cents: a check
    of every price below 100.00 and every quantity from 1 to 10. *)
Lemma float_subtotal_cents c p it :
  Product.price p = c # 100 -> 0 <= c < 10000 -> 1 <= CartItem.qty it <= 10 ->
  float_subtotal p it = to_float (line_subtotal (cart_line p it)).
Proof.
  intros Hp Hc Hq. unfold float_subtotal, py_round2, cart_line, round2. cbn [line_subtotal].
  rewrite Hp. do 2 f_equal.
  pose proof (forallb_seqZ _ 0 10000 c cents_agree_all ltac:(lia)) as Hagree.
  unfold cents_agree in Hagree. apply Z.eqb_eq.
  exact (forallb_seqZ _ 1 10 (CartItem.qty it) Hagree ltac:(lia)).
Qed.

(** C17: the subtotal [get_cart] computes in binary64,
    [round(p.price * it.qty, 2)], is the double nearest the subtotal of
    the rational model ([line_subtotal] of [cart_line]) for every price
    of whole cents below 100.00 and every quantity from 1 to 10.  Prices
    are decimals in the specification and floats in the code, and with
    a third decimal the two part: at 1.015 the code's subtotal for one
    unit is 1.01 (the double stored for 1.015 lies just below it), while
    the decimal subtotal, and the rational model's, is 1.02. *)
Theorem float_subtotal_refines :
  (forall c p it, Product.price p = c # 100 -> 0 <= c < 10000 -> 1 <= CartItem.qty it <= 10 ->
     float_subtotal p it = to_float (line_subtotal (cart_line p it))) /\
  (let p := Fixtures.product 1 "A" (1015 # 1000) 5 in
   let it := CartItem.mkCartItem 1 1 1 1 in
   float_subtotal p it = to_float (101 # 100) /\ line_subtotal (cart_line p it) = 102 # 100 /\
   to_float (101 # 100) <> to_float (102 # 100)).
Proof.
  split; [exact float_subtotal_cents|].
  split_and!; [vm_compute; reflexivity|vm_compute; reflexivity|vm_compute; discriminate].
Qed.

Import Fixtures.

Lemma float_subtotal_refines_witness :
  float_subtotal prodA (CartItem.mkCartItem 1 1 1 2) = to_float (line_subtotal (cart_line prodA (CartItem.mkCartItem 1 1 1 2))).
Proof. apply (proj1 float_subtotal_refines 1999); [reflexivity|lia|cbn; lia]. Defined.
